(** * OccupEye migration: a shallow embedding of the export and
      transform-and-load scripts, with the properties of their specification.

    Sources embedded here:
    - [src/migrateData.ts]: the building-name table, [normalizeBuildingName],
      [downloadImage], [optimizeImage], [uploadToSupabase],
      [clearExistingData], [ensureStorageBucket], [createUniversity],
      [createBuildings], [migrateStudySpots], [migrateLectureHalls],
      [processPhotos] and [migrate];
    - [src/services/fireStoreQueries.ts]: [getAllCollections],
      [getCollectionData], [getSubcollectionData], [saveToJson],
      [exportCollectionToJson], [exportAllCollectionsToJson] and
      [exportCollectionWithSubcollections].

    The relational store, the object storage, the HTTP client, the image codec
    and the document store are external services.  They appear as a record of
    oracles ([Env]); every theorem is stated for an arbitrary such record.

    The two JSON exports the migration reads ([study-rooms.json] and
    [rooms.json]) are read and parsed again by every step that needs them
    ([DataFiles]): a read may throw, and the program never writes the files,
    so the reads of one run agree.  Console output is not modelled. *)

From Stdlib Require Import ZArith Ascii Sorting.Sorted Floats.SpecFloat.
From stdpp Require Import gmap strings list pretty.

#[local] Set Warnings "-register-all".

(** ** JavaScript values that reach the building-name code *)

Module Js.

(** A property read [obj[key]] on an object literal yields an own property
    (here always a string), a member inherited from [Object.prototype], or
    [undefined].  [JInherited key] stands for the member of
    [Object.prototype] stored under [key] (a function, or the prototype
    object itself for [__proto__]); distinct keys hold distinct objects. *)
Inductive Value :=
| JString (s : string)
| JInherited (key : string).

#[global] Instance Value_eq_dec : EqDecision Value.
Proof. solve_decision. Defined.

#[global] Instance Value_countable : Countable Value.
Proof.
  refine (inj_countable'
            (fun v => match v with JString s => inl s | JInherited k => inr k end)
            (fun x => match x with inl s => JString s | inr k => JInherited k end) _).
  by intros [].
Defined.

(** The property names every ordinary object inherits from
    [Object.prototype]. *)
Definition objectPrototypeKeys : list string :=
  [ "constructor"; "__defineGetter__"; "__defineSetter__"; "hasOwnProperty";
    "__lookupGetter__"; "__lookupSetter__"; "isPrototypeOf";
    "propertyIsEnumerable"; "toString"; "valueOf"; "__proto__";
    "toLocaleString" ].

(** [obj[key]] for an object literal whose own properties are [own]. *)
Definition get (own : gmap string string) (key : string) : option Value :=
  match own !! key with
  | Some s => Some (JString s)
  | None => if decide (key ∈ objectPrototypeKeys)
            then Some (JInherited key) else None
  end.

(** Truthiness of a string: only the empty string is falsy. *)
Definition truthy_string (s : string) : bool :=
  match s with EmptyString => false | String _ _ => true end.

(** Truthiness: objects and functions are truthy. *)
Definition truthy (v : Value) : bool :=
  match v with
  | JString s => truthy_string s
  | JInherited _ => true
  end.

(** [a || b] where [a] may be [undefined]. *)
Definition or_else (a : option Value) (b : Value) : Value :=
  match a with
  | Some v => if truthy v then v else b
  | None => b
  end.

(** Template-literal conversion [`${v}`].  The text of a built-in function
    is the engine's placeholder source with the name of the function; the
    member stored under [constructor] is the function [Object], and the one
    under [__proto__] is the prototype object. *)
Definition to_string (v : Value) : string :=
  match v with
  | JString s => s
  | JInherited k =>
      if decide (k = "__proto__") then "[object Object]"
      else if decide (k = "constructor") then "function Object() { [native code] }"
      else "function " +:+ k +:+ "() { [native code] }"
  end.

End Js.

Import Js.

(** ** Building-name normalization ([migrateData.ts], lines 66-83, 166-168) *)

Definition buildingNameMap : gmap string string :=
  list_to_map
    [ ("Peters", "Peters Building");
      ("Peters Building", "Peters Building");
      ("Lazaridis Hall", "Lazaridis Hall");
      ("Science Building", "Science Building");
      ("Science & Research", "Science Building");
      ("Dr. Alvin Woods Building", "Dr. Alvin Woods Building");
      ("Fred Nichols Campus Center", "Fred Nichols Campus Center");
      ("Fred Nichols Campus Centre", "Fred Nichols Campus Center");
      ("Schlegel", "Schlegel Building");
      ("Schlegel Building", "Schlegel Building");
      ("Bricker Academic Building", "Bricker Academic Building");
      ("University Library", "University Library");
      ("Arts", "Arts Building");
      ("Arts Building", "Arts Building");
      ("MLU", "Martin Luther University College") ].

(** [return buildingNameMap[name] || name;] *)
Definition normalizeBuildingName (name : string) : Value :=
  or_else (get buildingNameMap name) (JString name).

(** ** Source records ([migrateData.ts], lines 39-64) *)

(** [interface StudyRoomData]. *)
Record StudyRoomData := {
  sr_id : string;
  sr_name : string;
  sr_building : string;
  sr_spaceType : option string;
  sr_location : string;
  sr_imageURL : option (list string);
  sr_features : list string;
  sr_noiseLevel : string;
  sr_capacity : option Z;
  sr_description : string;
}.

(** The [information] block of a room.  The exported JSON may omit a flag;
    an omitted flag reads as [undefined], here [None]. *)
Record RoomInformation := {
  av_inputs : option string;
  pc : option string;
  whiteboard : option string;
  projector : option string;
}.

(** [interface RoomData]. *)
Record RoomData := {
  rd_id : string;
  rd_building : string;
  rd_photos : list string;
  rd_room : string;
  rd_information : RoomInformation;
}.

(** ** Destination rows: the [data] argument of each [prisma.*.create] *)

Record UniversityData := { un_name : string; un_slug : string }.

Record BuildingData := { bd_name : Value; bd_universityId : string }.

Record StudySpotData := {
  sp_name : string;
  sp_buildingId : string;
  sp_location : string;
  sp_description : string;
  sp_features : list string;
  sp_noiseLevel : string;
  sp_spaceType : option string;
}.

Record LectureHallData := {
  lh_buildingId : string;
  lh_room : string;
  hasAvInputs : bool;
  hasPc : bool;
  hasWhiteboard : bool;
  hasProjector : bool;
}.

Record PhotoData := {
  ph_storagePath : string;
  ph_url : string;
  ph_studySpotId : option string;
  ph_lectureHallId : option string;
}.

(** A stored row: the identifier chosen by the store, and the data. *)
Definition Row (A : Type) : Type := string * A.

Definition Buffer : Type := list Byte.byte.

#[global] Instance byte_eq_dec : EqDecision Byte.byte := Byte.byte_eq_dec.

#[global] Instance Buffer_eq_dec : EqDecision Buffer.
Proof. unfold Buffer. apply _. Defined.

(** ** The external world *)

Inductive Table := TPhoto | TStudySpot | TLectureHall | TBuilding | TUniversity.

#[global] Instance Table_eq_dec : EqDecision Table.
Proof. solve_decision. Defined.

(** Calls made to an external service, in the order they are issued. *)
Inductive Call :=
| CallDeleteMany (t : Table)
| CallListBuckets
| CallCreateBucket (name : string)
| CallCreate (t : Table)
| CallDownload (url : string)
| CallUpload (path : string)
| CallDisconnect.

#[global] Instance Call_eq_dec : EqDecision Call.
Proof. solve_decision. Defined.

Record World := {
  db_photos : list (Row PhotoData);
  db_studySpots : list (Row StudySpotData);
  db_lectureHalls : list (Row LectureHallData);
  db_buildings : list (Row BuildingData);
  db_universities : list (Row UniversityData);
  storage_buckets : list string;
  storage_objects : gmap string Buffer;
  calls : list Call;
}.

Definition emptyWorld : World :=
  {| db_photos := []; db_studySpots := []; db_lectureHalls := [];
     db_buildings := []; db_universities := []; storage_buckets := [];
     storage_objects := ∅; calls := [] |}.

(** The in-process [stats] accumulator (lines 86-93). *)
Record Stats := {
  st_university : nat;
  st_buildings : nat;
  st_studySpots : nat;
  st_lectureHalls : nat;
  st_photos : nat;
  st_errors : list string;
}.

Definition initialStats : Stats :=
  {| st_university := 0; st_buildings := 0; st_studySpots := 0;
     st_lectureHalls := 0; st_photos := 0; st_errors := [] |}.

Record State := { world : World; stats : Stats }.

(** ** Results, and the outcome of an external call *)

(** A computation returns, or throws.  A thrown value is kept as the text its
    template-literal conversion [`${error}`] yields. *)
Inductive Result (A : Type) :=
| Ok (a : A)
| Throw (e : string).
Arguments Ok {A} a.
Arguments Throw {A} e.

(** [`${new Error(msg)}`]. *)
Definition new_Error (msg : string) : string := "Error: " +:+ msg.

(** The external services.  Every oracle sees the world as it is when the
    call is issued, so the same request may be answered differently at
    different times.  [None] from an [_error] oracle means success. *)
Record Env := {
  deleteMany_error : Table → World → option string;
  listBuckets_error : World → option string;
  createBucket_error : World → string → option string;
  university_create : World → UniversityData → Result string;
  building_create : World → BuildingData → Result string;
  studySpot_create : World → StudySpotData → Result string;
  lectureHall_create : World → LectureHallData → Result string;
  photo_create : World → PhotoData → Result string;
  axios_get : World → string → Result Buffer;
  sharp_metadata : Buffer → Result (option Z * option Z);
  sharp_resize_webp : Buffer → option Z → option Z → Z → Result Buffer;
  upload_error : World → string → Buffer → option string;
  getPublicUrl : string → string;
}.

(** ** The data files *)

(** The two files the steps load.  [study_rooms_json] is what
    [JSON.parse(fs.readFileSync(studyRoomsPath, 'utf-8'))] evaluates to: the
    parsed records, or the error thrown when the file is missing or does not
    hold JSON; [rooms_json] is the same for [rooms.json].  The records of a
    file that parses have the shape of the interfaces [StudyRoomData] and
    [RoomData].  Every step reads its files again; the program never writes
    them, so all the reads of a run see the same files. *)
Record DataFiles := {
  study_rooms_json : Result (list StudyRoomData);
  rooms_json : Result (list RoomData);
}.

(** ** State-and-exception monad *)

Definition M (A : Type) : Type := State → Result A * State.

#[global] Instance M_ret : MRet M := fun A a s => (Ok a, s).

#[global] Instance M_bind : MBind M := fun A B k m s =>
  match m s with
  | (Ok a, s') => k a s'
  | (Throw e, s') => (Throw e, s')
  end.

Definition throw {A} (e : string) : M A := fun s => (Throw e, s).

(** [JSON.parse(fs.readFileSync(path, 'utf-8'))] for a data file: the parsed
    records are returned, or the error of the read or of the parse is thrown;
    the state is not touched. *)
Definition readJson {A} (file : Result A) : M A := fun s => (file, s).

(** [try { m } catch (error) { h error }] *)
Definition try_catch {A} (m : M A) (h : string → M A) : M A := fun s =>
  match m s with
  | (Ok a, s') => (Ok a, s')
  | (Throw e, s') => h e s'
  end.

(** [try { m } finally { f }] *)
Definition try_finally {A} (m : M A) (f : M unit) : M A := fun s =>
  match m s with
  | (r, s') =>
      match f s' with
      | (Ok _, s'') => (r, s'')
      | (Throw e, s'') => (Throw e, s'')
      end
  end.

(** [for (const x of l) body] *)
Fixpoint for_of {A} (l : list A) (body : A → M unit) : M unit :=
  match l with
  | [] => mret ()
  | x :: l' => body x ;; for_of l' body
  end.

(** [for (let i = start; i < start + l.length; i++) body(i, l[i - start])] *)
Fixpoint for_index {A} (i : nat) (l : list A) (body : nat → A → M unit) : M unit :=
  match l with
  | [] => mret ()
  | x :: l' => body i x ;; for_index (S i) l' body
  end.

(** The state a computation ends in, and the value it ends with. *)
Definition exec {A} (m : M A) (s : State) : State := (m s).2.
Definition eval {A} (m : M A) (s : State) : Result A := (m s).1.

(** ** World and statistics updates *)

Definition log_call (c : Call) (w : World) : World :=
  {| db_photos := db_photos w; db_studySpots := db_studySpots w;
     db_lectureHalls := db_lectureHalls w; db_buildings := db_buildings w;
     db_universities := db_universities w;
     storage_buckets := storage_buckets w;
     storage_objects := storage_objects w; calls := calls w ++ [c] |}.

Definition set_photos (l : list (Row PhotoData)) (w : World) : World :=
  {| db_photos := l; db_studySpots := db_studySpots w;
     db_lectureHalls := db_lectureHalls w; db_buildings := db_buildings w;
     db_universities := db_universities w;
     storage_buckets := storage_buckets w;
     storage_objects := storage_objects w; calls := calls w |}.

Definition set_studySpots (l : list (Row StudySpotData)) (w : World) : World :=
  {| db_photos := db_photos w; db_studySpots := l;
     db_lectureHalls := db_lectureHalls w; db_buildings := db_buildings w;
     db_universities := db_universities w;
     storage_buckets := storage_buckets w;
     storage_objects := storage_objects w; calls := calls w |}.

Definition set_lectureHalls (l : list (Row LectureHallData)) (w : World) : World :=
  {| db_photos := db_photos w; db_studySpots := db_studySpots w;
     db_lectureHalls := l; db_buildings := db_buildings w;
     db_universities := db_universities w;
     storage_buckets := storage_buckets w;
     storage_objects := storage_objects w; calls := calls w |}.

Definition set_buildings (l : list (Row BuildingData)) (w : World) : World :=
  {| db_photos := db_photos w; db_studySpots := db_studySpots w;
     db_lectureHalls := db_lectureHalls w; db_buildings := l;
     db_universities := db_universities w;
     storage_buckets := storage_buckets w;
     storage_objects := storage_objects w; calls := calls w |}.

Definition set_universities (l : list (Row UniversityData)) (w : World) : World :=
  {| db_photos := db_photos w; db_studySpots := db_studySpots w;
     db_lectureHalls := db_lectureHalls w; db_buildings := db_buildings w;
     db_universities := l;
     storage_buckets := storage_buckets w;
     storage_objects := storage_objects w; calls := calls w |}.

Definition add_bucket (name : string) (w : World) : World :=
  {| db_photos := db_photos w; db_studySpots := db_studySpots w;
     db_lectureHalls := db_lectureHalls w; db_buildings := db_buildings w;
     db_universities := db_universities w;
     storage_buckets := storage_buckets w ++ [name];
     storage_objects := storage_objects w; calls := calls w |}.

(** [upsert: true]: an object already stored at [path] is replaced. *)
Definition put_object (path : string) (b : Buffer) (w : World) : World :=
  {| db_photos := db_photos w; db_studySpots := db_studySpots w;
     db_lectureHalls := db_lectureHalls w; db_buildings := db_buildings w;
     db_universities := db_universities w;
     storage_buckets := storage_buckets w;
     storage_objects := <[path := b]> (storage_objects w); calls := calls w |}.

Definition clear_table (t : Table) (w : World) : World :=
  match t with
  | TPhoto => set_photos [] w
  | TStudySpot => set_studySpots [] w
  | TLectureHall => set_lectureHalls [] w
  | TBuilding => set_buildings [] w
  | TUniversity => set_universities [] w
  end.

Definition table_count (t : Table) (w : World) : nat :=
  match t with
  | TPhoto => length (db_photos w)
  | TStudySpot => length (db_studySpots w)
  | TLectureHall => length (db_lectureHalls w)
  | TBuilding => length (db_buildings w)
  | TUniversity => length (db_universities w)
  end.

Definition set_university (n : nat) (st : Stats) : Stats :=
  {| st_university := n; st_buildings := st_buildings st;
     st_studySpots := st_studySpots st; st_lectureHalls := st_lectureHalls st;
     st_photos := st_photos st; st_errors := st_errors st |}.

Definition incr_buildings (st : Stats) : Stats :=
  {| st_university := st_university st; st_buildings := S (st_buildings st);
     st_studySpots := st_studySpots st; st_lectureHalls := st_lectureHalls st;
     st_photos := st_photos st; st_errors := st_errors st |}.

Definition incr_studySpots (st : Stats) : Stats :=
  {| st_university := st_university st; st_buildings := st_buildings st;
     st_studySpots := S (st_studySpots st); st_lectureHalls := st_lectureHalls st;
     st_photos := st_photos st; st_errors := st_errors st |}.

Definition incr_lectureHalls (st : Stats) : Stats :=
  {| st_university := st_university st; st_buildings := st_buildings st;
     st_studySpots := st_studySpots st; st_lectureHalls := S (st_lectureHalls st);
     st_photos := st_photos st; st_errors := st_errors st |}.

Definition incr_photos (st : Stats) : Stats :=
  {| st_university := st_university st; st_buildings := st_buildings st;
     st_studySpots := st_studySpots st; st_lectureHalls := st_lectureHalls st;
     st_photos := S (st_photos st); st_errors := st_errors st |}.

(** [stats.errors.push(errorMsg)] *)
Definition push_error (errorMsg : string) (st : Stats) : Stats :=
  {| st_university := st_university st; st_buildings := st_buildings st;
     st_studySpots := st_studySpots st; st_lectureHalls := st_lectureHalls st;
     st_photos := st_photos st; st_errors := st_errors st ++ [errorMsg] |}.

Definition get_world : M World := fun s => (Ok (world s), s).

Definition modify_world (f : World → World) : M unit := fun s =>
  (Ok (), {| world := f (world s); stats := stats s |}).

Definition modify_stats (f : Stats → Stats) : M unit := fun s =>
  (Ok (), {| world := world s; stats := f (stats s) |}).

(** [for (const x of l) { acc = body(x, acc) }]: a loop that fills a local
    collection. *)
Fixpoint for_fold {A B} (l : list A) (acc : B) (body : A → B → M B) : M B :=
  match l with
  | [] => mret acc
  | x :: l' => acc' ← body x acc; for_fold l' acc' body
  end.

(** The value of [x] where the code goes on only if [x] is truthy
    ([if (!x) ...]). *)
Definition as_truthy (x : option string) : option string :=
  match x with
  | Some s => if truthy_string s then Some s else None
  | None => None
  end.

(** [x || null] on an optional string. *)
Definition or_null (x : option string) : option string := as_truthy x.

Definition STORAGE_BUCKET : string := "occupeye-photos".

(** ** JavaScript numbers: IEEE 754 binary64 *)

Module Number.

Definition prec : Z := 53.
Definition emax : Z := 1024.

(** The double nearest to an integer (exact below [2^53]). *)
Definition of_Z (z : Z) : spec_float := binary_normalize prec emax z 0 false.

(** The literal [0.3]: the double nearest to three tenths,
    [5404319552844595 * 2^-54]. *)
Definition three_tenths : spec_float :=
  S754_finite false 5404319552844595 (-54).

(** [x * y] *)
Definition mul (x y : spec_float) : spec_float := SFmul prec emax x y.

(** [Math.round(x)]: the integer nearest to [x], the larger one on a tie,
    that is [floor (x + 1/2)] computed exactly; [None] stands for a result
    that is not finite. *)
Definition Math_round (x : spec_float) : option Z :=
  match x with
  | S754_zero _ => Some 0%Z
  | S754_finite s m e =>
      let n := if s then Z.neg m else Z.pos m in
      Some (if (0 <=? e)%Z then n * 2 ^ e
            else (2 * n + 2 ^ (- e)) / 2 ^ (1 - e))%Z
  | S754_infinity _ | S754_nan => None
  end.

(** [n || d] for an optional number that holds an integer: [undefined] and
    [0] are falsy. *)
Definition or_default (n : option Z) (d : Z) : Z :=
  match n with
  | Some Z0 | None => d
  | Some z => z
  end.

End Number.

(** ** The program ([migrateData.ts]) *)

Section Program.

Context (E : Env) (F : DataFiles).

(** *** Calls to the external services *)

(** [await prisma.<t>.deleteMany()]; returns [count]. *)
Definition prisma_deleteMany (t : Table) : M nat :=
  w ← get_world;
  modify_world (log_call (CallDeleteMany t));;
  match deleteMany_error E t w with
  | Some e => throw e
  | None => modify_world (clear_table t);; mret (table_count t w)
  end.

(** [await prisma.<t>.create({ data })]; returns the [id] of the new row. *)
Definition prisma_create {A} (t : Table) (oracle : World → A → Result string)
    (store : Row A → World → World) (data : A) : M string :=
  w ← get_world;
  modify_world (log_call (CallCreate t));;
  match oracle w data with
  | Throw e => throw e
  | Ok id => modify_world (store (id, data));; mret id
  end.

Definition prisma_university_create : UniversityData → M string :=
  prisma_create TUniversity (university_create E)
    (fun r w => set_universities (db_universities w ++ [r]) w).

Definition prisma_building_create : BuildingData → M string :=
  prisma_create TBuilding (building_create E)
    (fun r w => set_buildings (db_buildings w ++ [r]) w).

Definition prisma_studySpot_create : StudySpotData → M string :=
  prisma_create TStudySpot (studySpot_create E)
    (fun r w => set_studySpots (db_studySpots w ++ [r]) w).

Definition prisma_lectureHall_create : LectureHallData → M string :=
  prisma_create TLectureHall (lectureHall_create E)
    (fun r w => set_lectureHalls (db_lectureHalls w ++ [r]) w).

Definition prisma_photo_create : PhotoData → M string :=
  prisma_create TPhoto (photo_create E)
    (fun r w => set_photos (db_photos w ++ [r]) w).

(** [await supabase.storage.listBuckets()]: [inl buckets] is [data],
    [inr message] is [error]. *)
Definition storage_listBuckets : M (list string + string) :=
  w ← get_world;
  modify_world (log_call CallListBuckets);;
  match listBuckets_error E w with
  | Some message => mret (inr message)
  | None => mret (inl (storage_buckets w))
  end.

(** [await supabase.storage.createBucket(name, ...)]; returns [error]. *)
Definition storage_createBucket (name : string) : M (option string) :=
  w ← get_world;
  modify_world (log_call (CallCreateBucket name));;
  match createBucket_error E w name with
  | Some message => mret (Some message)
  | None => modify_world (add_bucket name);; mret None
  end.

(** [await supabase.storage.from(STORAGE_BUCKET).upload(path, buffer, ...)];
    returns [error]. *)
Definition storage_upload (path : string) (buffer : Buffer) : M (option string) :=
  w ← get_world;
  modify_world (log_call (CallUpload path));;
  match upload_error E w path buffer with
  | Some message => mret (Some message)
  | None => modify_world (put_object path buffer);; mret None
  end.

(** [await prisma.$disconnect()] *)
Definition prisma_disconnect : M unit := modify_world (log_call CallDisconnect).

(** *** [ensureStorageBucket] (lines 98-132) *)
Definition ensureStorageBucket : M unit :=
  try_catch
    (r ← storage_listBuckets;
     match r with
     | inr message => throw (new_Error ("Failed to list buckets: " +:+ message))
     | inl buckets =>
         if bool_decide (STORAGE_BUCKET ∈ buckets) then mret ()
         else
           createError ← storage_createBucket STORAGE_BUCKET;
           match createError with
           | Some message =>
               throw (new_Error ("Failed to create bucket: " +:+ message))
           | None => mret ()
           end
     end)
    (fun error => throw (new_Error ("Storage bucket setup failed: " +:+ error))).

(** *** [clearExistingData] (lines 137-161) *)
Definition clearExistingData : M unit :=
  try_catch
    (photoCount ← prisma_deleteMany TPhoto;
     studySpotCount ← prisma_deleteMany TStudySpot;
     lectureHallCount ← prisma_deleteMany TLectureHall;
     buildingCount ← prisma_deleteMany TBuilding;
     universityCount ← prisma_deleteMany TUniversity;
     mret ())
    (fun error => throw (new_Error ("Failed to clear existing data: " +:+ error))).

(** *** [downloadImage] (lines 173-183) *)
Definition downloadImage (url : string) : M Buffer :=
  try_catch
    (w ← get_world;
     modify_world (log_call (CallDownload url));;
     match axios_get E w url with
     | Throw e => throw e
     | Ok data => mret data
     end)
    (fun error =>
       throw (new_Error ("Failed to download image from " +:+ url +:+ ": " +:+ error))).

(** The two arguments of [.resize(newWidth, newHeight)] (lines 193-194). *)
Definition newDimensions (metadata : option Z * option Z) : option Z * option Z :=
  let newWidth :=
    Number.Math_round
      (Number.mul (Number.of_Z (Number.or_default metadata.1 1000)) Number.three_tenths) in
  let newHeight :=
    Number.Math_round
      (Number.mul (Number.of_Z (Number.or_default metadata.2 1000)) Number.three_tenths) in
  (newWidth, newHeight).

(** *** [optimizeImage] (lines 188-203) *)
Definition optimizeImage (buffer : Buffer) : M Buffer :=
  try_catch
    (match sharp_metadata E buffer with
     | Throw e => throw e
     | Ok metadata =>
         let '(newWidth, newHeight) := newDimensions metadata in
         match sharp_resize_webp E buffer newWidth newHeight 85 with
         | Throw e => throw e
         | Ok out => mret out
         end
     end)
    (fun error => throw (new_Error ("Failed to optimize image: " +:+ error))).

(** *** [uploadToSupabase] (lines 208-233) *)
Definition uploadToSupabase (buffer : Buffer) (storagePath : string) : M string :=
  try_catch
    (error ← storage_upload storagePath buffer;
     match error with
     | Some message => throw (new_Error ("Supabase upload error: " +:+ message))
     | None => mret (getPublicUrl E storagePath)
     end)
    (fun error => throw (new_Error ("Failed to upload to Supabase: " +:+ error))).

(** *** [createUniversity] (lines 238-251) *)
Definition createUniversity : M string :=
  id ← prisma_university_create
         {| un_name := "Wilfrid Laurier University"; un_slug := "wilfrid-laurier" |};
  modify_stats (set_university 1);;
  mret id.

(** *** [createBuildings] (lines 256-304) *)

(** [buildingNames.add(v)] on a [Set]: a value already present is not added
    again, and iteration follows insertion order. *)
Definition set_add (v : Value) (s : list Value) : list Value :=
  if decide (v ∈ s) then s else s ++ [v].

(** The set filled by the two [forEach] loops (lines 267-279). *)
Definition buildingNames (studyRooms : list StudyRoomData) (rooms : list RoomData) :
    list Value :=
  let names :=
    foldl (fun names room =>
             if truthy_string (sr_building room)
             then set_add (normalizeBuildingName (sr_building room)) names
             else names)
          [] studyRooms in
  foldl (fun names room =>
           if truthy_string (rd_building room)
           then set_add (normalizeBuildingName (rd_building room)) names
           else names)
        names rooms.

(** One turn of the creation loop (lines 284-301). *)
Definition createBuilding (universityId : string) (buildingName : Value)
    (buildingMap : gmap Value string) : M (gmap Value string) :=
  try_catch
    (id ← prisma_building_create
            {| bd_name := buildingName; bd_universityId := universityId |};
     modify_stats incr_buildings;;
     mret (<[buildingName := id]> buildingMap))
    (fun error =>
       modify_stats
         (push_error ("Failed to create building " +:+ to_string buildingName
                      +:+ ": " +:+ error));;
       mret buildingMap).

(** Lines 266-303: what [createBuildings] does with the parsed files. *)
Definition createBuildings_from (studyRooms : list StudyRoomData) (rooms : list RoomData)
    (universityId : string) : M (gmap Value string) :=
  for_fold (buildingNames studyRooms rooms) ∅ (createBuilding universityId).

(** The two reads of lines 263-264 are outside every [try]: an error of
    either is thrown to the caller. *)
Definition createBuildings (universityId : string) : M (gmap Value string) :=
  studyRooms ← readJson (study_rooms_json F);
  rooms ← readJson (rooms_json F);
  createBuildings_from studyRooms rooms universityId.

(** *** [migrateStudySpots] (lines 309-351) *)

(** The [data] of [prisma.studySpot.create] (lines 329-337). *)
Definition studySpotData (room : StudyRoomData) (buildingId : string) : StudySpotData :=
  {| sp_name := sr_name room;
     sp_buildingId := buildingId;
     sp_location := sr_location room;
     sp_description := sr_description room;
     sp_features := sr_features room;
     sp_noiseLevel := sr_noiseLevel room;
     sp_spaceType := or_null (sr_spaceType room) |}.

(** One turn of the loop (lines 319-348). *)
Definition migrateStudySpot (buildingMap : gmap Value string) (room : StudyRoomData)
    (studySpotMap : gmap string string) : M (gmap string string) :=
  try_catch
    (let normalizedBuilding := normalizeBuildingName (sr_building room) in
     match as_truthy (buildingMap !! normalizedBuilding) with
     | None =>
         throw (new_Error ("Building not found: " +:+ to_string normalizedBuilding))
     | Some buildingId =>
         id ← prisma_studySpot_create (studySpotData room buildingId);
         modify_stats incr_studySpots;;
         mret (<[sr_id room := id]> studySpotMap)
     end)
    (fun error =>
       modify_stats
         (push_error ("Failed to create study spot " +:+ sr_name room
                      +:+ ": " +:+ error));;
       mret studySpotMap).

(** Lines 317-350: the loop over the parsed file. *)
Definition migrateStudySpots_from (studyRooms : list StudyRoomData)
    (buildingMap : gmap Value string) : M (gmap string string) :=
  for_fold studyRooms ∅ (migrateStudySpot buildingMap).

(** The read of line 315 is outside the [try] of the loop. *)
Definition migrateStudySpots (buildingMap : gmap Value string) :
    M (gmap string string) :=
  studyRooms ← readJson (study_rooms_json F);
  migrateStudySpots_from studyRooms buildingMap.

(** *** [migrateLectureHalls] (lines 356-397) *)

(** [flag === 'yes'] *)
Definition is_yes (flag : option string) : bool := bool_decide (flag = Some "yes").

(** The [data] of [prisma.lectureHall.create] (lines 376-383). *)
Definition lectureHallData (room : RoomData) (buildingId : string) : LectureHallData :=
  {| lh_buildingId := buildingId;
     lh_room := rd_room room;
     hasAvInputs := is_yes (av_inputs (rd_information room));
     hasPc := is_yes (pc (rd_information room));
     hasWhiteboard := is_yes (whiteboard (rd_information room));
     hasProjector := is_yes (projector (rd_information room)) |}.

(** One turn of the loop (lines 366-394). *)
Definition migrateLectureHall (buildingMap : gmap Value string) (room : RoomData)
    (lectureHallMap : gmap string string) : M (gmap string string) :=
  try_catch
    (let normalizedBuilding := normalizeBuildingName (rd_building room) in
     match as_truthy (buildingMap !! normalizedBuilding) with
     | None =>
         throw (new_Error ("Building not found: " +:+ to_string normalizedBuilding))
     | Some buildingId =>
         id ← prisma_lectureHall_create (lectureHallData room buildingId);
         modify_stats incr_lectureHalls;;
         mret (<[rd_id room := id]> lectureHallMap)
     end)
    (fun error =>
       modify_stats
         (push_error ("Failed to create lecture hall " +:+ rd_room room
                      +:+ ": " +:+ error));;
       mret lectureHallMap).

(** Lines 364-396: the loop over the parsed file. *)
Definition migrateLectureHalls_from (rooms : list RoomData)
    (buildingMap : gmap Value string) : M (gmap string string) :=
  for_fold rooms ∅ (migrateLectureHall buildingMap).

(** The read of line 362 is outside the [try] of the loop. *)
Definition migrateLectureHalls (buildingMap : gmap Value string) :
    M (gmap string string) :=
  rooms ← readJson (rooms_json F);
  migrateLectureHalls_from rooms buildingMap.

(** *** [processPhotos] (lines 402-492) *)

(** The two inner loops differ in the path segment, the word used in the
    error message and the foreign key of the photo. *)
Inductive EntityKind := StudySpotKind | LectureHallKind.

(** Lines 429 and 471. *)
Definition storagePath (kind : EntityKind) (universityId entityId : string)
    (i : nat) : string :=
  match kind with
  | StudySpotKind =>
      "universities/" +:+ universityId +:+ "/photos/study-spots/"
        +:+ entityId +:+ "/" +:+ pretty i +:+ ".webp"
  | LectureHallKind =>
      "universities/" +:+ universityId +:+ "/photos/lecture-halls/"
        +:+ entityId +:+ "/" +:+ pretty i +:+ ".webp"
  end.

(** Lines 433-439 and 475-481. *)
Definition photoData (kind : EntityKind) (path publicUrl entityId : string) :
    PhotoData :=
  match kind with
  | StudySpotKind =>
      {| ph_storagePath := path; ph_url := publicUrl;
         ph_studySpotId := Some entityId; ph_lectureHallId := None |}
  | LectureHallKind =>
      {| ph_storagePath := path; ph_url := publicUrl;
         ph_studySpotId := None; ph_lectureHallId := Some entityId |}
  end.

(** Lines 444 and 486; [name] is [room.name], respectively [room.room]. *)
Definition photoErrorMsg (kind : EntityKind) (name error : string) : string :=
  match kind with
  | StudySpotKind =>
      "Failed to process photo for study spot " +:+ name +:+ ": " +:+ error
  | LectureHallKind =>
      "Failed to process photo for lecture hall " +:+ name +:+ ": " +:+ error
  end.

(** The body of the loops over one image list (lines 419-448, 461-490). *)
Definition processImage (kind : EntityKind) (universityId entityId name : string)
    (i : nat) (imageUrl : string) : M unit :=
  try_catch
    (imageBuffer ← downloadImage imageUrl;
     optimizedBuffer ← optimizeImage imageBuffer;
     let path := storagePath kind universityId entityId i in
     publicUrl ← uploadToSupabase optimizedBuffer path;
     prisma_photo_create (photoData kind path publicUrl entityId);;
     modify_stats incr_photos)
    (fun error => modify_stats (push_error (photoErrorMsg kind name error))).

(** The body of the loop over the study rooms (lines 413-449). *)
Definition processStudyRoomPhotos (universityId : string)
    (studySpotMap : gmap string string) (room : StudyRoomData) : M unit :=
  match sr_imageURL room with
  | None | Some [] => mret ()
  | Some imageURL =>
      match as_truthy (studySpotMap !! sr_id room) with
      | None => mret ()
      | Some studySpotId =>
          for_index 0 imageURL
            (processImage StudySpotKind universityId studySpotId (sr_name room))
      end
  end.

(** The body of the loop over the rooms (lines 455-491). *)
Definition processRoomPhotos (universityId : string)
    (lectureHallMap : gmap string string) (room : RoomData) : M unit :=
  match rd_photos room with
  | [] => mret ()
  | photos =>
      match as_truthy (lectureHallMap !! rd_id room) with
      | None => mret ()
      | Some lectureHallId =>
          for_index 0 photos
            (processImage LectureHallKind universityId lectureHallId (rd_room room))
      end
  end.

(** The two loops of [processPhotos] (lines 413-449 and 455-491) over the
    parsed files. *)
Definition processPhotos_from (studyRooms : list StudyRoomData) (rooms : list RoomData)
    (universityId : string) (studySpotMap lectureHallMap : gmap string string) :
    M unit :=
  for_of studyRooms (processStudyRoomPhotos universityId studySpotMap);;
  for_of rooms (processRoomPhotos universityId lectureHallMap).

(** [study-rooms.json] is read before the first loop (line 411), [rooms.json]
    only after it (line 453); neither read is inside a [try]. *)
Definition processPhotos (universityId : string)
    (studySpotMap lectureHallMap : gmap string string) : M unit :=
  studyRooms ← readJson (study_rooms_json F);
  for_of studyRooms (processStudyRoomPhotos universityId studySpotMap);;
  rooms ← readJson (rooms_json F);
  for_of rooms (processRoomPhotos universityId lectureHallMap).

(** *** [migrate] (lines 497-551); the [catch] logs and rethrows. *)
Definition migrate : M unit :=
  try_finally
    (try_catch
       (clearExistingData;;
        ensureStorageBucket;;
        universityId ← createUniversity;
        buildingMap ← createBuildings universityId;
        studySpotMap ← migrateStudySpots buildingMap;
        lectureHallMap ← migrateLectureHalls buildingMap;
        processPhotos universityId studySpotMap lectureHallMap)
       (fun error => throw error))
    prisma_disconnect.

End Program.

(** ** The exporter ([services/fireStoreQueries.ts]) *)

Module Exporter.

(** JSON values as [JSON.stringify] sees them.  A number is a double
    (binary64); an object is the list of its properties, in property order. *)
Inductive json :=
| JNull
| JBool (b : bool)
| JNum (x : spec_float)
| JStr (s : string)
| JArr (items : list json)
| JObj (properties : list (string * json)).

Definition newline : string := String "010"%char EmptyString.
Definition quote_mark : string := String "034"%char EmptyString.

Definition hex_digit (n : N) : ascii :=
  match n with
  | 0 => "0" | 1 => "1" | 2 => "2" | 3 => "3" | 4 => "4" | 5 => "5" | 6 => "6"
  | 7 => "7" | 8 => "8" | 9 => "9" | 10 => "a" | 11 => "b" | 12 => "c"
  | 13 => "d" | 14 => "e" | _ => "f"
  end%N%char.

(** One character of [QuoteJSONString]. *)
Definition escape_char (c : ascii) : string :=
  let n := N_of_ascii c in
  if (n =? 8)%N then "\b"
  else if (n =? 9)%N then "\t"
  else if (n =? 10)%N then "\n"
  else if (n =? 12)%N then "\f"
  else if (n =? 13)%N then "\r"
  else if (n =? 34)%N then "\" +:+ quote_mark
  else if (n =? 92)%N then "\\"
  else if (n <? 32)%N then
    "\u00" +:+ String (hex_digit (n / 16)) (String (hex_digit (n mod 16)) EmptyString)
  else String c EmptyString.

Fixpoint escape (s : string) : string :=
  match s with
  | EmptyString => EmptyString
  | String c s' => escape_char c +:+ escape s'
  end.

Definition quote (s : string) : string := quote_mark +:+ escape s +:+ quote_mark.

(** [parts.join(sep)] *)
Fixpoint join (sep : string) (parts : list string) : string :=
  match parts with
  | [] => EmptyString
  | [p] => p
  | p :: rest => p +:+ sep +:+ join sep rest
  end.

(** [JSON.stringify(v, null, 2)] below the indentation [indent].  A finite
    number is printed by [Number::toString], which belongs to the engine and
    is the parameter [number] here; [NaN] and the infinities give [null]. *)
Fixpoint serialize (number : spec_float → string) (indent : string) (v : json) :
    string :=
  let stepback := indent in
  let indent := indent +:+ "  " in
  let separator := "," +:+ newline +:+ indent in
  match v with
  | JNull => "null"
  | JBool true => "true"
  | JBool false => "false"
  | JNum x =>
      match x with
      | S754_zero _ | S754_finite _ _ _ => number x
      | S754_infinity _ | S754_nan => "null"
      end
  | JStr s => quote s
  | JArr [] => "[]"
  | JArr items =>
      "[" +:+ newline +:+ indent
        +:+ join separator (map (serialize number indent) items)
        +:+ newline +:+ stepback +:+ "]"
  | JObj [] => "{}"
  | JObj properties =>
      "{" +:+ newline +:+ indent
        +:+ join separator
              (map (fun p => quote p.1 +:+ ": " +:+ serialize number indent p.2)
                   properties)
        +:+ newline +:+ stepback +:+ "}"
  end.

Definition JSON_stringify (number : spec_float → string) (v : json) : string :=
  serialize number EmptyString v.

(** *** Property order of an object *)

Fixpoint digits_value (acc : N) (s : string) : option N :=
  match s with
  | EmptyString => Some acc
  | String c s' =>
      let n := N_of_ascii c in
      if ((48 <=? n) && (n <=? 57))%N
      then digits_value (10 * acc + (n - 48))%N s'
      else None
  end.

(** An array index: a canonical decimal numeral below [2^32 - 1].  Such keys
    come first in property order, in ascending order. *)
Definition array_index (k : string) : option N :=
  match k with
  | EmptyString => None
  | _ =>
      match digits_value 0 k with
      | Some n =>
          if bool_decide (pretty n = k) && (n <? 4294967295)%N then Some n else None
      | None => None
      end
  end.

(** Where a property that is not yet present goes. *)
Fixpoint place (k : string) (v : json) (o : list (string * json)) :
    list (string * json) :=
  match o with
  | [] => [(k, v)]
  | (k', v') :: o' =>
      match array_index k, array_index k' with
      | Some n, Some n' =>
          if (n <? n')%N then (k, v) :: o else (k', v') :: place k v o'
      | Some _, None => (k, v) :: o
      | None, _ => (k', v') :: place k v o'
      end
  end.

(** [o[k] = v]: a property already present keeps its place. *)
Definition set_property (k : string) (v : json) (o : list (string * json)) :
    list (string * json) :=
  if bool_decide (k ∈ o.*1)
  then map (fun p => if bool_decide (p.1 = k) then (k, v) else p) o
  else place k v o.

(** A document of a snapshot: [doc.id] and the properties of [doc.data()]. *)
Record Document := { doc_id : string; doc_data : list (string * json) }.

(** [{ id: doc.id, ...doc.data() }] *)
Definition flatten (doc : Document) : json :=
  JObj (foldl (fun o p => set_property p.1 p.2 o)
              [("id", JStr (doc_id doc))] (doc_data doc)).

(** *** The local disk and the document store *)

Record FileSystem := {
  directories : gset string;
  files : gmap string string;
}.

(** [path_join] is [path.join]; [collection_get name] is
    [db.collection(name).get()] and yields [snapshot.docs]; [Number_toString]
    is [Number::toString] of the engine, on the finite doubles. *)
Record Env := {
  collection_get : string → Result (list Document);
  path_join : string → string → string;
  Number_toString : spec_float → string;
  mkdirSync_error : FileSystem → string → option string;
  writeFileSync_error : FileSystem → string → string → option string;
}.

Section Queries.

Context (E : Env).

(** [getCollectionData] (lines 28-45); the [catch] logs and rethrows. *)
Definition getCollectionData (collectionName : string) : Result (list json) :=
  match collection_get E collectionName with
  | Throw error => Throw error
  | Ok docs => Ok (map flatten docs)
  end.

(** [fs.mkdirSync(outputDir, { recursive: true })] *)
Definition mkdirSync (outputDir : string) (fs : FileSystem) :
    Result unit * FileSystem :=
  match mkdirSync_error E fs outputDir with
  | Some error => (Throw error, fs)
  | None =>
      (Ok (), {| directories := {[outputDir]} ∪ directories fs; files := files fs |})
  end.

(** [fs.writeFileSync(filePath, content)]: the file is created or overwritten. *)
Definition writeFileSync (filePath content : string) (fs : FileSystem) :
    Result unit * FileSystem :=
  match writeFileSync_error E fs filePath content with
  | Some error => (Throw error, fs)
  | None =>
      (Ok (), {| directories := directories fs;
                 files := <[filePath := content]> (files fs) |})
  end.

(** [saveToJson] (lines 83-101); the [catch] logs and rethrows. *)
Definition saveToJson (data : json) (filename outputDir : string) (fs : FileSystem) :
    Result unit * FileSystem :=
  let made :=
    if bool_decide (outputDir ∈ directories fs) then (Ok (), fs)
    else mkdirSync outputDir fs in
  match made with
  | (Throw error, fs') => (Throw error, fs')
  | (Ok _, fs') =>
      let filePath := path_join E outputDir filename in
      writeFileSync filePath (JSON_stringify (Number_toString E) data) fs'
  end.

(** [exportCollectionToJson] (lines 106-117); the [catch] logs and rethrows. *)
Definition exportCollectionToJson (collectionName outputDir : string)
    (fs : FileSystem) : Result unit * FileSystem :=
  match getCollectionData collectionName with
  | Throw error => (Throw error, fs)
  | Ok data => saveToJson (JArr data) (collectionName +:+ ".json") outputDir fs
  end.

End Queries.

End Exporter.

(** ** Sample environments and records, used to run the definitions *)

(** A world in which every service answers: identifiers are numbered per
    table, every download yields an image of 100 by 50 pixels. *)
Definition okEnv : Env :=
  {| deleteMany_error := fun _ _ => None;
     listBuckets_error := fun _ => None;
     createBucket_error := fun _ _ => None;
     university_create := fun w _ => Ok ("u" +:+ pretty (length (db_universities w)));
     building_create := fun w _ => Ok ("b" +:+ pretty (length (db_buildings w)));
     studySpot_create := fun w _ => Ok ("s" +:+ pretty (length (db_studySpots w)));
     lectureHall_create := fun w _ => Ok ("h" +:+ pretty (length (db_lectureHalls w)));
     photo_create := fun w _ => Ok ("p" +:+ pretty (length (db_photos w)));
     axios_get := fun _ _ => Ok [];
     sharp_metadata := fun _ => Ok (Some 100%Z, Some 50%Z);
     sharp_resize_webp := fun b _ _ _ => Ok b;
     upload_error := fun _ _ _ => None;
     getPublicUrl := fun path => "https://cdn.example/" +:+ path |}.

(** As [okEnv], except that downloading [badUrl] times out. *)
Definition flakyEnv (badUrl : string) : Env :=
  {| deleteMany_error := deleteMany_error okEnv;
     listBuckets_error := listBuckets_error okEnv;
     createBucket_error := createBucket_error okEnv;
     university_create := university_create okEnv;
     building_create := building_create okEnv;
     studySpot_create := studySpot_create okEnv;
     lectureHall_create := lectureHall_create okEnv;
     photo_create := photo_create okEnv;
     axios_get := fun w url =>
       if bool_decide (url = badUrl) then Throw "AxiosError: timeout of 30000ms exceeded"
       else axios_get okEnv w url;
     sharp_metadata := sharp_metadata okEnv;
     sharp_resize_webp := sharp_resize_webp okEnv;
     upload_error := upload_error okEnv;
     getPublicUrl := getPublicUrl okEnv |}.

Definition initialState : State := {| world := emptyWorld; stats := initialStats |}.

(** Data files that hold the given records. *)
Definition dataFiles (studyRooms : list StudyRoomData) (rooms : list RoomData) :
    DataFiles :=
  {| study_rooms_json := Ok studyRooms; rooms_json := Ok rooms |}.

(** Data files of which [rooms.json] is missing. *)
Definition missingRoomsFile (studyRooms : list StudyRoomData) : DataFiles :=
  {| study_rooms_json := Ok studyRooms;
     rooms_json := Throw "Error: ENOENT: no such file or directory, open 'rooms.json'" |}.

Definition sampleStudyRoom (id building : string) (imageURL : option (list string)) :
    StudyRoomData :=
  {| sr_id := id; sr_name := "Room " +:+ id; sr_building := building;
     sr_spaceType := None; sr_location := "2nd floor"; sr_imageURL := imageURL;
     sr_features := ["outlets"]; sr_noiseLevel := "quiet"; sr_capacity := None;
     sr_description := "A study room" |}.

Definition sampleRoom (id building : string) (photos : list string) : RoomData :=
  {| rd_id := id; rd_building := building; rd_photos := photos;
     rd_room := "N" +:+ id;
     rd_information :=
       {| av_inputs := Some "yes"; pc := Some "no"; whiteboard := Some "yes";
          projector := Some "no" |} |}.

(** [Number::toString] on the doubles that hold an integer below [2^53] in
    absolute value: the decimal digits of the integer, ["0"] for both zeros.
    The sample documents hold no other number. *)
Definition integerToString (x : spec_float) : string :=
  match x with
  | S754_zero _ => "0"
  | S754_finite negative m e =>
      if ((e <=? 0) && (Z.pos m <? 2 ^ 53) && (Z.pos m mod 2 ^ (- e) =? 0))%Z
      then (if negative then "-" else EmptyString)
             +:+ pretty (Z.pos m / 2 ^ (- e))%Z
      else EmptyString
  | S754_infinity _ | S754_nan => EmptyString
  end.

(** An exporter environment over a document store without documents. *)
Definition emptyStoreEnv : Exporter.Env :=
  {| Exporter.collection_get := fun _ => Ok [];
     Exporter.path_join := fun dir file => dir +:+ "/" +:+ file;
     Exporter.Number_toString := integerToString;
     Exporter.mkdirSync_error := fun _ _ => None;
     Exporter.writeFileSync_error := fun _ _ _ => None |}.

Definition emptyDisk : Exporter.FileSystem :=
  {| Exporter.directories := ∅; Exporter.files := ∅ |}.

(** ** The layout the specification gives for stored images *)

(** The path as the specification words it:
    [organizations/{orgId}/photos/{spots|halls}/{entityId}/{index}.<ext>]. *)
Definition specStoragePath (kind : EntityKind) (orgId entityId : string) (index : nat)
    (ext : string) : string :=
  "organizations/" +:+ orgId +:+ "/photos/"
    +:+ match kind with StudySpotKind => "spots" | LectureHallKind => "halls" end
    +:+ "/" +:+ entityId +:+ "/" +:+ pretty index +:+ "." +:+ ext.

(** ** Vocabulary of the statements *)

(** One of the two [forEach] loops of [createBuildings], for either dataset:
    [building] reads the building field of a record. *)
Definition collectNames {A} (building : A → string) (names : list Value)
    (records : list A) : list Value :=
  foldl (fun names room =>
           if truthy_string (building room)
           then set_add (normalizeBuildingName (building room)) names
           else names)
        names records.

(** The first run recorded exactly one error more than the second. *)
Definition one_more_error (s_with s_without : State) : Prop :=
  ∃ before message after,
    st_errors (stats s_with) = before ++ message :: after ∧
    st_errors (stats s_without) = before ++ after.

(** The lookup the migration steps perform for a record's building. *)
Definition resolveBuilding (buildingMap : gmap Value string) (building : string) :
    option string :=
  as_truthy (buildingMap !! normalizeBuildingName building).

(** Two states with the same world and the same counters, the first with
    exactly one error more. *)
Definition differ_by_one_error (s_with s_without : State) : Prop :=
  world s_with = world s_without ∧
  st_university (stats s_with) = st_university (stats s_without) ∧
  st_buildings (stats s_with) = st_buildings (stats s_without) ∧
  st_studySpots (stats s_with) = st_studySpots (stats s_without) ∧
  st_lectureHalls (stats s_with) = st_lectureHalls (stats s_without) ∧
  st_photos (stats s_with) = st_photos (stats s_without) ∧
  one_more_error s_with s_without.

(** The outcome of one image that fails: no Photo, exactly one error. *)
Definition image_rejected (s s' : State) : Prop :=
  db_photos (world s') = db_photos (world s) ∧
  st_photos (stats s') = st_photos (stats s) ∧
  ∃ message, st_errors (stats s') = st_errors (stats s) ++ [message].

(** The outcome of one image that succeeds: exactly one Photo, stored under
    the path that carries the position [i] of the image, and no error. *)
Definition image_stored (kind : EntityKind) (universityId entityId : string) (i : nat)
    (s s' : State) : Prop :=
  ∃ id publicUrl,
    db_photos (world s') =
      db_photos (world s)
      ++ [(id, photoData kind (storagePath kind universityId entityId i) publicUrl
                 entityId)] ∧
    st_photos (stats s') = S (st_photos (stats s)) ∧
    st_errors (stats s') = st_errors (stats s).

(** Every stage of every image succeeds, except the download of [badUrl]. *)
Definition only_download_fails (E : Env) (badUrl : string) : Prop :=
  (∀ w, ∃ e, axios_get E w badUrl = Throw e) ∧
  (∀ w url, url ≠ badUrl → ∃ data, axios_get E w url = Ok data) ∧
  (∀ buffer, ∃ metadata, sharp_metadata E buffer = Ok metadata) ∧
  (∀ buffer width height quality,
     ∃ out, sharp_resize_webp E buffer width height quality = Ok out) ∧
  (∀ w path buffer, upload_error E w path buffer = None) ∧
  (∀ w data, ∃ id, photo_create E w data = Ok id).

(** Every stage of every image succeeds, except the downloads of the URLs in
    [bad], which all fail. *)
Definition only_downloads_fail (E : Env) (bad : list string) : Prop :=
  (∀ w url, url ∈ bad → ∃ e, axios_get E w url = Throw e) ∧
  (∀ w url, url ∉ bad → ∃ data, axios_get E w url = Ok data) ∧
  (∀ buffer, ∃ metadata, sharp_metadata E buffer = Ok metadata) ∧
  (∀ buffer width height quality,
     ∃ out, sharp_resize_webp E buffer width height quality = Ok out) ∧
  (∀ w path buffer, upload_error E w path buffer = None) ∧
  (∀ w data, ∃ id, photo_create E w data = Ok id).

(** The Photos expected for the image list [urls] of an entity, whose first
    image has the position [i]: one for each image whose URL is not in [bad],
    at the path that carries the image's own position. *)
Fixpoint photosFrom (E : Env) (kind : EntityKind) (universityId entityId : string)
    (bad : list string) (i : nat) (urls : list string) : list PhotoData :=
  match urls with
  | [] => []
  | url :: rest =>
      (if decide (url ∈ bad) then []
       else [photoData kind (storagePath kind universityId entityId i)
               (getPublicUrl E (storagePath kind universityId entityId i)) entityId])
      ++ photosFrom E kind universityId entityId bad (S i) rest
  end.

(** The paths [processPhotos] may use for the given datasets and identifier
    tables: one per image position of each record that has an entity. *)
Definition photo_path_of (studyRooms : list StudyRoomData) (rooms : list RoomData)
    (universityId : string) (studySpotMap lectureHallMap : gmap string string)
    (path : string) : Prop :=
  (∃ room imageURL studySpotId i,
     room ∈ studyRooms ∧ sr_imageURL room = Some imageURL ∧
     as_truthy (studySpotMap !! sr_id room) = Some studySpotId ∧
     i < length imageURL ∧
     path = "universities/" +:+ universityId +:+ "/photos/study-spots/"
              +:+ studySpotId +:+ "/" +:+ pretty i +:+ ".webp") ∨
  (∃ room lectureHallId i,
     room ∈ rooms ∧
     as_truthy (lectureHallMap !! rd_id room) = Some lectureHallId ∧
     i < length (rd_photos room) ∧
     path = "universities/" +:+ universityId +:+ "/photos/lecture-halls/"
              +:+ lectureHallId +:+ "/" +:+ pretty i +:+ ".webp").

(** One image that [processPhotos] works on: the kind and the identifier of
    the entity it belongs to, the name used in error messages, the position
    of the image in the image list of its record, and its URL. *)
Record ImageJob := {
  job_kind : EntityKind;
  job_entityId : string;
  job_name : string;
  job_index : nat;
  job_url : string;
}.

(** The images of one list, the first of which has the position [i]. *)
Fixpoint jobsFrom (kind : EntityKind) (entityId name : string) (i : nat)
    (urls : list string) : list ImageJob :=
  match urls with
  | [] => []
  | url :: rest =>
      {| job_kind := kind; job_entityId := entityId; job_name := name;
         job_index := i; job_url := url |}
      :: jobsFrom kind entityId name (S i) rest
  end.

(** The images of a study room: those of its list, each at its own position,
    for the study spot the identifier table gives for the room. *)
Definition studyRoomJobs (studySpotMap : gmap string string) (room : StudyRoomData) :
    list ImageJob :=
  match sr_imageURL room, as_truthy (studySpotMap !! sr_id room) with
  | Some urls, Some studySpotId =>
      jobsFrom StudySpotKind studySpotId (sr_name room) 0 urls
  | _, _ => []
  end.

Definition roomJobs (lectureHallMap : gmap string string) (room : RoomData) :
    list ImageJob :=
  match as_truthy (lectureHallMap !! rd_id room) with
  | Some lectureHallId =>
      jobsFrom LectureHallKind lectureHallId (rd_room room) 0 (rd_photos room)
  | None => []
  end.

(** All the images of the two datasets, in the order of the records. *)
Definition imageJobs (studyRooms : list StudyRoomData) (rooms : list RoomData)
    (studySpotMap lectureHallMap : gmap string string) : list ImageJob :=
  mjoin (studyRoomJobs studySpotMap <$> studyRooms)
  ++ mjoin (roomJobs lectureHallMap <$> rooms).

(** The turn of the loops of [processPhotos] for one image. *)
Definition processJob (E : Env) (universityId : string) (job : ImageJob) : M unit :=
  processImage E (job_kind job) universityId (job_entityId job) (job_name job)
    (job_index job) (job_url job).

(** Between [s] and [s'] every upload requested, every object written and
    every Photo recorded uses a path that satisfies [good]. *)
Definition paths_within (good : string → Prop) (s s' : State) : Prop :=
  (∃ added, calls (world s') = calls (world s) ++ added ∧
            ∀ path, CallUpload path ∈ added → good path) ∧
  (∃ added, db_photos (world s') = db_photos (world s) ++ added ∧
            ∀ row, row ∈ added → good (ph_storagePath row.2)) ∧
  (∀ path, storage_objects (world s') !! path ≠ storage_objects (world s) !! path →
           good path).






(** The largest image side considered: the largest a JPEG can record, and
    more than three times the largest side a WebP image can have. *)
Definition maxDimension : Z := 65535.

(** [Math.round(side * 0.3)] is [floor ((3 * side + 5) / 10)]. *)
Definition scales_exactly (side : Z) : bool :=
  match Number.Math_round (Number.mul (Number.of_Z side) Number.three_tenths) with
  | Some r => (r =? (3 * side + 5) / 10)%Z
  | None => false
  end.

(** [scales_exactly] on [count] consecutive sides from [side] on. *)
Fixpoint scales_exactly_from (count : nat) (side : Z) : bool :=
  match count with
  | O => true
  | S count' => scales_exactly side && scales_exactly_from count' (side + 1)
  end.

(** ** Vocabulary of the further properties *)

(** The tables in the order [clearExistingData] empties them. *)
Definition tableOrder : list Table :=
  [TPhoto; TStudySpot; TLectureHall; TBuilding; TUniversity].

(** The rows of table [t] are the same in [w] and [w']. *)
Definition table_unchanged (t : Table) (w w' : World) : Prop :=
  match t with
  | TPhoto => db_photos w' = db_photos w
  | TStudySpot => db_studySpots w' = db_studySpots w
  | TLectureHall => db_lectureHalls w' = db_lectureHalls w
  | TBuilding => db_buildings w' = db_buildings w
  | TUniversity => db_universities w' = db_universities w
  end.

(** The three steps of [migrate] that come before any data file is read
    (lines 503-507). *)
Definition setup (E : Env) : M string :=
  clearExistingData E;; ensureStorageBucket E;; createUniversity E.

(** The steps of [migrate] that follow (lines 510-519). *)
Definition load (E : Env) (F : DataFiles) (universityId : string) : M unit :=
  buildingMap ← createBuildings E F universityId;
  studySpotMap ← migrateStudySpots E F buildingMap;
  lectureHallMap ← migrateLectureHalls E F buildingMap;
  processPhotos E F universityId studySpotMap lectureHallMap.

(** Every counter of the summary equals the number of rows of its table. *)
Definition counts_match (s : State) : Prop :=
  st_university (stats s) = length (db_universities (world s)) ∧
  st_buildings (stats s) = length (db_buildings (world s)) ∧
  st_studySpots (stats s) = length (db_studySpots (world s)) ∧
  st_lectureHalls (stats s) = length (db_lectureHalls (world s)) ∧
  st_photos (stats s) = length (db_photos (world s)).

(** The number of images [processPhotos] works on for a study room: those of
    its list, when the room has one and its identifier is in the table. *)
Definition imagesOfStudyRoom (studySpotMap : gmap string string) (room : StudyRoomData) :
    nat :=
  match sr_imageURL room, as_truthy (studySpotMap !! sr_id room) with
  | Some imageURL, Some _ => length imageURL
  | _, _ => 0
  end.

Definition imagesOfRoom (lectureHallMap : gmap string string) (room : RoomData) : nat :=
  match as_truthy (lectureHallMap !! rd_id room) with
  | Some _ => length (rd_photos room)
  | None => 0
  end.

Definition imagesToProcess (studyRooms : list StudyRoomData) (rooms : list RoomData)
    (studySpotMap lectureHallMap : gmap string string) : nat :=
  sum_list (imagesOfStudyRoom studySpotMap <$> studyRooms)
  + sum_list (imagesOfRoom lectureHallMap <$> rooms).

(** A Photo row as [processImage] writes it for an entity: the storage path of
    some position, the public URL of that path, and the one foreign key of
    the entity's kind. *)
Definition photo_of (E : Env) (kind : EntityKind) (universityId entityId : string)
    (row : Row PhotoData) : Prop :=
  ∃ i, row.2 = photoData kind (storagePath kind universityId entityId i)
                 (getPublicUrl E (storagePath kind universityId entityId i)) entityId.

(** A Photo row of a run of [processPhotos]: it belongs to a study spot or to
    a lecture hall of the identifier tables, never to both. *)
Definition photo_of_run (E : Env) (studyRooms : list StudyRoomData) (rooms : list RoomData)
    (universityId : string) (studySpotMap lectureHallMap : gmap string string)
    (row : Row PhotoData) : Prop :=
  ph_url row.2 = getPublicUrl E (ph_storagePath row.2) ∧
  ((∃ room studySpotId,
      room ∈ studyRooms ∧ as_truthy (studySpotMap !! sr_id room) = Some studySpotId ∧
      ph_studySpotId row.2 = Some studySpotId ∧ ph_lectureHallId row.2 = None) ∨
   (∃ room lectureHallId,
      room ∈ rooms ∧ as_truthy (lectureHallMap !! rd_id room) = Some lectureHallId ∧
      ph_lectureHallId row.2 = Some lectureHallId ∧ ph_studySpotId row.2 = None)).

(** Between [s] and [s'], [n] images were worked on: each one added one Photo
    row satisfying [good], counted in [stats.photos] and with its object in
    the bucket, or recorded one error; no object was removed. *)
Definition photos_recorded (good : Row PhotoData → Prop) (n : nat) (s s' : State) :
    Prop :=
  ∃ rows errors,
    db_photos (world s') = db_photos (world s) ++ rows ∧
    st_errors (stats s') = st_errors (stats s) ++ errors ∧
    length rows + length errors = n ∧
    st_photos (stats s') = st_photos (stats s) + length rows ∧
    Forall good rows ∧
    Forall (fun row => is_Some (storage_objects (world s') !! ph_storagePath row.2)) rows ∧
    ∀ path, is_Some (storage_objects (world s) !! path) →
            is_Some (storage_objects (world s') !! path).

(** Everything [processPhotos] leaves alone. *)
Definition photo_frame (s s' : State) : Prop :=
  db_studySpots (world s') = db_studySpots (world s) ∧
  db_lectureHalls (world s') = db_lectureHalls (world s) ∧
  db_buildings (world s') = db_buildings (world s) ∧
  db_universities (world s') = db_universities (world s) ∧
  storage_buckets (world s') = storage_buckets (world s) ∧
  st_university (stats s') = st_university (stats s) ∧
  st_buildings (stats s') = st_buildings (stats s) ∧
  st_studySpots (stats s') = st_studySpots (stats s) ∧
  st_lectureHalls (stats s') = st_lectureHalls (stats s).

(** ** The other exports ([services/fireStoreQueries.ts]) *)

Module Collections.

Import Exporter.

(** [o[k]] for an own property of an object. *)
Fixpoint property (k : string) (o : list (string * json)) : option json :=
  match o with
  | [] => None
  | (k', v) :: o' => if bool_decide (k' = k) then Some v else property k o'
  end.

(** The properties of an object, in property order. *)
Definition properties (v : json) : list (string * json) :=
  match v with
  | JObj o => o
  | _ => []
  end.

(** The document store as the other exports read it: [listCollections] is
    [db.listCollections()] (the ids), [doc_listCollections name id] is
    [doc.ref.listCollections()] for the document [id] of collection [name],
    and [subcollection_get name id sub] is the [get()] of one of them. *)
Record Store := {
  exporter : Exporter.Env;
  listCollections : Result (list string);
  doc_listCollections : string → string → Result (list string);
  subcollection_get : string → string → string → Result (list Document);
}.

Section Queries.

Context (S : Store).

(** [getAllCollections] (lines 13-23); the [catch] logs and rethrows. *)
Definition getAllCollections : Result (list string) :=
  match listCollections S with
  | Throw error => Throw error
  | Ok ids => Ok ids
  end.

(** [getSubcollectionData] (lines 50-78); the [catch] logs and rethrows. *)
Definition getSubcollectionData (parentCollection parentDocId subcollectionName : string) :
    Result (list json) :=
  match subcollection_get S parentCollection parentDocId subcollectionName with
  | Throw error => Throw error
  | Ok docs => Ok (map flatten docs)
  end.

(** The loop of [exportAllCollectionsToJson] (lines 128-130). *)
Fixpoint exportEach (collections : list string) (outputDir : string) (fs : FileSystem) :
    Result unit * FileSystem :=
  match collections with
  | [] => (Ok (), fs)
  | collectionName :: rest =>
      match exportCollectionToJson (exporter S) collectionName outputDir fs with
      | (Throw error, fs') => (Throw error, fs')
      | (Ok _, fs') => exportEach rest outputDir fs'
      end
  end.

(** [exportAllCollectionsToJson] (lines 122-139); the [catch] logs and
    rethrows. *)
Definition exportAllCollectionsToJson (outputDir : string) (fs : FileSystem) :
    Result unit * FileSystem :=
  match getAllCollections with
  | Throw error => (Throw error, fs)
  | Ok collections => exportEach collections outputDir fs
  end.

(** The inner loop of [exportCollectionWithSubcollections] (lines 163-169):
    [subs] is the object [docData._subcollections]. *)
Fixpoint readSubcollections (collectionName docId : string) (ids : list string)
    (subs : list (string * json)) : Result (list (string * json)) :=
  match ids with
  | [] => Ok subs
  | subcol :: rest =>
      match subcollection_get S collectionName docId subcol with
      | Throw error => Throw error
      | Ok docs =>
          readSubcollections collectionName docId rest
            (set_property subcol (JArr (map flatten docs)) subs)
      end
  end.

(** One turn of the outer loop (lines 153-172): the value pushed to
    [documents]. *)
Definition withSubcollections (collectionName : string) (doc : Document) : Result json :=
  let docData := set_property "_subcollections" (JObj []) (properties (flatten doc)) in
  match doc_listCollections S collectionName (doc_id doc) with
  | Throw error => Throw error
  | Ok subcollections =>
      match readSubcollections collectionName (doc_id doc) subcollections [] with
      | Throw error => Throw error
      | Ok subs => Ok (JObj (set_property "_subcollections" (JObj subs) docData))
      end
  end.

(** The outer loop: [documents] when it ends. *)
Fixpoint readDocuments (collectionName : string) (docs : list Document) :
    Result (list json) :=
  match docs with
  | [] => Ok []
  | doc :: rest =>
      match withSubcollections collectionName doc with
      | Throw error => Throw error
      | Ok docData =>
          match readDocuments collectionName rest with
          | Throw error => Throw error
          | Ok documents => Ok (docData :: documents)
          end
      end
  end.

(** [exportCollectionWithSubcollections] (lines 145-185); the [catch] logs
    and rethrows. *)
Definition exportCollectionWithSubcollections (collectionName outputDir : string)
    (fs : FileSystem) : Result unit * FileSystem :=
  match collection_get (exporter S) collectionName with
  | Throw error => (Throw error, fs)
  | Ok docs =>
      match readDocuments collectionName docs with
      | Throw error => (Throw error, fs)
      | Ok documents =>
          saveToJson (exporter S) (JArr documents)
            (collectionName +:+ "_with_subcollections.json") outputDir fs
      end
  end.

End Queries.

End Collections.

(** A document with a field named [id] and a number. *)
Definition sampleDocument : Exporter.Document :=
  {| Exporter.doc_id := "d1";
     Exporter.doc_data :=
       [("name", Exporter.JStr "Atrium");
        ("id", Exporter.JStr "legacy-7");
        ("capacity", Exporter.JNum (Number.of_Z 12))] |}.

(** A store with the collections [rooms] (no document) and [study-rooms]
    (the document [sampleDocument], which has one sub-collection). *)
Definition sampleStore : Collections.Store :=
  {| Collections.exporter :=
       {| Exporter.collection_get := fun name =>
            if bool_decide (name = "study-rooms") then Ok [sampleDocument] else Ok [];
          Exporter.path_join := fun dir file => dir +:+ "/" +:+ file;
          Exporter.Number_toString := integerToString;
          Exporter.mkdirSync_error := fun _ _ => None;
          Exporter.writeFileSync_error := fun _ _ _ => None |};
     Collections.listCollections := Ok ["rooms"; "study-rooms"];
     Collections.doc_listCollections := fun _ _ => Ok ["reviews"];
     Collections.subcollection_get := fun _ _ _ => Ok [] |}.

(** As [sampleStore], except that reading [study-rooms] is refused. *)
Definition brokenStore : Collections.Store :=
  {| Collections.exporter :=
       {| Exporter.collection_get := fun name =>
            if bool_decide (name = "study-rooms") then Throw "Error: PERMISSION_DENIED"
            else Ok [];
          Exporter.path_join := fun dir file => dir +:+ "/" +:+ file;
          Exporter.Number_toString := integerToString;
          Exporter.mkdirSync_error := fun _ _ => None;
          Exporter.writeFileSync_error := fun _ _ _ => None |};
     Collections.listCollections := Ok ["rooms"; "study-rooms"; "users"];
     Collections.doc_listCollections := fun _ _ => Ok [];
     Collections.subcollection_get := fun _ _ _ => Ok [] |}.

(** As [sampleStore], except that the sub-collection [reviews] cannot be
    read. *)
Definition unreadableReviewsStore : Collections.Store :=
  {| Collections.exporter := Collections.exporter sampleStore;
     Collections.listCollections := Ok ["rooms"; "study-rooms"];
     Collections.doc_listCollections := fun _ _ => Ok ["photos"; "reviews"];
     Collections.subcollection_get := fun _ _ sub =>
       if bool_decide (sub = "reviews") then Throw "Error: UNAVAILABLE" else Ok [] |}.

(** What [exportCollectionWithSubcollections] makes of one document: the
    properties of the flattened document, except that [_subcollections] is an
    object which has, for each sub-collection listed for the document and for
    nothing else, the array of its flattened documents. *)
Definition nests_subcollections (S : Collections.Store) (collectionName : string)
    (doc : Exporter.Document) (docData : Exporter.json) : Prop :=
  ∃ ids subs,
    Collections.doc_listCollections S collectionName (Exporter.doc_id doc) = Ok ids ∧
    Collections.property "_subcollections" (Collections.properties docData)
    = Some (Exporter.JObj subs) ∧
    (∀ k, k ≠ "_subcollections" →
       Collections.property k (Collections.properties docData)
       = Collections.property k (Collections.properties (Exporter.flatten doc))) ∧
    (∀ sub, sub ∈ ids →
       ∃ docs,
         Collections.subcollection_get S collectionName (Exporter.doc_id doc) sub = Ok docs ∧
         Collections.property sub subs
         = Some (Exporter.JArr (Exporter.flatten <$> docs))) ∧
    (∀ sub, sub ∉ ids → Collections.property sub subs = None).

(** As [okEnv], except that no Photo row can be created. *)
Definition photoTableDownEnv : Env :=
  {| deleteMany_error := deleteMany_error okEnv;
     listBuckets_error := listBuckets_error okEnv;
     createBucket_error := createBucket_error okEnv;
     university_create := university_create okEnv;
     building_create := building_create okEnv;
     studySpot_create := studySpot_create okEnv;
     lectureHall_create := lectureHall_create okEnv;
     photo_create := fun _ _ => Throw "PrismaClientKnownRequestError: P1001";
     axios_get := axios_get okEnv;
     sharp_metadata := sharp_metadata okEnv;
     sharp_resize_webp := sharp_resize_webp okEnv;
     upload_error := upload_error okEnv;
     getPublicUrl := getPublicUrl okEnv |}.

(** * Properties *)

(** ** Building-name normalization *)

Lemma buildingNameMap_values_truthy :
  map_Forall (fun _ canonical => truthy_string canonical = true) buildingNameMap.
Proof.
  apply map_Forall_to_list, Forall_forall.
  intros [name canonical] Hin. vm_compute in Hin. simpl.
  repeat (apply elem_of_cons in Hin as [Hin | Hin];
          [injection Hin as -> ->; reflexivity |]).
  by apply elem_of_nil in Hin.
Qed.

Lemma normalizeBuildingName_mapped name canonical :
  buildingNameMap !! name = Some canonical →
  normalizeBuildingName name = JString canonical.
Proof.
  intros H. unfold normalizeBuildingName, get. rewrite H. simpl.
  by rewrite (buildingNameMap_values_truthy name canonical H).
Qed.

Lemma normalizeBuildingName_unmapped name :
  buildingNameMap !! name = None →
  name ∉ objectPrototypeKeys →
  normalizeBuildingName name = JString name.
Proof.
  intros H Hk. unfold normalizeBuildingName, get. rewrite H.
  by rewrite decide_False.
Qed.

Lemma normalizeBuildingName_inherited name :
  name ∈ objectPrototypeKeys →
  normalizeBuildingName name = JInherited name.
Proof.
  intros Hk. unfold objectPrototypeKeys in Hk.
  repeat match goal with
         | H : _ ∈ _ :: _ |- _ => apply elem_of_cons in H as [-> | H]
         | H : _ ∈ [] |- _ => by apply elem_of_nil in H
         end; by vm_compute.
Qed.

(** C1 (the part the code misses): ["constructor"] is not a key of the
    normalization table, yet [normalizeBuildingName] does not return it
    unchanged: the lookup finds the member every object inherits from
    [Object.prototype], which is truthy, so that member is returned instead of
    the input string. *)
Theorem normalizeBuildingName_constructor :
  buildingNameMap !! "constructor" = None ∧
  normalizeBuildingName "constructor" = JInherited "constructor" ∧
  normalizeBuildingName "constructor" ≠ JString "constructor".
Proof. split; [by vm_compute | split; [by vm_compute | discriminate]]. Qed.

(** ** Running the monad *)

#[local] Arguments normalizeBuildingName : simpl never.
#[local] Arguments to_string : simpl never.
#[local] Arguments String.append : simpl never.
#[local] Arguments storagePath : simpl never.
#[local] Arguments photoErrorMsg : simpl never.
#[local] Arguments newDimensions : simpl never.
#[local] Arguments photoData : simpl never.

Ltac unfold_m :=
  unfold mbind, M_bind, mret, M_ret, try_catch, try_finally, throw,
    modify_world, modify_stats, get_world, exec, eval in *.

Ltac run := unfold_m; cbn in *.

Lemma bind_run {A B} (m : M A) (f : A → M B) s :
  (m ≫= f) s =
  match m s with
  | (Ok a, s1) => f a s1
  | (Throw e, s1) => (Throw e, s1)
  end.
Proof. reflexivity. Qed.

(** ** Reading the data files *)

Section Reads.

Context (E : Env) (F : DataFiles).

Lemma createBuildings_read studyRooms rooms universityId :
  study_rooms_json F = Ok studyRooms →
  rooms_json F = Ok rooms →
  createBuildings E F universityId
  = createBuildings_from E studyRooms rooms universityId.
Proof. intros Hs Hr. unfold createBuildings. by rewrite Hs, Hr. Qed.

Lemma migrateStudySpots_read studyRooms buildingMap :
  study_rooms_json F = Ok studyRooms →
  migrateStudySpots E F buildingMap = migrateStudySpots_from E studyRooms buildingMap.
Proof. intros Hs. unfold migrateStudySpots. by rewrite Hs. Qed.

Lemma migrateLectureHalls_read rooms buildingMap :
  rooms_json F = Ok rooms →
  migrateLectureHalls E F buildingMap = migrateLectureHalls_from E rooms buildingMap.
Proof. intros Hr. unfold migrateLectureHalls. by rewrite Hr. Qed.

Lemma processPhotos_read studyRooms rooms universityId studySpotMap lectureHallMap :
  study_rooms_json F = Ok studyRooms →
  rooms_json F = Ok rooms →
  processPhotos E F universityId studySpotMap lectureHallMap
  = processPhotos_from E studyRooms rooms universityId studySpotMap lectureHallMap.
Proof. intros Hs Hr. unfold processPhotos. by rewrite Hs, Hr. Qed.

(** A file that cannot be read makes the step throw before it does
    anything. *)
Lemma createBuildings_unreadable universityId s :
  (∀ e, study_rooms_json F = Throw e →
        createBuildings E F universityId s = (Throw e, s)) ∧
  (∀ studyRooms e, study_rooms_json F = Ok studyRooms → rooms_json F = Throw e →
        createBuildings E F universityId s = (Throw e, s)).
Proof.
  split; [intros e Hs | intros studyRooms e Hs Hr]; unfold createBuildings;
    by rewrite Hs, ?Hr.
Qed.

Lemma migrateStudySpots_unreadable buildingMap s e :
  study_rooms_json F = Throw e →
  migrateStudySpots E F buildingMap s = (Throw e, s).
Proof. intros Hs. unfold migrateStudySpots. by rewrite Hs. Qed.

Lemma migrateLectureHalls_unreadable buildingMap s e :
  rooms_json F = Throw e →
  migrateLectureHalls E F buildingMap s = (Throw e, s).
Proof. intros Hr. unfold migrateLectureHalls. by rewrite Hr. Qed.

End Reads.

Lemma for_fold_app {A B} (l1 l2 : list A) (acc : B) (body : A → B → M B) s :
  for_fold (l1 ++ l2) acc body s =
  match for_fold l1 acc body s with
  | (Ok acc', s') => for_fold l2 acc' body s'
  | (Throw e, s') => (Throw e, s')
  end.
Proof.
  revert acc s. induction l1 as [|x l1 IH]; intros acc s; simpl; [done|].
  unfold mbind, M_bind. destruct (body x acc s) as [[acc'|e] s']; [apply IH | done].
Qed.

Lemma for_of_app {A} (l1 l2 : list A) (body : A → M unit) s :
  for_of (l1 ++ l2) body s =
  match for_of l1 body s with
  | (Ok _, s') => for_of l2 body s'
  | (Throw e, s') => (Throw e, s')
  end.
Proof.
  revert s. induction l1 as [|x l1 IH]; intros s; simpl; [done|].
  unfold mbind, M_bind. destruct (body x s) as [[[]|e] s']; [apply IH | done].
Qed.

(** ** Entity migration: an unresolved building *)

Section Migration.

Context (E : Env) (buildingMap : gmap Value string).

Lemma resolveBuilding_absent building :
  buildingMap !! normalizeBuildingName building = None →
  resolveBuilding buildingMap building = None.
Proof. unfold resolveBuilding. by intros ->. Qed.

Lemma migrateStudySpot_unresolved room studySpotMap s :
  resolveBuilding buildingMap (sr_building room) = None →
  migrateStudySpot E buildingMap room studySpotMap s =
  (Ok studySpotMap,
   {| world := world s;
      stats := push_error
                 ("Failed to create study spot " +:+ sr_name room +:+ ": "
                  +:+ new_Error ("Building not found: "
                                 +:+ to_string (normalizeBuildingName (sr_building room))))
                 (stats s) |}).
Proof.
  unfold resolveBuilding. intros H. unfold migrateStudySpot. run.
  rewrite H. by destruct s.
Qed.

Lemma migrateLectureHall_unresolved room lectureHallMap s :
  resolveBuilding buildingMap (rd_building room) = None →
  migrateLectureHall E buildingMap room lectureHallMap s =
  (Ok lectureHallMap,
   {| world := world s;
      stats := push_error
                 ("Failed to create lecture hall " +:+ rd_room room +:+ ": "
                  +:+ new_Error ("Building not found: "
                                 +:+ to_string (normalizeBuildingName (rd_building room))))
                 (stats s) |}).
Proof.
  unfold resolveBuilding. intros H. unfold migrateLectureHall. run.
  rewrite H. by destruct s.
Qed.

End Migration.

(** ** Loops whose turns neither throw nor read the statistics *)

Section Loops.

Context {A B : Type} (body : A → B → M B).

Hypothesis body_total : ∀ x acc s, ∃ acc', (body x acc s).1 = Ok acc'.

Hypothesis body_differ : ∀ x acc s1 s2,
  differ_by_one_error s1 s2 →
  (body x acc s1).1 = (body x acc s2).1 ∧
  differ_by_one_error (body x acc s1).2 (body x acc s2).2.

Lemma for_fold_total l acc s : ∃ acc', (for_fold l acc body s).1 = Ok acc'.
Proof.
  revert acc s. induction l as [|x l IH]; intros acc s; simpl; [by eexists|].
  unfold mbind, M_bind. destruct (body_total x acc s) as [acc' H].
  destruct (body x acc s) as [[?|?] s']; simpl in H; [|done]. apply IH.
Qed.

Lemma for_fold_differ l acc s1 s2 :
  differ_by_one_error s1 s2 →
  (for_fold l acc body s1).1 = (for_fold l acc body s2).1 ∧
  differ_by_one_error (for_fold l acc body s1).2 (for_fold l acc body s2).2.
Proof.
  revert acc s1 s2. induction l as [|x l IH]; intros acc s1 s2 Hrel; simpl; [done|].
  unfold mbind, M_bind. destruct (body_differ x acc s1 s2 Hrel) as [Hr Hs].
  destruct (body x acc s1) as [r1 s1'], (body x acc s2) as [r2 s2'].
  simpl in Hr, Hs. subst r2. destruct r1; [by apply IH | done].
Qed.

(** Dropping a turn that only records an error changes nothing else. *)
Lemma for_fold_skip l1 x l2 acc s message :
  (∀ acc' s', body x acc' s' =
              (Ok acc', {| world := world s'; stats := push_error message (stats s') |})) →
  (for_fold (l1 ++ x :: l2) acc body s).1 = (for_fold (l1 ++ l2) acc body s).1 ∧
  differ_by_one_error (for_fold (l1 ++ x :: l2) acc body s).2
                      (for_fold (l1 ++ l2) acc body s).2.
Proof.
  intros Hx. rewrite !for_fold_app.
  destruct (for_fold_total l1 acc s) as [acc1 H1].
  destruct (for_fold l1 acc body s) as [[?|?] s1]; simpl in H1; [|done].
  simpl. unfold mbind, M_bind. rewrite Hx. apply for_fold_differ.
  repeat split; simpl; try done.
  exists (st_errors (stats s1)), message, []. by rewrite app_nil_r.
Qed.

End Loops.

(** ** Entity migration: the other records *)

Section MigrationLoops.

Context (E : Env) (buildingMap : gmap Value string).

Ltac split_states :=
  repeat match goal with
         | s : State |- _ => destruct s as [? []]
         end;
  unfold differ_by_one_error, one_more_error in *; cbn in *.

Ltac push_after :=
  match goal with
  | |- ∃ before message after, (?b ++ ?m :: ?a) ++ [?e] = _ ∧ _ =>
      exists b, m, (a ++ [e]); split; by rewrite <- app_assoc
  end.

Lemma migrateStudySpot_total room acc s :
  ∃ acc', (migrateStudySpot E buildingMap room acc s).1 = Ok acc'.
Proof.
  unfold migrateStudySpot, prisma_studySpot_create, prisma_create. run.
  destruct (as_truthy _); cbn; [|by eexists].
  destruct (studySpot_create _ _ _); cbn; by eexists.
Qed.

Lemma migrateStudySpot_differ room acc s1 s2 :
  differ_by_one_error s1 s2 →
  (migrateStudySpot E buildingMap room acc s1).1 =
  (migrateStudySpot E buildingMap room acc s2).1 ∧
  differ_by_one_error (migrateStudySpot E buildingMap room acc s1).2
                      (migrateStudySpot E buildingMap room acc s2).2.
Proof.
  split_states. intros (-> & -> & -> & -> & -> & -> & b & m & a & -> & ->).
  unfold migrateStudySpot, prisma_studySpot_create, prisma_create. run.
  destruct (as_truthy _); cbn.
  - destruct (studySpot_create _ _ _); cbn; do 7 (split; [done|]);
      [by exists b, m, a | push_after].
  - do 7 (split; [done|]); push_after.
Qed.

Lemma migrateLectureHall_total room acc s :
  ∃ acc', (migrateLectureHall E buildingMap room acc s).1 = Ok acc'.
Proof.
  unfold migrateLectureHall, prisma_lectureHall_create, prisma_create. run.
  destruct (as_truthy _); cbn; [|by eexists].
  destruct (lectureHall_create _ _ _); cbn; by eexists.
Qed.

Lemma migrateLectureHall_differ room acc s1 s2 :
  differ_by_one_error s1 s2 →
  (migrateLectureHall E buildingMap room acc s1).1 =
  (migrateLectureHall E buildingMap room acc s2).1 ∧
  differ_by_one_error (migrateLectureHall E buildingMap room acc s1).2
                      (migrateLectureHall E buildingMap room acc s2).2.
Proof.
  split_states. intros (-> & -> & -> & -> & -> & -> & b & m & a & -> & ->).
  unfold migrateLectureHall, prisma_lectureHall_create, prisma_create. run.
  destruct (as_truthy _); cbn.
  - destruct (lectureHall_create _ _ _); cbn; do 7 (split; [done|]);
      [by exists b, m, a | push_after].
  - do 7 (split; [done|]); push_after.
Qed.

End MigrationLoops.

(** ** Tables only grow during a loop *)

Section Growth.

Context {A B R : Type} (body : A → B → M B) (table : World → list R).

Hypothesis body_grows : ∀ x acc s,
  ∃ added, table (world (body x acc s).2) = table (world s) ++ added.

Lemma for_fold_grows l acc s :
  ∃ added, table (world (for_fold l acc body s).2) = table (world s) ++ added.
Proof.
  revert acc s. induction l as [|x l IH]; intros acc s; simpl.
  { exists []. by rewrite app_nil_r. }
  unfold mbind, M_bind. destruct (body_grows x acc s) as [added1 H1].
  destruct (body x acc s) as [[acc'|e] s']; simpl in H1.
  - destruct (IH acc' s') as [added2 H2]. exists (added1 ++ added2).
    by rewrite H2, H1, app_assoc.
  - by exists added1.
Qed.

End Growth.

Section MigrationCreates.

Context (E : Env) (buildingMap : gmap Value string).

Lemma migrateStudySpot_grows room acc s :
  ∃ added, db_studySpots (world (migrateStudySpot E buildingMap room acc s).2) =
           db_studySpots (world s) ++ added.
Proof.
  unfold migrateStudySpot, prisma_studySpot_create, prisma_create. run.
  destruct (as_truthy _); cbn.
  - destruct (studySpot_create _ _ _); cbn; [by eexists|].
    exists []. by rewrite app_nil_r.
  - exists []. by rewrite app_nil_r.
Qed.

Lemma migrateStudySpot_creates room acc s buildingId id :
  resolveBuilding buildingMap (sr_building room) = Some buildingId →
  studySpot_create E (world s) (studySpotData room buildingId) = Ok id →
  (migrateStudySpot E buildingMap room acc s).1 = Ok (<[sr_id room := id]> acc) ∧
  db_studySpots (world (migrateStudySpot E buildingMap room acc s).2) =
    db_studySpots (world s) ++ [(id, studySpotData room buildingId)] ∧
  st_errors (stats (migrateStudySpot E buildingMap room acc s).2) = st_errors (stats s).
Proof.
  unfold resolveBuilding. intros Hb Hc.
  unfold migrateStudySpot, prisma_studySpot_create, prisma_create. run.
  rewrite Hb. cbn. by rewrite Hc.
Qed.

Lemma migrateStudySpots_creates studyRooms s room buildingId :
  (∀ w d, ∃ id, studySpot_create E w d = Ok id) →
  room ∈ studyRooms →
  resolveBuilding buildingMap (sr_building room) = Some buildingId →
  ∃ id, (id, studySpotData room buildingId)
        ∈ db_studySpots (world (exec (migrateStudySpots_from E studyRooms buildingMap) s)).
Proof.
  intros Hok Hin Hb. apply list_elem_of_split in Hin as (la & lb & ->).
  unfold migrateStudySpots_from, exec. rewrite for_fold_app.
  destruct (for_fold_total _ (migrateStudySpot_total E buildingMap) la ∅ s)
    as [acc1 H1].
  destruct (for_fold la ∅ _ s) as [[?|?] s1]; simpl in H1; [|done].
  simpl. unfold mbind, M_bind.
  destruct (Hok (world s1) (studySpotData room buildingId)) as [id Hid].
  destruct (migrateStudySpot_creates room a s1 buildingId id Hb Hid) as (Hr & Hdb & _).
  destruct (migrateStudySpot E buildingMap room a s1) as [r2 s2].
  simpl in Hr, Hdb. subst r2.
  destruct (for_fold_grows _ db_studySpots (migrateStudySpot_grows) lb
              (<[sr_id room := id]> a) s2) as [added Hadd].
  exists id. rewrite Hadd, Hdb. set_solver.
Qed.

Lemma migrateLectureHall_grows room acc s :
  ∃ added, db_lectureHalls (world (migrateLectureHall E buildingMap room acc s).2) =
           db_lectureHalls (world s) ++ added.
Proof.
  unfold migrateLectureHall, prisma_lectureHall_create, prisma_create. run.
  destruct (as_truthy _); cbn.
  - destruct (lectureHall_create _ _ _); cbn; [by eexists|].
    exists []. by rewrite app_nil_r.
  - exists []. by rewrite app_nil_r.
Qed.

Lemma migrateLectureHall_creates room acc s buildingId id :
  resolveBuilding buildingMap (rd_building room) = Some buildingId →
  lectureHall_create E (world s) (lectureHallData room buildingId) = Ok id →
  (migrateLectureHall E buildingMap room acc s).1 = Ok (<[rd_id room := id]> acc) ∧
  db_lectureHalls (world (migrateLectureHall E buildingMap room acc s).2) =
    db_lectureHalls (world s) ++ [(id, lectureHallData room buildingId)] ∧
  st_errors (stats (migrateLectureHall E buildingMap room acc s).2) = st_errors (stats s).
Proof.
  unfold resolveBuilding. intros Hb Hc.
  unfold migrateLectureHall, prisma_lectureHall_create, prisma_create. run.
  rewrite Hb. cbn. by rewrite Hc.
Qed.

Lemma migrateLectureHalls_creates rooms s room buildingId :
  (∀ w d, ∃ id, lectureHall_create E w d = Ok id) →
  room ∈ rooms →
  resolveBuilding buildingMap (rd_building room) = Some buildingId →
  ∃ id, (id, lectureHallData room buildingId)
        ∈ db_lectureHalls (world (exec (migrateLectureHalls_from E rooms buildingMap) s)).
Proof.
  intros Hok Hin Hb. apply list_elem_of_split in Hin as (la & lb & ->).
  unfold migrateLectureHalls_from, exec. rewrite for_fold_app.
  destruct (for_fold_total _ (migrateLectureHall_total E buildingMap) la ∅ s)
    as [acc1 H1].
  destruct (for_fold la ∅ _ s) as [[?|?] s1]; simpl in H1; [|done].
  simpl. unfold mbind, M_bind.
  destruct (Hok (world s1) (lectureHallData room buildingId)) as [id Hid].
  destruct (migrateLectureHall_creates room a s1 buildingId id Hb Hid) as (Hr & Hdb & _).
  destruct (migrateLectureHall E buildingMap room a s1) as [r2 s2].
  simpl in Hr, Hdb. subst r2.
  destruct (for_fold_grows _ db_lectureHalls (migrateLectureHall_grows) lb
              (<[rd_id room := id]> a) s2) as [added Hadd].
  exists id. rewrite Hadd, Hdb. set_solver.
Qed.

End MigrationCreates.

(** ** Capability flags of a lecture hall *)

Lemma is_yes_spec flag : is_yes flag = true ↔ flag = Some "yes".
Proof. unfold is_yes. apply bool_decide_eq_true. Qed.

(** The hall of the specification's example: flags yes, no, yes, no. *)
Example lectureHallData_sample :
  lectureHallData (sampleRoom "7" "Arts" []) "b0" =
  {| lh_buildingId := "b0"; lh_room := "N7"; hasAvInputs := true; hasPc := false;
     hasWhiteboard := true; hasProjector := false |}.
Proof. reflexivity. Qed.

(** C3: the four boolean fields of a created Hall are true exactly when the
    corresponding source flag is the string ["yes"]; any other flag, a missing
    one included, gives false.  The turn of the loop for a room record either
    creates no hall or creates exactly one hall with these flags; it does
    create one, for this room and the building its name resolves to, whenever
    the building resolves and the store accepts the hall.  So in a run over a
    data file that holds the record, with a store that accepts what it is
    given, the table holds a hall of this room with these flags. *)
Theorem lecture_hall_flags_exactly_yes (E : Env) (buildingMap : gmap Value string)
    (room : RoomData) :
  let flags_from_yes (hall : LectureHallData) :=
    (hasAvInputs hall = true ↔ av_inputs (rd_information room) = Some "yes") ∧
    (hasPc hall = true ↔ pc (rd_information room) = Some "yes") ∧
    (hasWhiteboard hall = true ↔ whiteboard (rd_information room) = Some "yes") ∧
    (hasProjector hall = true ↔ projector (rd_information room) = Some "yes") in
  (∀ lectureHallMap s,
     let s' := exec (migrateLectureHall E buildingMap room lectureHallMap) s in
     (db_lectureHalls (world s') = db_lectureHalls (world s) ∨
      ∃ id hall,
        db_lectureHalls (world s') = db_lectureHalls (world s) ++ [(id, hall)] ∧
        flags_from_yes hall) ∧
     (∀ buildingId id,
        resolveBuilding buildingMap (rd_building room) = Some buildingId →
        lectureHall_create E (world s) (lectureHallData room buildingId) = Ok id →
        ∃ hall,
          db_lectureHalls (world s') = db_lectureHalls (world s) ++ [(id, hall)] ∧
          lh_buildingId hall = buildingId ∧ lh_room hall = rd_room room ∧
          flags_from_yes hall)) ∧
  (∀ (F : DataFiles) rooms s buildingId,
     rooms_json F = Ok rooms →
     room ∈ rooms →
     (∀ w d, ∃ id, lectureHall_create E w d = Ok id) →
     resolveBuilding buildingMap (rd_building room) = Some buildingId →
     ∃ id hall,
       (id, hall)
       ∈ db_lectureHalls (world (exec (migrateLectureHalls E F buildingMap) s)) ∧
       lh_buildingId hall = buildingId ∧ lh_room hall = rd_room room ∧
       flags_from_yes hall).
Proof.
  cbv zeta.
  assert (Hflags : ∀ buildingId,
            let hall := lectureHallData room buildingId in
            (hasAvInputs hall = true ↔ av_inputs (rd_information room) = Some "yes") ∧
            (hasPc hall = true ↔ pc (rd_information room) = Some "yes") ∧
            (hasWhiteboard hall = true ↔ whiteboard (rd_information room) = Some "yes") ∧
            (hasProjector hall = true ↔ projector (rd_information room) = Some "yes")).
  { intros buildingId. repeat split; by apply is_yes_spec. }
  split.
  - intros lectureHallMap s. split.
    + unfold migrateLectureHall, prisma_lectureHall_create, prisma_create. run.
      destruct (as_truthy _) as [buildingId|]; cbn; [|by left].
      destruct (lectureHall_create _ _ _) as [id|]; cbn; [|by left].
      right. exists id, (lectureHallData room buildingId). split; [done|].
      apply (Hflags buildingId).
    + intros buildingId id Hb Hc.
      destruct (migrateLectureHall_creates E buildingMap room lectureHallMap s
                  buildingId id Hb Hc) as (_ & Hdb & _).
      exists (lectureHallData room buildingId).
      split; [exact Hdb|]. split; [done|]. split; [done|]. apply (Hflags buildingId).
  - intros F rooms s buildingId HF Hroom Hok Hb.
    rewrite (migrateLectureHalls_read E F rooms buildingMap HF).
    destruct (migrateLectureHalls_creates E buildingMap rooms s room buildingId
                Hok Hroom Hb) as [id Hin].
    exists id, (lectureHallData room buildingId).
    split; [exact Hin|]. split; [done|]. split; [done|]. apply (Hflags buildingId).
Qed.

(** The statement of C3 at a room with the flags yes, no, yes, no, in a run
    over a data file that holds it. *)
Lemma lecture_hall_flags_witness :
  let room := sampleRoom "7" "Arts" [] in
  let buildingMap : gmap Value string := {[ JString "Arts Building" := "b0" ]} in
  let F := dataFiles [] [sampleRoom "6" "Atlantis" []; room] in
  resolveBuilding buildingMap (rd_building room) = Some "b0" ∧
  ∃ id hall,
    (id, hall)
    ∈ db_lectureHalls (world (exec (migrateLectureHalls okEnv F buildingMap) initialState)) ∧
    lh_room hall = "N7" ∧
    hasAvInputs hall = true ∧ hasPc hall = false ∧
    hasWhiteboard hall = true ∧ hasProjector hall = false.
Proof.
  intros room buildingMap F.
  assert (Hres : resolveBuilding buildingMap (rd_building room) = Some "b0")
    by (vm_compute; reflexivity).
  split; [exact Hres|].
  destruct (lecture_hall_flags_exactly_yes okEnv buildingMap room) as [_ Hrun].
  destruct (Hrun F [sampleRoom "6" "Atlantis" []; room] initialState "b0" eq_refl)
    as (id & hall & Hin & _ & Hname & Hav & Hpc & Hwb & Hpr).
  - apply elem_of_cons. right. by apply elem_of_cons; left.
  - intros w d. eexists. reflexivity.
  - exact Hres.
  - exists id, hall. split; [exact Hin|]. split; [exact Hname|].
    split; [by apply Hav|].
    split.
    { destruct (hasPc hall); [exfalso | reflexivity].
      assert (Hno : pc (rd_information room) = Some "yes") by (by apply Hpc).
      vm_compute in Hno. discriminate Hno. }
    split; [by apply Hwb|].
    destruct (hasProjector hall); [exfalso | reflexivity].
    assert (Hno : projector (rd_information room) = Some "yes") by (by apply Hpr).
    vm_compute in Hno. discriminate Hno.
Defined.

(** ** An unresolved building fails its own record only *)

(** C4: a record whose normalized building name is not in the lookup table
    creates no Spot (respectively Hall): the world is left as it was, the
    identifier table is returned unchanged and exactly one error is appended.
    The loop goes on: the run over a data file that holds the record yields
    the same identifier table, the same world and the same counters as the
    run over the file without that record, with exactly one error more; and
    when the store accepts what it is given, every record of the file whose
    building resolves has its row in the store. *)
Theorem unresolved_building_fails_only_its_record (E : Env)
    (buildingMap : gmap Value string) :
  (∀ room : StudyRoomData,
     buildingMap !! normalizeBuildingName (sr_building room) = None →
     (∀ studySpotMap s,
        let r := migrateStudySpot E buildingMap room studySpotMap s in
        r.1 = Ok studySpotMap ∧ world r.2 = world s ∧
        st_studySpots (stats r.2) = st_studySpots (stats s) ∧
        ∃ message, st_errors (stats r.2) = st_errors (stats s) ++ [message]) ∧
     (∀ before after (F F' : DataFiles) s,
        study_rooms_json F = Ok (before ++ room :: after) →
        study_rooms_json F' = Ok (before ++ after) →
        eval (migrateStudySpots E F buildingMap) s =
        eval (migrateStudySpots E F' buildingMap) s ∧
        differ_by_one_error
          (exec (migrateStudySpots E F buildingMap) s)
          (exec (migrateStudySpots E F' buildingMap) s)) ∧
     (∀ before after (F : DataFiles) s other buildingId,
        study_rooms_json F = Ok (before ++ room :: after) →
        (∀ w d, ∃ id, studySpot_create E w d = Ok id) →
        other ∈ before ++ after →
        resolveBuilding buildingMap (sr_building other) = Some buildingId →
        ∃ id, (id, studySpotData other buildingId)
              ∈ db_studySpots (world (exec (migrateStudySpots E F buildingMap) s)))) ∧
  (∀ room : RoomData,
     buildingMap !! normalizeBuildingName (rd_building room) = None →
     (∀ lectureHallMap s,
        let r := migrateLectureHall E buildingMap room lectureHallMap s in
        r.1 = Ok lectureHallMap ∧ world r.2 = world s ∧
        st_lectureHalls (stats r.2) = st_lectureHalls (stats s) ∧
        ∃ message, st_errors (stats r.2) = st_errors (stats s) ++ [message]) ∧
     (∀ before after (F F' : DataFiles) s,
        rooms_json F = Ok (before ++ room :: after) →
        rooms_json F' = Ok (before ++ after) →
        eval (migrateLectureHalls E F buildingMap) s =
        eval (migrateLectureHalls E F' buildingMap) s ∧
        differ_by_one_error
          (exec (migrateLectureHalls E F buildingMap) s)
          (exec (migrateLectureHalls E F' buildingMap) s)) ∧
     (∀ before after (F : DataFiles) s other buildingId,
        rooms_json F = Ok (before ++ room :: after) →
        (∀ w d, ∃ id, lectureHall_create E w d = Ok id) →
        other ∈ before ++ after →
        resolveBuilding buildingMap (rd_building other) = Some buildingId →
        ∃ id, (id, lectureHallData other buildingId)
              ∈ db_lectureHalls (world (exec (migrateLectureHalls E F buildingMap) s)))).
Proof.
  split; intros room Habsent; apply resolveBuilding_absent in Habsent.
  - split; [|split].
    + intros m s. rewrite (migrateStudySpot_unresolved E buildingMap room m s Habsent).
      cbn. eauto.
    + intros before after F F' s HF HF'.
      rewrite (migrateStudySpots_read E F _ buildingMap HF),
        (migrateStudySpots_read E F' _ buildingMap HF').
      unfold eval, exec, migrateStudySpots_from.
      eapply for_fold_skip;
        [apply migrateStudySpot_total | apply migrateStudySpot_differ |].
      intros acc' s'. by apply migrateStudySpot_unresolved.
    + intros before after F s other buildingId HF Hok Hin Hb.
      rewrite (migrateStudySpots_read E F _ buildingMap HF).
      apply migrateStudySpots_creates; [done | | done].
      apply elem_of_app. apply elem_of_app in Hin as [?|?]; [by left|].
      right. by apply elem_of_cons; right.
  - split; [|split].
    + intros m s. rewrite (migrateLectureHall_unresolved E buildingMap room m s Habsent).
      cbn. eauto.
    + intros before after F F' s HF HF'.
      rewrite (migrateLectureHalls_read E F _ buildingMap HF),
        (migrateLectureHalls_read E F' _ buildingMap HF').
      unfold eval, exec, migrateLectureHalls_from.
      eapply for_fold_skip;
        [apply migrateLectureHall_total | apply migrateLectureHall_differ |].
      intros acc' s'. by apply migrateLectureHall_unresolved.
    + intros before after F s other buildingId HF Hok Hin Hb.
      rewrite (migrateLectureHalls_read E F _ buildingMap HF).
      apply migrateLectureHalls_creates; [done | | done].
      apply elem_of_app. apply elem_of_app in Hin as [?|?]; [by left|].
      right. by apply elem_of_cons; right.
Qed.

(** The statement of C4 at a run of two study rooms and two rooms, one of each
    with a building that is not in the lookup table. *)
Lemma unresolved_building_witness :
  let buildingMap : gmap Value string := {[ JString "Arts Building" := "b0" ]} in
  let lostSpot := sampleStudyRoom "2" "Atlantis" None in
  let keptSpot := sampleStudyRoom "3" "Arts" None in
  let lostHall := sampleRoom "5" "Atlantis" [] in
  let keptHall := sampleRoom "6" "Arts Building" [] in
  (buildingMap !! normalizeBuildingName (sr_building lostSpot) = None ∧
   resolveBuilding buildingMap (sr_building keptSpot) = Some "b0" ∧
   ∃ id, (id, studySpotData keptSpot "b0")
         ∈ db_studySpots
             (world (exec (migrateStudySpots okEnv
                             (dataFiles ([keptSpot] ++ lostSpot :: [keptSpot]) [])
                             buildingMap) initialState))) ∧
  (buildingMap !! normalizeBuildingName (rd_building lostHall) = None ∧
   resolveBuilding buildingMap (rd_building keptHall) = Some "b0" ∧
   ∃ id, (id, lectureHallData keptHall "b0")
         ∈ db_lectureHalls
             (world (exec (migrateLectureHalls okEnv
                             (dataFiles [] ([] ++ lostHall :: [keptHall]))
                             buildingMap) initialState))).
Proof.
  intros buildingMap lostSpot keptSpot lostHall keptHall.
  destruct (unresolved_building_fails_only_its_record okEnv buildingMap) as [Hs Hh].
  split.
  - assert (Habsent : buildingMap !! normalizeBuildingName (sr_building lostSpot) = None)
      by (vm_compute; reflexivity).
    assert (Hres : resolveBuilding buildingMap (sr_building keptSpot) = Some "b0")
      by (vm_compute; reflexivity).
    split; [exact Habsent | split; [exact Hres |]].
    destruct (Hs lostSpot Habsent) as (_ & _ & Hothers).
    apply (Hothers [keptSpot] [keptSpot]
             (dataFiles ([keptSpot] ++ lostSpot :: [keptSpot]) []) initialState
             keptSpot "b0").
    + reflexivity.
    + intros w d. eexists. reflexivity.
    + apply elem_of_cons. by left.
    + exact Hres.
  - assert (Habsent : buildingMap !! normalizeBuildingName (rd_building lostHall) = None)
      by (vm_compute; reflexivity).
    assert (Hres : resolveBuilding buildingMap (rd_building keptHall) = Some "b0")
      by (vm_compute; reflexivity).
    split; [exact Habsent | split; [exact Hres |]].
    destruct (Hh lostHall Habsent) as (_ & _ & Hothers).
    apply (Hothers [] [keptHall] (dataFiles [] ([] ++ lostHall :: [keptHall]))
             initialState keptHall "b0").
    + reflexivity.
    + intros w d. eexists. reflexivity.
    + apply elem_of_cons. by left.
    + exact Hres.
Defined.

(** ** Photo processing *)

Section Photos.

Context (E : Env) (universityId : string).

Ltac unfold_image :=
  unfold processImage, downloadImage, optimizeImage, uploadToSupabase,
    storage_upload, prisma_photo_create, prisma_create.

Lemma optimizeImage_pure buffer s : exec (optimizeImage E buffer) s = s.
Proof.
  unfold optimizeImage. run. destruct (sharp_metadata E buffer) as [md|]; cbn; [|done].
  destruct (newDimensions md) as [nw nh].
  by destruct (sharp_resize_webp E buffer nw nh 85).
Qed.

Lemma optimizeImage_eval buffer s1 s2 :
  eval (optimizeImage E buffer) s1 = eval (optimizeImage E buffer) s2.
Proof.
  unfold optimizeImage. run. destruct (sharp_metadata E buffer) as [md|]; cbn; [|done].
  destruct (newDimensions md) as [nw nh].
  by destruct (sharp_resize_webp E buffer nw nh 85).
Qed.

Lemma processImage_total kind entityId name i url s :
  eval (processImage E kind universityId entityId name i url) s = Ok ().
Proof.
  unfold_image. run.
  destruct (axios_get _ _ _); cbn; [|done].
  destruct (sharp_metadata _ _) as [md|]; cbn; [|done].
  destruct (newDimensions md) as [nw nh].
  destruct (sharp_resize_webp _ _ _ _ _); cbn; [|done].
  destruct (upload_error _ _ _ _); cbn; [done|].
  by destruct (photo_create _ _ _).
Qed.

(** Either outcome, never both, never neither. *)
Lemma processImage_outcome kind entityId name i url s :
  let s' := exec (processImage E kind universityId entityId name i url) s in
  image_rejected s s' ∨ image_stored kind universityId entityId i s s'.
Proof.
  unfold image_rejected, image_stored. unfold_image. run.
  destruct (axios_get _ _ _); cbn; [|left; eauto].
  destruct (sharp_metadata _ _) as [md|]; cbn; [|left; eauto].
  destruct (newDimensions md) as [nw nh].
  destruct (sharp_resize_webp _ _ _ _ _); cbn; [|left; eauto].
  destruct (upload_error _ _ _ _); cbn; [left; eauto|].
  destruct (photo_create _ _ _); cbn; [right; eauto | left; eauto].
Qed.

Lemma processImage_download_fails kind entityId name i url s e :
  eval (downloadImage E url) s = Throw e →
  image_rejected s (exec (processImage E kind universityId entityId name i url) s).
Proof.
  unfold image_rejected. unfold_image. run.
  destruct (axios_get _ _ _); cbn; [done|]. eauto.
Qed.

Lemma processImage_transcode_fails kind entityId name i url s buffer e :
  eval (downloadImage E url) s = Ok buffer →
  eval (optimizeImage E buffer) (exec (downloadImage E url) s) = Throw e →
  image_rejected s (exec (processImage E kind universityId entityId name i url) s).
Proof.
  unfold image_rejected. unfold_image. run.
  destruct (axios_get _ _ _); cbn; [|done]. intros [= ->].
  destruct (sharp_metadata _ _) as [md|]; cbn; [|eauto].
  destruct (newDimensions md) as [nw nh].
  destruct (sharp_resize_webp _ _ _ _ _); cbn; [done|]. eauto.
Qed.

Lemma processImage_upload_fails kind entityId name i url s buffer optimized e :
  eval (downloadImage E url) s = Ok buffer →
  eval (optimizeImage E buffer) (exec (downloadImage E url) s) = Ok optimized →
  eval (uploadToSupabase E optimized (storagePath kind universityId entityId i))
       (exec (downloadImage E url) s) = Throw e →
  image_rejected s (exec (processImage E kind universityId entityId name i url) s).
Proof.
  unfold image_rejected. unfold_image. run.
  destruct (axios_get _ _ _); cbn; [|done]. intros [= ->].
  destruct (sharp_metadata _ _) as [md|]; cbn; [|done].
  destruct (newDimensions md) as [nw nh].
  destruct (sharp_resize_webp _ _ _ _ _); cbn; [|done]. intros [= ->].
  destruct (upload_error _ _ _ _); cbn; [|done]. eauto.
Qed.

Lemma processImage_succeeds kind entityId name i url s buffer optimized publicUrl id :
  let path := storagePath kind universityId entityId i in
  let s_down := exec (downloadImage E url) s in
  let s_up := exec (uploadToSupabase E optimized path) s_down in
  eval (downloadImage E url) s = Ok buffer →
  eval (optimizeImage E buffer) s_down = Ok optimized →
  eval (uploadToSupabase E optimized path) s_down = Ok publicUrl →
  eval (prisma_photo_create E (photoData kind path publicUrl entityId)) s_up = Ok id →
  let s' := exec (processImage E kind universityId entityId name i url) s in
  db_photos (world s') =
    db_photos (world s) ++ [(id, photoData kind path publicUrl entityId)] ∧
  st_photos (stats s') = S (st_photos (stats s)) ∧
  st_errors (stats s') = st_errors (stats s).
Proof.
  unfold_image. run.
  destruct (axios_get _ _ _); cbn; [|done]. intros [= ->].
  destruct (sharp_metadata _ _) as [md|]; cbn; [|done].
  destruct (newDimensions md) as [nw nh].
  destruct (sharp_resize_webp _ _ _ _ _); cbn; [|done]. intros [= ->].
  destruct (upload_error _ _ _ _); cbn; [done|]. intros [= ->].
  destruct (photo_create _ _ _); cbn; [|done]. by intros [= ->].
Qed.

Lemma processImage_keeps_photos kind entityId name i url s :
  ∃ added,
    db_photos (world (exec (processImage E kind universityId entityId name i url) s))
    = db_photos (world s) ++ added.
Proof.
  destruct (processImage_outcome kind entityId name i url s)
    as [(Hdb & _)|(id & publicUrl & Hdb & _)].
  - exists []. by rewrite app_nil_r.
  - by eexists.
Qed.

End Photos.

(** ** Loops whose turns never throw *)

Section IndexLoops.

Context {A : Type} (body : nat → A → M unit).

Hypothesis body_total : ∀ i x s, eval (body i x) s = Ok ().

Lemma for_index_cons i x l s :
  for_index i (x :: l) body s = for_index (S i) l body (exec (body i x) s).
Proof.
  simpl. unfold mbind, M_bind, exec. specialize (body_total i x s).
  unfold eval in body_total. by destruct (body i x s) as [[[]|] ?]; simplify_eq/=.
Qed.

Lemma for_index_total i l s : eval (for_index i l body) s = Ok ().
Proof.
  revert i s. induction l as [|x l IH]; intros i s; [done|].
  unfold eval. rewrite for_index_cons. apply IH.
Qed.

Lemma for_index_app i l1 l2 s :
  for_index i (l1 ++ l2) body s =
  for_index (i + length l1) l2 body (exec (for_index i l1 body) s).
Proof.
  revert i s. induction l1 as [|x l1 IH]; intros i s.
  - simpl. by rewrite Nat.add_0_r.
  - rewrite <- app_comm_cons, for_index_cons, IH. unfold exec.
    rewrite (for_index_cons i x l1 s). unfold exec. simpl length.
    by rewrite Nat.add_succ_r.
Qed.

(** The image at position [k] is handled at index [k], in the state the
    images before it left, and the loop goes on with the images after it. *)
Lemma for_index_middle l k x s :
  l !! k = Some x →
  exec (for_index 0 l body) s =
  exec (for_index (S k) (drop (S k) l) body)
       (exec (body k x) (exec (for_index 0 (take k l) body) s)).
Proof.
  intros Hk. rewrite <- (take_drop_middle l k x Hk) at 1.
  unfold exec at 1. rewrite for_index_app, for_index_cons. simpl.
  by rewrite length_take_le by (apply Nat.lt_le_incl; by eapply lookup_lt_Some).
Qed.

(** A property kept by every turn is kept by the loop. *)
Lemma for_index_invariant (I : State → Prop) start l s :
  (∀ k x s', l !! k = Some x → I s' → I (exec (body (start + k) x) s')) →
  I s → I (exec (for_index start l body) s).
Proof.
  revert start s. induction l as [|x l IH]; intros start s Hstep Hs; [done|].
  unfold exec. rewrite for_index_cons. apply IH.
  - intros k y s' Hk. rewrite Nat.add_succ_l, <- Nat.add_succ_r. by apply (Hstep (S k)).
  - specialize (Hstep 0 x s eq_refl Hs). by rewrite Nat.add_0_r in Hstep.
Qed.

End IndexLoops.

Section RecordLoops.

Context {A : Type} (body : A → M unit).

Hypothesis body_total : ∀ x s, eval (body x) s = Ok ().

Lemma for_of_cons x l s : for_of (x :: l) body s = for_of l body (exec (body x) s).
Proof.
  simpl. unfold mbind, M_bind, exec. specialize (body_total x s).
  unfold eval in body_total. by destruct (body x s) as [[[]|] ?]; simplify_eq/=.
Qed.

Lemma for_of_total l s : eval (for_of l body) s = Ok ().
Proof.
  revert s. induction l as [|x l IH]; intros s; [done|].
  unfold eval. rewrite for_of_cons. apply IH.
Qed.

Lemma for_of_invariant (I : State → Prop) l s :
  (∀ x s', x ∈ l → I s' → I (exec (body x) s')) →
  I s → I (exec (for_of l body) s).
Proof.
  revert s. induction l as [|x l IH]; intros s Hstep Hs; [done|].
  unfold exec. rewrite for_of_cons. apply IH.
  - intros y s' Hy. apply Hstep. by apply elem_of_cons; right.
  - apply Hstep; [by apply elem_of_cons; left | done].
Qed.

(** A turn that does nothing can be dropped. *)
Lemma for_of_skip l1 x l2 s :
  (∀ s', body x s' = (Ok (), s')) →
  for_of (l1 ++ x :: l2) body s = for_of (l1 ++ l2) body s.
Proof.
  intros Hx. rewrite !for_of_app.
  destruct (for_of l1 body s) as [[[]|] s1]; [|done].
  simpl. unfold mbind, M_bind. by rewrite Hx.
Qed.

End RecordLoops.

(** ** Photo processing: one failing download among three images *)

Section ThreeImages.

Context (E : Env) (universityId badUrl : string).

Hypothesis others_succeed : only_download_fails E badUrl.

Ltac unfold_image :=
  unfold processImage, downloadImage, optimizeImage, uploadToSupabase,
    storage_upload, prisma_photo_create, prisma_create.

Lemma processImage_bad kind entityId name i s :
  image_rejected s (exec (processImage E kind universityId entityId name i badUrl) s).
Proof.
  destruct others_succeed as (Hbad & _).
  destruct (Hbad (world s)) as [e He].
  apply (processImage_download_fails E universityId kind entityId name i badUrl s
           (new_Error ("Failed to download image from " +:+ badUrl +:+ ": " +:+ e))).
  unfold downloadImage. run. by rewrite He.
Qed.

Lemma processImage_good kind entityId name i url s :
  url ≠ badUrl →
  let path := storagePath kind universityId entityId i in
  let s' := exec (processImage E kind universityId entityId name i url) s in
  ∃ id,
    db_photos (world s') =
      db_photos (world s) ++ [(id, photoData kind path (getPublicUrl E path) entityId)] ∧
    st_photos (stats s') = S (st_photos (stats s)) ∧
    st_errors (stats s') = st_errors (stats s).
Proof.
  intros Hurl. destruct others_succeed as (_ & Hget & Hmeta & Hresize & Hup & Hphoto).
  unfold_image. run.
  destruct (Hget (world s) url Hurl) as [data ->]. cbn.
  destruct (Hmeta data) as [md ->]. cbn.
  destruct (newDimensions md) as [nw nh].
  destruct (Hresize data nw nh 85%Z) as [out ->]. cbn.
  rewrite Hup. cbn.
  match goal with
  | |- context [photo_create E ?w ?d] => destruct (Hphoto w d) as [id ->]
  end.
  cbn. by exists id.
Qed.

Lemma three_images kind entityId name u0 u2 s :
  u0 ≠ badUrl → u2 ≠ badUrl →
  let path i := storagePath kind universityId entityId i in
  let s' := exec (for_index 0 [u0; badUrl; u2]
                    (processImage E kind universityId entityId name)) s in
  ∃ id0 id2 message,
    db_photos (world s') =
      db_photos (world s)
      ++ [(id0, photoData kind (path 0) (getPublicUrl E (path 0)) entityId);
          (id2, photoData kind (path 2) (getPublicUrl E (path 2)) entityId)] ∧
    st_photos (stats s') = 2 + st_photos (stats s) ∧
    st_errors (stats s') = st_errors (stats s) ++ [message].
Proof.
  intros H0 H2 path s'.
  set (s0 := exec (processImage E kind universityId entityId name 0 u0) s).
  set (s1 := exec (processImage E kind universityId entityId name 1 badUrl) s0).
  assert (Hs' : s' = exec (processImage E kind universityId entityId name 2 u2) s1).
  { unfold s', exec at 1. by rewrite !for_index_cons by apply processImage_total. }
  rewrite Hs'. clear Hs' s'. unfold path.
  destruct (processImage_good kind entityId name 0 u0 s H0) as (id0 & Hp0 & Hn0 & He0).
  destruct (processImage_bad kind entityId name 1 s0) as (Hp1 & Hn1 & message & He1).
  destruct (processImage_good kind entityId name 2 u2 s1 H2) as (id2 & Hp2 & Hn2 & He2).
  fold s0 in Hp0, Hn0, He0. fold s1 in Hp1, Hn1, He1.
  exists id0, id2, message.
  rewrite Hp2, Hn2, He2, Hp1, Hn1, He1, Hp0, Hn0, He0.
  by rewrite <- app_assoc.
Qed.

End ThreeImages.

(** Photos are only ever added by the loop over an image list. *)
Lemma for_index_keeps_photos E universityId kind entityId name i urls s :
  ∃ added,
    db_photos
      (world (exec (for_index i urls (processImage E kind universityId entityId name)) s))
    = db_photos (world s) ++ added.
Proof.
  apply (for_index_invariant _ (fun _ _ _ => processImage_total E _ _ _ _ _ _ _)
           (fun s0 => ∃ added, db_photos (world s0) = db_photos (world s) ++ added)).
  - intros k url s0 _ [added0 H0].
    destruct (processImage_keeps_photos E universityId kind entityId name (i + k) url s0)
      as [added1 H1].
    exists (added0 ++ added1). by rewrite H1, H0, app_assoc.
  - exists []. by rewrite app_nil_r.
Qed.

Section AnyImages.

Context (E : Env) (universityId : string) (bad : list string).

Hypothesis others_succeed : only_downloads_fail E bad.

Ltac unfold_image :=
  unfold processImage, downloadImage, optimizeImage, uploadToSupabase,
    storage_upload, prisma_photo_create, prisma_create.

Lemma processImage_bad_url kind entityId name i url s :
  url ∈ bad →
  image_rejected s (exec (processImage E kind universityId entityId name i url) s).
Proof.
  intros Hurl. destruct others_succeed as (Hbad & _).
  destruct (Hbad (world s) url Hurl) as [e He].
  apply (processImage_download_fails E universityId kind entityId name i url s
           (new_Error ("Failed to download image from " +:+ url +:+ ": " +:+ e))).
  unfold downloadImage. run. by rewrite He.
Qed.

Lemma processImage_good_url kind entityId name i url s :
  url ∉ bad →
  let path := storagePath kind universityId entityId i in
  let s' := exec (processImage E kind universityId entityId name i url) s in
  ∃ id,
    db_photos (world s') =
      db_photos (world s) ++ [(id, photoData kind path (getPublicUrl E path) entityId)] ∧
    st_photos (stats s') = S (st_photos (stats s)) ∧
    st_errors (stats s') = st_errors (stats s).
Proof.
  intros Hurl. destruct others_succeed as (_ & Hget & Hmeta & Hresize & Hup & Hphoto).
  unfold_image. run.
  destruct (Hget (world s) url Hurl) as [data ->]. cbn.
  destruct (Hmeta data) as [md ->]. cbn.
  destruct (newDimensions md) as [nw nh].
  destruct (Hresize data nw nh 85%Z) as [out ->]. cbn.
  rewrite Hup. cbn.
  match goal with
  | |- context [photo_create E ?w ?d] => destruct (Hphoto w d) as [id ->]
  end.
  cbn. by exists id.
Qed.

(** Every image whose download succeeds gets its Photo, at its own position;
    every other image gets one error. *)
Lemma images_of_any_list kind entityId name urls i s :
  let s' := exec (for_index i urls (processImage E kind universityId entityId name)) s in
  ∃ rows errors,
    db_photos (world s') = db_photos (world s) ++ rows ∧
    rows.*2 = photosFrom E kind universityId entityId bad i urls ∧
    st_photos (stats s') = st_photos (stats s) + length rows ∧
    st_errors (stats s') = st_errors (stats s) ++ errors ∧
    length errors = length (filter (fun url => url ∈ bad) urls).
Proof.
  revert i s. induction urls as [|url urls IH]; intros i s.
  { exists [], []. rewrite !app_nil_r. split_and!; done || (simpl; lia). }
  cbv zeta. unfold exec. rewrite for_index_cons by (intros; apply processImage_total).
  destruct (IH (S i) (exec (processImage E kind universityId entityId name i url) s))
    as (rows & errors & Hdb & Hrows & Hn & He & Hlen).
  unfold exec in Hdb, Hn, He |- *. rewrite Hdb, Hn, He. simpl photosFrom.
  rewrite filter_cons.
  destruct (decide (url ∈ bad)) as [Hbad|Hgood].
  - destruct (processImage_bad_url kind entityId name i url s Hbad)
      as (Hdb1 & Hn1 & message & He1).
    unfold exec in Hdb1, Hn1, He1. rewrite Hdb1, Hn1, He1.
    exists rows, (message :: errors).
    split_and!; [done | done | done | by rewrite <- app_assoc | simpl; by rewrite Hlen].
  - destruct (processImage_good_url kind entityId name i url s Hgood)
      as (id & Hdb1 & Hn1 & He1).
    unfold exec in Hdb1, Hn1, He1. rewrite Hdb1, Hn1, He1.
    eexists (_ :: rows), errors.
    split_and!; [by rewrite <- app_assoc | rewrite fmap_cons, Hrows; reflexivity
                | simpl; lia | done | done].
Qed.

End AnyImages.

Lemma flakyEnv_only_download_fails badUrl : only_download_fails (flakyEnv badUrl) badUrl.
Proof.
  unfold only_download_fails, flakyEnv; cbn. repeat split; intros; try by eexists.
  - rewrite bool_decide_eq_true_2 by done. by eexists.
  - rewrite bool_decide_eq_false_2 by done. by eexists.
Qed.

(** C5: within one image list every image is processed on its own.  The
    processing of an image never throws; it ends either with no Photo and
    exactly one error, or with exactly one Photo whose storage path carries the
    position of the image and no error; a failing download, transcode or
    upload gives the first outcome, and when the download, the transcode, the
    upload and the creation of the row all succeed the outcome is the second.
    The image at position [k] is processed at index [k] whatever happened to
    the images before it, the loop goes on after it, and the Photos recorded
    so far are kept.  For an image list of any length, when exactly the
    downloads of some URLs fail, the record gets one Photo for every other
    image, at the path of that image's own position and in order, and one
    error for each failing image.  In particular a record with three image
    URLs whose second download fails, all else succeeding, gets exactly two
    Photos, at indices 0 and 2, and exactly one error. *)
Theorem image_failures_are_isolated (E : Env) (universityId : string) :
  (∀ kind entityId name i url s,
     let path := storagePath kind universityId entityId i in
     let s_down := exec (downloadImage E url) s in
     let s' := exec (processImage E kind universityId entityId name i url) s in
     eval (processImage E kind universityId entityId name i url) s = Ok () ∧
     (image_rejected s s' ∨ image_stored kind universityId entityId i s s') ∧
     (∀ e, eval (downloadImage E url) s = Throw e → image_rejected s s') ∧
     (∀ buffer e,
        eval (downloadImage E url) s = Ok buffer →
        eval (optimizeImage E buffer) s_down = Throw e →
        image_rejected s s') ∧
     (∀ buffer optimized e,
        eval (downloadImage E url) s = Ok buffer →
        eval (optimizeImage E buffer) s_down = Ok optimized →
        eval (uploadToSupabase E optimized path) s_down = Throw e →
        image_rejected s s') ∧
     (∀ buffer optimized publicUrl id,
        eval (downloadImage E url) s = Ok buffer →
        eval (optimizeImage E buffer) s_down = Ok optimized →
        eval (uploadToSupabase E optimized path) s_down = Ok publicUrl →
        eval (prisma_photo_create E (photoData kind path publicUrl entityId))
             (exec (uploadToSupabase E optimized path) s_down) = Ok id →
        db_photos (world s') =
          db_photos (world s) ++ [(id, photoData kind path publicUrl entityId)] ∧
        st_photos (stats s') = S (st_photos (stats s)) ∧
        st_errors (stats s') = st_errors (stats s))) ∧
  (∀ kind entityId name (urls : list string) k url s,
     urls !! k = Some url →
     let body := processImage E kind universityId entityId name in
     let s_k := exec (body k url) (exec (for_index 0 (take k urls) body) s) in
     exec (for_index 0 urls body) s = exec (for_index (S k) (drop (S k) urls) body) s_k ∧
     ∃ later,
       db_photos (world (exec (for_index 0 urls body) s))
       = db_photos (world s_k) ++ later) ∧
  (∀ studySpotMap room urls studySpotId bad s,
     only_downloads_fail E bad →
     sr_imageURL room = Some urls →
     as_truthy (studySpotMap !! sr_id room) = Some studySpotId →
     let s' := exec (processStudyRoomPhotos E universityId studySpotMap room) s in
     ∃ rows errors,
       db_photos (world s') = db_photos (world s) ++ rows ∧
       rows.*2 = photosFrom E StudySpotKind universityId studySpotId bad 0 urls ∧
       st_photos (stats s') = st_photos (stats s) + length rows ∧
       st_errors (stats s') = st_errors (stats s) ++ errors ∧
       length errors = length (filter (fun url => url ∈ bad) urls)) ∧
  (∀ lectureHallMap room lectureHallId bad s,
     only_downloads_fail E bad →
     as_truthy (lectureHallMap !! rd_id room) = Some lectureHallId →
     let s' := exec (processRoomPhotos E universityId lectureHallMap room) s in
     ∃ rows errors,
       db_photos (world s') = db_photos (world s) ++ rows ∧
       rows.*2
       = photosFrom E LectureHallKind universityId lectureHallId bad 0 (rd_photos room) ∧
       st_photos (stats s') = st_photos (stats s) + length rows ∧
       st_errors (stats s') = st_errors (stats s) ++ errors ∧
       length errors = length (filter (fun url => url ∈ bad) (rd_photos room))) ∧
  (∀ studySpotMap room u0 u1 u2 studySpotId s,
     only_download_fails E u1 → u0 ≠ u1 → u2 ≠ u1 →
     sr_imageURL room = Some [u0; u1; u2] →
     as_truthy (studySpotMap !! sr_id room) = Some studySpotId →
     let path i := storagePath StudySpotKind universityId studySpotId i in
     let s' := exec (processStudyRoomPhotos E universityId studySpotMap room) s in
     ∃ id0 id2 message,
       db_photos (world s') =
         db_photos (world s)
         ++ [(id0, photoData StudySpotKind (path 0) (getPublicUrl E (path 0)) studySpotId);
             (id2, photoData StudySpotKind (path 2) (getPublicUrl E (path 2)) studySpotId)] ∧
       st_photos (stats s') = 2 + st_photos (stats s) ∧
       st_errors (stats s') = st_errors (stats s) ++ [message]) ∧
  (∀ lectureHallMap room u0 u1 u2 lectureHallId s,
     only_download_fails E u1 → u0 ≠ u1 → u2 ≠ u1 →
     rd_photos room = [u0; u1; u2] →
     as_truthy (lectureHallMap !! rd_id room) = Some lectureHallId →
     let path i := storagePath LectureHallKind universityId lectureHallId i in
     let s' := exec (processRoomPhotos E universityId lectureHallMap room) s in
     ∃ id0 id2 message,
       db_photos (world s') =
         db_photos (world s)
         ++ [(id0, photoData LectureHallKind (path 0) (getPublicUrl E (path 0)) lectureHallId);
             (id2, photoData LectureHallKind (path 2) (getPublicUrl E (path 2)) lectureHallId)] ∧
       st_photos (stats s') = 2 + st_photos (stats s) ∧
       st_errors (stats s') = st_errors (stats s) ++ [message]).
Proof.
  split_and!.
  - intros kind entityId name i url s. cbv zeta.
    split; [apply processImage_total|].
    split; [apply processImage_outcome|].
    split_and!.
    + intros e. apply processImage_download_fails.
    + intros buffer e. apply processImage_transcode_fails.
    + intros buffer optimized e. apply processImage_upload_fails.
    + intros buffer optimized publicUrl id. apply processImage_succeeds.
  - intros kind entityId name urls k url s Hk. cbv zeta.
    assert (Hmiddle := for_index_middle _ (processImage_total E universityId kind
                                              entityId name) urls k url s Hk).
    split; [exact Hmiddle|]. rewrite Hmiddle. apply for_index_keeps_photos.
  - intros m room urls studySpotId bad s Hothers Hurls Hid. cbv zeta.
    unfold processStudyRoomPhotos. rewrite Hurls, Hid.
    destruct urls as [|url urls].
    + exists [], []. rewrite !app_nil_r. split_and!; done || (simpl; lia).
    + by apply images_of_any_list.
  - intros m room lectureHallId bad s Hothers Hid. cbv zeta.
    unfold processRoomPhotos. rewrite Hid.
    destruct (rd_photos room) as [|url urls].
    + exists [], []. rewrite !app_nil_r. split_and!; done || (simpl; lia).
    + by apply images_of_any_list.
  - intros m room u0 u1 u2 studySpotId s Hothers H0 H2 Hurls Hid.
    unfold processStudyRoomPhotos. rewrite Hurls, Hid.
    by apply three_images.
  - intros m room u0 u1 u2 lectureHallId s Hothers H0 H2 Hurls Hid.
    unfold processRoomPhotos. rewrite Hurls, Hid.
    by apply three_images.
Qed.

(** The statement of C5 at a study room with three images, the second of
    which cannot be downloaded. *)
Lemma image_failures_witness :
  let room :=
    sampleStudyRoom "1" "Arts" (Some ["http://img/a.jpg"; "http://img/b.jpg"; "http://img/c.jpg"]) in
  let studySpotMap : gmap string string := {[ "1" := "s0" ]} in
  let s' := exec (processStudyRoomPhotos (flakyEnv "http://img/b.jpg") "u0" studySpotMap room)
                 initialState in
  only_download_fails (flakyEnv "http://img/b.jpg") "http://img/b.jpg" ∧
  as_truthy (studySpotMap !! sr_id room) = Some "s0" ∧
  (ph_storagePath ∘ snd) <$> db_photos (world s') =
    ["universities/u0/photos/study-spots/s0/0.webp";
     "universities/u0/photos/study-spots/s0/2.webp"] ∧
  length (st_errors (stats s')) = 1.
Proof.
  intros room studySpotMap s'.
  assert (Hothers := flakyEnv_only_download_fails "http://img/b.jpg").
  assert (Hid : as_truthy (studySpotMap !! sr_id room) = Some "s0")
    by (vm_compute; reflexivity).
  split; [exact Hothers | split; [exact Hid |]].
  destruct (image_failures_are_isolated (flakyEnv "http://img/b.jpg") "u0")
    as (_ & _ & _ & _ & Hspots & _).
  destruct (Hspots studySpotMap room "http://img/a.jpg" "http://img/b.jpg"
              "http://img/c.jpg" "s0" initialState Hothers)
    as (id0 & id2 & message & Hp & _ & He); [done | done | reflexivity | exact Hid |].
  fold s' in Hp, He. rewrite Hp, He. split; reflexivity.
Defined.

(** ** Photo processing: records without a migrated entity *)

Lemma processStudyRoomPhotos_total E universityId studySpotMap room s :
  eval (processStudyRoomPhotos E universityId studySpotMap room) s = Ok ().
Proof.
  unfold processStudyRoomPhotos.
  destruct (sr_imageURL room) as [[|url urls]|]; [done| |done].
  destruct (as_truthy _); [|done].
  apply for_index_total. intros. apply processImage_total.
Qed.

Lemma processRoomPhotos_total E universityId lectureHallMap room s :
  eval (processRoomPhotos E universityId lectureHallMap room) s = Ok ().
Proof.
  unfold processRoomPhotos.
  destruct (rd_photos room) as [|url urls]; [done|].
  destruct (as_truthy _); [|done].
  apply for_index_total. intros. apply processImage_total.
Qed.

Lemma processStudyRoomPhotos_unmapped E universityId studySpotMap room s :
  studySpotMap !! sr_id room = None →
  processStudyRoomPhotos E universityId studySpotMap room s = (Ok (), s).
Proof.
  intros H. unfold processStudyRoomPhotos. rewrite H. cbn.
  by destruct (sr_imageURL room) as [[|url urls]|].
Qed.

Lemma processRoomPhotos_unmapped E universityId lectureHallMap room s :
  lectureHallMap !! rd_id room = None →
  processRoomPhotos E universityId lectureHallMap room s = (Ok (), s).
Proof.
  intros H. unfold processRoomPhotos. rewrite H. cbn.
  by destruct (rd_photos room) as [|url urls].
Qed.

(** C10: in the photo stage a record whose id has no entry in the Spot
    (respectively Hall) identifier table is skipped silently: its turn of the
    loop returns at once and leaves the whole state as it was (no call to any
    service, hence no download and no Photo, and no error recorded), and the
    stage as a whole behaves exactly as if the record were not in its data
    file. *)
Theorem photos_skip_unmapped_records (E : Env) (universityId : string)
    (studySpotMap lectureHallMap : gmap string string) :
  (∀ room : StudyRoomData,
     studySpotMap !! sr_id room = None →
     (∀ s, processStudyRoomPhotos E universityId studySpotMap room s = (Ok (), s)) ∧
     (∀ before after (F F' : DataFiles) s,
        study_rooms_json F = Ok (before ++ room :: after) →
        study_rooms_json F' = Ok (before ++ after) →
        rooms_json F' = rooms_json F →
        processPhotos E F universityId studySpotMap lectureHallMap s =
        processPhotos E F' universityId studySpotMap lectureHallMap s)) ∧
  (∀ room : RoomData,
     lectureHallMap !! rd_id room = None →
     (∀ s, processRoomPhotos E universityId lectureHallMap room s = (Ok (), s)) ∧
     (∀ before after (F F' : DataFiles) s,
        rooms_json F = Ok (before ++ room :: after) →
        rooms_json F' = Ok (before ++ after) →
        study_rooms_json F' = study_rooms_json F →
        processPhotos E F universityId studySpotMap lectureHallMap s =
        processPhotos E F' universityId studySpotMap lectureHallMap s)).
Proof.
  split; intros room Hnone.
  - split; [intros s; by apply processStudyRoomPhotos_unmapped|].
    intros before after F F' s HF HF' Hrooms.
    unfold processPhotos. rewrite HF, HF', Hrooms.
    unfold mbind, M_bind, readJson. cbv beta iota.
    rewrite (for_of_skip _ before room after s); [done|].
    intros s'. by apply processStudyRoomPhotos_unmapped.
  - split; [intros s; by apply processRoomPhotos_unmapped|].
    intros before after F F' s HF HF' Hstudy.
    unfold processPhotos. rewrite HF, HF', Hstudy.
    unfold mbind, M_bind, readJson. cbv beta iota.
    destruct (study_rooms_json F) as [studyRooms|e]; [|done].
    destruct (for_of studyRooms _ s) as [[[]|] s1]; [|done].
    apply for_of_skip. intros s'. by apply processRoomPhotos_unmapped.
Qed.

(** The statement of C10 at a study room and a room without an entity. *)
Lemma photos_skip_unmapped_witness :
  let orphanSpot := sampleStudyRoom "9" "Atlantis" (Some ["http://img/a.jpg"]) in
  let orphanHall := sampleRoom "8" "Atlantis" ["http://img/b.jpg"] in
  let studySpotMap : gmap string string := {[ "1" := "s0" ]} in
  let lectureHallMap : gmap string string := {[ "2" := "h0" ]} in
  (studySpotMap !! sr_id orphanSpot = None ∧
   processStudyRoomPhotos okEnv "u0" studySpotMap orphanSpot initialState
   = (Ok (), initialState)) ∧
  (lectureHallMap !! rd_id orphanHall = None ∧
   processRoomPhotos okEnv "u0" lectureHallMap orphanHall initialState
   = (Ok (), initialState)).
Proof.
  intros orphanSpot orphanHall studySpotMap lectureHallMap.
  destruct (photos_skip_unmapped_records okEnv "u0" studySpotMap lectureHallMap)
    as [Hs Hh].
  split.
  - assert (Hnone : studySpotMap !! sr_id orphanSpot = None) by (vm_compute; reflexivity).
    split; [exact Hnone|]. by destruct (Hs orphanSpot Hnone) as [Hstep _].
  - assert (Hnone : lectureHallMap !! rd_id orphanHall = None) by (vm_compute; reflexivity).
    split; [exact Hnone|]. by destruct (Hh orphanHall Hnone) as [Hstep _].
Defined.

(** ** The layout of stored images *)

Section Layout.

Context (good : string → Prop).

Lemma paths_within_refl s : paths_within good s s.
Proof.
  repeat split.
  - exists []. rewrite app_nil_r. split; [done|]. intros ? H. by apply elem_of_nil in H.
  - exists []. rewrite app_nil_r. split; [done|]. intros ? H. by apply elem_of_nil in H.
  - done.
Qed.

Lemma paths_within_trans s1 s2 s3 :
  paths_within good s1 s2 → paths_within good s2 s3 → paths_within good s1 s3.
Proof.
  intros ((c1 & Hc1 & Hg1) & (p1 & Hp1 & Hr1) & Ho1)
         ((c2 & Hc2 & Hg2) & (p2 & Hp2 & Hr2) & Ho2).
  repeat split.
  - exists (c1 ++ c2). rewrite Hc2, Hc1, app_assoc. split; [done|].
    intros path [?|?]%elem_of_app; auto.
  - exists (p1 ++ p2). rewrite Hp2, Hp1, app_assoc. split; [done|].
    intros row [?|?]%elem_of_app; auto.
  - intros path Hne.
    destruct (decide (storage_objects (world s3) !! path
                      = storage_objects (world s2) !! path)) as [Heq|]; [|auto].
    apply Ho1. by rewrite <- Heq.
Qed.

Lemma processImage_paths_within E kind universityId entityId name i url s :
  good (storagePath kind universityId entityId i) →
  paths_within good s (exec (processImage E kind universityId entityId name i url) s).
Proof.
  intros Hgood.
  unfold paths_within, processImage, downloadImage, optimizeImage, uploadToSupabase,
    storage_upload, prisma_photo_create, prisma_create.
  run.
  assert (Hnil : ∀ row : Row PhotoData, row ∈ [] → good (ph_storagePath row.2))
    by (intros ? H; by apply elem_of_nil in H).
  assert (Hone : ∀ tail,
             (∀ p, CallUpload p ∈ tail → good p) →
             ∀ path, CallUpload path ∈ CallDownload url :: tail → good path).
  { intros tail Ht path [?|?]%elem_of_cons; [done | auto]. }
  assert (Hput : ∀ (m : gmap string Buffer) b path,
             <[storagePath kind universityId entityId i := b]> m !! path ≠ m !! path →
             good path).
  { intros m b path Hne.
    destruct (decide (storagePath kind universityId entityId i = path)) as [<-|];
      [done|]. by rewrite lookup_insert_ne in Hne. }
  destruct (axios_get _ _ _); cbn.
  2:{ repeat split; [eexists; split; [done|] | exists []; by rewrite app_nil_r | done].
      apply Hone. intros ? H. by apply elem_of_nil in H. }
  destruct (sharp_metadata _ _) as [md|]; cbn.
  2:{ repeat split; [eexists; split; [done|] | exists []; by rewrite app_nil_r | done].
      apply Hone. intros ? H. by apply elem_of_nil in H. }
  destruct (newDimensions md) as [nw nh].
  destruct (sharp_resize_webp _ _ _ _ _); cbn.
  2:{ repeat split; [eexists; split; [done|] | exists []; by rewrite app_nil_r | done].
      apply Hone. intros ? H. by apply elem_of_nil in H. }
  assert (Hup : ∀ tail,
             (∀ p, CallUpload p ∈ tail → good p) →
             ∀ path,
               CallUpload path
               ∈ CallDownload url :: CallUpload (storagePath kind universityId entityId i)
                   :: tail → good path).
  { intros tail Ht path H. apply elem_of_cons in H as [?|H]; [done|].
    apply elem_of_cons in H as [[= ->]|H]; [done | auto]. }
  destruct (upload_error _ _ _ _); cbn.
  { repeat split; [eexists; split; [by rewrite <- app_assoc|]
                  | exists []; by rewrite app_nil_r | done].
    apply Hup. intros ? H. by apply elem_of_nil in H. }
  destruct (photo_create _ _ _) as [id|]; cbn.
  - repeat split; [eexists; split; [by rewrite <- !app_assoc|] | | apply Hput].
    + apply Hup. intros ? H. apply list_elem_of_singleton in H. done.
    + eexists. split; [done|]. intros row ->%list_elem_of_singleton.
      by destruct kind.
  - repeat split; [eexists; split; [by rewrite <- !app_assoc|]
                  | exists []; by rewrite app_nil_r | apply Hput].
    apply Hup. intros ? H. apply list_elem_of_singleton in H. done.
Qed.

End Layout.

Section LayoutOfRun.

Context (E : Env) (studyRooms : list StudyRoomData) (rooms : list RoomData)
  (universityId : string) (studySpotMap lectureHallMap : gmap string string).

Local Abbreviation good :=
  (photo_path_of studyRooms rooms universityId studySpotMap lectureHallMap).

Lemma processStudyRoomPhotos_paths_within room s0 s :
  room ∈ studyRooms →
  paths_within good s0 s →
  paths_within good s0
    (exec (processStudyRoomPhotos E universityId studySpotMap room) s).
Proof.
  intros Hroom Hs. unfold processStudyRoomPhotos.
  destruct (sr_imageURL room) as [[|url urls]|] eqn:Hurls; [done| |done].
  destruct (as_truthy _) as [studySpotId|] eqn:Hid; [|done].
  apply for_index_invariant; [intros; apply processImage_total | | done].
  intros k x s' Hk Hs'. eapply paths_within_trans; [exact Hs'|].
  apply processImage_paths_within. left.
  exists room, (url :: urls), studySpotId, k.
  split_and!; [done | done | done | by eapply lookup_lt_Some | done].
Qed.

Lemma processRoomPhotos_paths_within room s0 s :
  room ∈ rooms →
  paths_within good s0 s →
  paths_within good s0 (exec (processRoomPhotos E universityId lectureHallMap room) s).
Proof.
  intros Hroom Hs. unfold processRoomPhotos.
  destruct (rd_photos room) as [|url urls] eqn:Hurls; [done|].
  destruct (as_truthy _) as [lectureHallId|] eqn:Hid; [|done].
  apply for_index_invariant; [intros; apply processImage_total | | done].
  intros k x s' Hk Hs'. eapply paths_within_trans; [exact Hs'|].
  apply processImage_paths_within. right.
  exists room, lectureHallId, k.
  split_and!; [done | done | | done].
  rewrite Hurls. by eapply lookup_lt_Some.
Qed.

Lemma processPhotos_exec s :
  exec (processPhotos_from E studyRooms rooms universityId studySpotMap lectureHallMap) s =
  exec (for_of rooms (processRoomPhotos E universityId lectureHallMap))
       (exec (for_of studyRooms (processStudyRoomPhotos E universityId studySpotMap)) s).
Proof.
  unfold processPhotos_from, mbind, M_bind, exec.
  pose proof (for_of_total _ (processStudyRoomPhotos_total E universityId studySpotMap)
                studyRooms s) as H.
  unfold eval in H.
  by destruct (for_of studyRooms _ s) as [[[]|] s1]; simplify_eq/=.
Qed.

Lemma processPhotos_paths_within s :
  paths_within good s
    (exec (processPhotos_from E studyRooms rooms universityId studySpotMap lectureHallMap) s).
Proof.
  rewrite processPhotos_exec.
  apply for_of_invariant; [apply processRoomPhotos_total | |].
  - intros room s' Hroom Hs'. by apply processRoomPhotos_paths_within.
  - apply for_of_invariant; [apply processStudyRoomPhotos_total | |].
    + intros room s' Hroom Hs'. by apply processStudyRoomPhotos_paths_within.
    + apply paths_within_refl.
Qed.

End LayoutOfRun.

(** C6, as the specification words it, fails: the one image of this record
    is stored under [universities/u0/photos/study-spots/s0/0.webp], and under
    no path of the form [organizations/u0/photos/spots/s0/0.<ext>]. *)
Lemma storage_path_is_not_the_spec_layout :
  let room := sampleStudyRoom "1" "Arts" (Some ["http://img/a.jpg"]) in
  let s' := exec (processStudyRoomPhotos okEnv "u0" {[ "1" := "s0" ]} room) initialState in
  (ph_storagePath ∘ snd) <$> db_photos (world s') =
    ["universities/u0/photos/study-spots/s0/0.webp"] ∧
  storage_objects (world s') = {[ "universities/u0/photos/study-spots/s0/0.webp" := [] ]} ∧
  ∀ ext,
    specStoragePath StudySpotKind "u0" "s0" 0 ext
      ≠ "universities/u0/photos/study-spots/s0/0.webp" ∧
    storage_objects (world s') !! specStoragePath StudySpotKind "u0" "s0" 0 ext = None.
Proof.
  intros room s'.
  assert (Hobj : storage_objects (world s')
                 = {[ "universities/u0/photos/study-spots/s0/0.webp" := [] ]})
    by (vm_compute; reflexivity).
  split; [vm_compute; reflexivity | split; [exact Hobj|]].
  intros ext.
  assert (Hne : specStoragePath StudySpotKind "u0" "s0" 0 ext
                ≠ "universities/u0/photos/study-spots/s0/0.webp")
    by (unfold specStoragePath; discriminate).
  split; [exact Hne|]. rewrite Hobj. by apply lookup_singleton_ne.
Qed.

(** *** The images of a run, each at its own position *)

Lemma for_of_ext {A} (body body' : A → M unit) l :
  (∀ x, body x = body' x) → for_of l body = for_of l body'.
Proof. intros Hbody. induction l as [|x l IH]; [done|]. simpl. by rewrite Hbody, IH. Qed.

Lemma for_of_join {A B} (g : A → list B) (turn : B → M unit) l s :
  for_of (mjoin (g <$> l)) turn s = for_of l (fun x => for_of (g x) turn) s.
Proof.
  revert s. induction l as [|x l IH]; intros s; [done|].
  rewrite fmap_cons. simpl. rewrite for_of_app, bind_run.
  destruct (for_of (g x) turn s) as [[[]|e] s1]; [apply IH | done].
Qed.

Lemma for_index_jobs E universityId kind entityId name i urls :
  for_index i urls (processImage E kind universityId entityId name)
  = for_of (jobsFrom kind entityId name i urls) (processJob E universityId).
Proof.
  revert i. induction urls as [|url urls IH]; intros i; [done|].
  simpl. by rewrite IH.
Qed.

Lemma processStudyRoomPhotos_jobs E universityId studySpotMap room :
  processStudyRoomPhotos E universityId studySpotMap room
  = for_of (studyRoomJobs studySpotMap room) (processJob E universityId).
Proof.
  unfold processStudyRoomPhotos, studyRoomJobs.
  destruct (sr_imageURL room) as [[|url urls]|]; [by destruct (as_truthy _) | |done].
  destruct (as_truthy _); [apply for_index_jobs | done].
Qed.

Lemma processRoomPhotos_jobs E universityId lectureHallMap room :
  processRoomPhotos E universityId lectureHallMap room
  = for_of (roomJobs lectureHallMap room) (processJob E universityId).
Proof.
  unfold processRoomPhotos, roomJobs.
  destruct (rd_photos room) as [|url urls]; [by destruct (as_truthy _)|].
  destruct (as_truthy _); [apply for_index_jobs | done].
Qed.

Lemma processPhotos_from_jobs E studyRooms rooms universityId studySpotMap
    lectureHallMap s :
  processPhotos_from E studyRooms rooms universityId studySpotMap lectureHallMap s
  = for_of (imageJobs studyRooms rooms studySpotMap lectureHallMap)
      (processJob E universityId) s.
Proof.
  unfold processPhotos_from, imageJobs.
  rewrite bind_run, for_of_app, for_of_join.
  rewrite (for_of_ext _ _ studyRooms
             (processStudyRoomPhotos_jobs E universityId studySpotMap)).
  destruct (for_of studyRooms _ s) as [[[]|e] s1]; [|done].
  rewrite for_of_join.
  by rewrite (for_of_ext _ _ rooms (processRoomPhotos_jobs E universityId lectureHallMap)).
Qed.

Lemma elem_of_jobsFrom kind entityId name i urls job :
  job ∈ jobsFrom kind entityId name i urls ↔
  ∃ k, urls !! k = Some (job_url job) ∧ job_index job = i + k ∧
       job_kind job = kind ∧ job_entityId job = entityId ∧ job_name job = name.
Proof.
  revert i. induction urls as [|url urls IH]; intros i; simpl.
  { split; [by intros ?%elem_of_nil | by intros (k & ? & _)]. }
  rewrite elem_of_cons, IH. split.
  - intros [->|(k & Hk & Hi & Hrest)].
    + exists 0. simpl. rewrite Nat.add_0_r. by split_and!.
    + exists (S k). split; [done|]. split; [lia | done].
  - intros (k & Hk & Hi & Hkind & Hid & Hname). destruct k as [|k].
    + left. simpl in Hk. injection Hk as Hk. rewrite Nat.add_0_r in Hi.
      destruct job. simpl in *. by subst.
    + right. exists k. split; [done|]. split; [lia | done].
Qed.

Lemma elem_of_imageJobs studyRooms rooms studySpotMap lectureHallMap job :
  job ∈ imageJobs studyRooms rooms studySpotMap lectureHallMap ↔
  (∃ room urls,
     room ∈ studyRooms ∧ sr_imageURL room = Some urls ∧
     as_truthy (studySpotMap !! sr_id room) = Some (job_entityId job) ∧
     urls !! job_index job = Some (job_url job) ∧
     job_kind job = StudySpotKind ∧ job_name job = sr_name room) ∨
  (∃ room,
     room ∈ rooms ∧
     as_truthy (lectureHallMap !! rd_id room) = Some (job_entityId job) ∧
     rd_photos room !! job_index job = Some (job_url job) ∧
     job_kind job = LectureHallKind ∧ job_name job = rd_room room).
Proof.
  unfold imageJobs. rewrite elem_of_app, !list_elem_of_join. split.
  - intros [(jobs & Hjob & Hjobs)|(jobs & Hjob & Hjobs)];
      apply list_elem_of_fmap in Hjobs as (room & -> & Hroom).
    + left. unfold studyRoomJobs in Hjob.
      destruct (sr_imageURL room) as [urls|] eqn:Hurls; [|by apply elem_of_nil in Hjob].
      destruct (as_truthy _) as [id|] eqn:Hid; [|by apply elem_of_nil in Hjob].
      apply elem_of_jobsFrom in Hjob as (k & Hk & Hi & Hkind & <- & Hname).
      simpl in Hi. subst k. exists room, urls. by split_and!.
    + right. unfold roomJobs in Hjob.
      destruct (as_truthy _) as [id|] eqn:Hid; [|by apply elem_of_nil in Hjob].
      apply elem_of_jobsFrom in Hjob as (k & Hk & Hi & Hkind & <- & Hname).
      simpl in Hi. subst k. exists room. by split_and!.
  - intros [(room & urls & Hroom & Hurls & Hid & Hk & Hkind & Hname)
           |(room & Hroom & Hid & Hk & Hkind & Hname)].
    + left. exists (studyRoomJobs studySpotMap room).
      split; [|by apply list_elem_of_fmap_2].
      unfold studyRoomJobs. rewrite Hurls, Hid. apply elem_of_jobsFrom.
      exists (job_index job). by split_and!.
    + right. exists (roomJobs lectureHallMap room).
      split; [|by apply list_elem_of_fmap_2].
      unfold roomJobs. rewrite Hid. apply elem_of_jobsFrom.
      exists (job_index job). by split_and!.
Qed.

(** What the turn for one image touches: it requests the download of the
    image's URL, then at most one upload, to the path of the image's own
    position, then at most one Photo row, which holds that path. *)
Lemma processImage_turn E universityId kind entityId name i url s :
  let path := storagePath kind universityId entityId i in
  let s1 := exec (processImage E kind universityId entityId name i url) s in
  (∃ later,
     calls (world s1) = calls (world s) ++ CallDownload url :: later ∧
     (later = [] ∨ later = [CallUpload path]
      ∨ later = [CallUpload path; CallCreate TPhoto])) ∧
  (∀ other, other ≠ path →
     storage_objects (world s1) !! other = storage_objects (world s) !! other) ∧
  (∃ added,
     db_photos (world s1) = db_photos (world s) ++ added ∧
     ∀ row, row ∈ added → row.2 = photoData kind path (getPublicUrl E path) entityId).
Proof.
  assert (Hnone : ∀ photos : list (Row PhotoData),
            ∃ added, photos = photos ++ added ∧
              ∀ row, row ∈ added →
                row.2 = photoData kind (storagePath kind universityId entityId i)
                          (getPublicUrl E (storagePath kind universityId entityId i))
                          entityId).
  { intros photos. exists []. split; [by rewrite app_nil_r | by intros ? ?%elem_of_nil]. }
  unfold processImage, downloadImage, optimizeImage, uploadToSupabase,
    storage_upload, prisma_photo_create, prisma_create.
  run.
  destruct (axios_get _ _ _); cbn;
    [|split_and!; [exists []; split; [done | by left] | done | apply Hnone]].
  destruct (sharp_metadata _ _) as [md|]; cbn;
    [|split_and!; [exists []; split; [done | by left] | done | apply Hnone]].
  destruct (newDimensions md) as [nw nh].
  destruct (sharp_resize_webp _ _ _ _ _); cbn;
    [|split_and!; [exists []; split; [done | by left] | done | apply Hnone]].
  destruct (upload_error _ _ _ _); cbn.
  { split_and!; [|done | apply Hnone].
    eexists. split; [by rewrite <- app_assoc | right; by left]. }
  destruct (photo_create _ _ _) as [id|]; cbn.
  - split_and!.
    + eexists. split; [by rewrite <- !app_assoc | right; by right].
    + intros other Hne. by apply lookup_insert_ne.
    + eexists. split; [done|]. by intros row ->%list_elem_of_singleton.
  - split_and!.
    + eexists. split; [by rewrite <- !app_assoc | right; by right].
    + intros other Hne. by apply lookup_insert_ne.
    + apply Hnone.
Qed.

(** C6 (amended): every image is stored at the path
    [universities/{universityId}/photos/study-spots/{studySpotId}/{index}.webp]
    for a study room, respectively
    [universities/{universityId}/photos/lecture-halls/{lectureHallId}/{index}.webp]
    for a room.  When the data files hold [studyRooms] and [rooms], the photo
    step is exactly the sequence of the turns for the images of the records
    that have an entity, in order; the image of a turn is the one at the
    position [index] of the image list of its record, and the entity id is
    the one the identifier table gives for that record.  The turn for an
    image requests the download of that image's URL, then at most one upload,
    to the path of this entity and this position, and changes no object but
    the one at that path; the Photo it records, if any, holds that path.  So
    every upload requested, every object written and every Photo recorded in
    the step uses such a path. *)
Theorem stored_paths_follow_code_layout (E : Env) (F : DataFiles)
    (studyRooms : list StudyRoomData) (rooms : list RoomData) (universityId : string)
    (studySpotMap lectureHallMap : gmap string string) (s : State) :
  study_rooms_json F = Ok studyRooms →
  rooms_json F = Ok rooms →
  let layout kind entityId index :=
    "universities/" +:+ universityId +:+ "/photos/"
      +:+ match kind with
          | StudySpotKind => "study-spots"
          | LectureHallKind => "lecture-halls"
          end
      +:+ "/" +:+ entityId +:+ "/" +:+ pretty index +:+ ".webp" in
  let jobs := imageJobs studyRooms rooms studySpotMap lectureHallMap in
  let run := processPhotos E F universityId studySpotMap lectureHallMap in
  run s = for_of jobs (processJob E universityId) s ∧
  (∀ job,
     job ∈ jobs ↔
     (∃ room urls,
        room ∈ studyRooms ∧ sr_imageURL room = Some urls ∧
        as_truthy (studySpotMap !! sr_id room) = Some (job_entityId job) ∧
        urls !! job_index job = Some (job_url job) ∧
        job_kind job = StudySpotKind ∧ job_name job = sr_name room) ∨
     (∃ room,
        room ∈ rooms ∧
        as_truthy (lectureHallMap !! rd_id room) = Some (job_entityId job) ∧
        rd_photos room !! job_index job = Some (job_url job) ∧
        job_kind job = LectureHallKind ∧ job_name job = rd_room room)) ∧
  (∀ job s0,
     let path := layout (job_kind job) (job_entityId job) (job_index job) in
     let s1 := exec (processJob E universityId job) s0 in
     (∃ later,
        calls (world s1) = calls (world s0) ++ CallDownload (job_url job) :: later ∧
        (later = [] ∨ later = [CallUpload path]
         ∨ later = [CallUpload path; CallCreate TPhoto])) ∧
     (∀ other, other ≠ path →
        storage_objects (world s1) !! other = storage_objects (world s0) !! other) ∧
     (∃ added,
        db_photos (world s1) = db_photos (world s0) ++ added ∧
        ∀ row, row ∈ added →
          row.2 = photoData (job_kind job) path (getPublicUrl E path)
                    (job_entityId job))) ∧
  paths_within
    (photo_path_of studyRooms rooms universityId studySpotMap lectureHallMap)
    s (exec run s).
Proof.
  intros Hstudy Hrooms layout jobs run. subst run.
  rewrite (processPhotos_read E F studyRooms rooms universityId studySpotMap
             lectureHallMap Hstudy Hrooms).
  split; [apply processPhotos_from_jobs|].
  split; [intros job; apply elem_of_imageJobs|].
  split; [|apply processPhotos_paths_within].
  intros job s0.
  assert (Hlayout : layout (job_kind job) (job_entityId job) (job_index job)
                    = storagePath (job_kind job) universityId (job_entityId job)
                        (job_index job))
    by (unfold layout, storagePath; by destruct (job_kind job)).
  cbv zeta. rewrite Hlayout. apply processImage_turn.
Qed.

(** The amended statement of C6 at a study room with two images: they are
    worked on at the positions 0 and 1 and stored under the paths of these
    positions. *)
Lemma stored_paths_witness :
  let room := sampleStudyRoom "1" "Arts" (Some ["http://img/a.jpg"; "http://img/b.jpg"]) in
  let F := dataFiles [room] [] in
  let studySpotMap : gmap string string := {[ "1" := "s0" ]} in
  let run := processPhotos okEnv F "u0" studySpotMap ∅ in
  imageJobs [room] [] studySpotMap ∅ =
    [ {| job_kind := StudySpotKind; job_entityId := "s0"; job_name := "Room 1";
         job_index := 0; job_url := "http://img/a.jpg" |};
      {| job_kind := StudySpotKind; job_entityId := "s0"; job_name := "Room 1";
         job_index := 1; job_url := "http://img/b.jpg" |} ] ∧
  run initialState
  = for_of (imageJobs [room] [] studySpotMap ∅) (processJob okEnv "u0") initialState ∧
  (ph_storagePath ∘ snd) <$> db_photos (world (exec run initialState)) =
    ["universities/u0/photos/study-spots/s0/0.webp";
     "universities/u0/photos/study-spots/s0/1.webp"].
Proof.
  intros room F studySpotMap run.
  split; [vm_compute; reflexivity|].
  destruct (stored_paths_follow_code_layout okEnv F [room] [] "u0" studySpotMap ∅
              initialState eq_refl eq_refl) as (Hrun & _).
  split; [exact Hrun | vm_compute; reflexivity].
Defined.

(** ** The order of the steps *)













Section StepOrder.

Context (E : Env).

















End StepOrder.





(** ** Image dimensions *)

Lemma scales_exactly_from_spec count side x :
  scales_exactly_from count side = true →
  (side ≤ x < side + Z.of_nat count)%Z →
  scales_exactly x = true.
Proof.
  revert side. induction count as [|count IH]; intros side Hall Hx; [lia|].
  simpl in Hall. apply andb_true_iff in Hall as [Hside Hrest].
  destruct (decide (x = side)) as [->|]; [done|].
  apply (IH (side + 1)%Z); [done | lia].
Qed.

Lemma scales_exactly_all :
  scales_exactly_from (Z.to_nat maxDimension) 1 = true.
Proof. vm_compute. reflexivity. Qed.

Lemma Math_round_three_tenths side :
  (1 ≤ side ≤ maxDimension)%Z →
  Number.Math_round (Number.mul (Number.of_Z side) Number.three_tenths)
  = Some ((3 * side + 5) / 10)%Z.
Proof.
  intros Hside.
  assert (H : scales_exactly side = true).
  { apply (scales_exactly_from_spec _ _ _ scales_exactly_all).
    rewrite Z2Nat.id by (unfold maxDimension; lia). lia. }
  unfold scales_exactly in H.
  destruct (Number.Math_round _) as [r|]; [|done].
  apply Z.eqb_eq in H. by subst.
Qed.

(** C9: for an image whose metadata gives a width and a height (each from 1
    to 65535 pixels), the transcode step asks for a resize to the width and the
    height multiplied by 0.3 in double precision and rounded by [Math.round]:
    exactly the integers nearest to three tenths of the original sides (the
    upper one on a tie), and re-encodes at the fixed quality 85; nothing else
    of the state changes. *)
Theorem optimizeImage_scales_to_thirty_percent (E : Env) (buffer : Buffer)
    (width height : Z) :
  sharp_metadata E buffer = Ok (Some width, Some height) →
  (1 ≤ width ≤ maxDimension)%Z →
  (1 ≤ height ≤ maxDimension)%Z →
  let newWidth := ((3 * width + 5) / 10)%Z in
  let newHeight := ((3 * height + 5) / 10)%Z in
  newDimensions (Some width, Some height) = (Some newWidth, Some newHeight) ∧
  (Z.abs (10 * newWidth - 3 * width) ≤ 5)%Z ∧
  (Z.abs (10 * newHeight - 3 * height) ≤ 5)%Z ∧
  ∀ s,
    optimizeImage E buffer s =
    (match sharp_resize_webp E buffer (Some newWidth) (Some newHeight) 85 with
     | Ok out => Ok out
     | Throw e => Throw (new_Error ("Failed to optimize image: " +:+ e))
     end, s).
Proof.
  intros Hmeta Hw Hh newWidth newHeight.
  assert (Hdim : newDimensions (Some width, Some height) = (Some newWidth, Some newHeight)).
  { unfold newDimensions. cbn [fst snd].
    assert (Hor : ∀ z, (1 ≤ z)%Z → Number.or_default (Some z) 1000 = z)
      by (intros [] ?; simpl; lia || done).
    rewrite !Hor by lia. by rewrite !Math_round_three_tenths. }
  split; [exact Hdim|].
  assert (Hnear : ∀ side, (Z.abs (10 * ((3 * side + 5) / 10) - 3 * side) ≤ 5)%Z).
  { intros side. pose proof (Z.div_mod (3 * side + 5) 10 ltac:(lia)).
    pose proof (Z.mod_pos_bound (3 * side + 5) 10 ltac:(lia)). lia. }
  split; [apply Hnear|]. split; [apply Hnear|].
  intros s. unfold optimizeImage. run. rewrite Hmeta. cbn. rewrite Hdim.
  by destruct (sharp_resize_webp _ _ _ _ _).
Qed.

(** The statement of C9 at an image of 100 by 50 pixels: resized to 30 by 15. *)
Lemma optimizeImage_scales_witness :
  sharp_metadata okEnv [] = Ok (Some 100%Z, Some 50%Z) ∧
  (1 ≤ 100 ≤ maxDimension)%Z ∧ (1 ≤ 50 ≤ maxDimension)%Z ∧
  newDimensions (Some 100%Z, Some 50%Z) = (Some 30%Z, Some 15%Z).
Proof.
  assert (Hmeta : sharp_metadata okEnv [] = Ok (Some 100%Z, Some 50%Z)) by reflexivity.
  assert (Hw : (1 ≤ 100 ≤ maxDimension)%Z) by (unfold maxDimension; lia).
  assert (Hh : (1 ≤ 50 ≤ maxDimension)%Z) by (unfold maxDimension; lia).
  split; [exact Hmeta | split; [exact Hw | split; [exact Hh|]]].
  exact (proj1 (optimizeImage_scales_to_thirty_percent okEnv [] 100 50 Hmeta Hw Hh)).
Defined.

(** ** Export of an empty collection *)

(** Numbers are printed by the engine; what is not finite gives [null]. *)
Example serialize_numbers :
  Exporter.JSON_stringify integerToString (Exporter.JNum (Number.of_Z 12)) = "12" ∧
  Exporter.JSON_stringify integerToString (Exporter.JNum (Number.of_Z (-7))) = "-7" ∧
  Exporter.JSON_stringify integerToString (Exporter.JNum S754_nan) = "null" ∧
  Exporter.JSON_stringify integerToString (Exporter.JNum (S754_infinity false)) = "null".
Proof. by vm_compute. Qed.

Lemma JSON_stringify_empty_array number :
  Exporter.JSON_stringify number (Exporter.JArr []) = "[]".
Proof. reflexivity. Qed.

(** C8: when the collection has no document and the disk accepts the
    writes, [exportCollectionToJson] returns normally and the file
    [<outputDir>/<collectionName>.json] exists afterwards with the content
    ["[]"]; no other file is touched. *)
Theorem export_of_empty_collection_writes_empty_array (E : Exporter.Env)
    (collectionName outputDir : string) (fs : Exporter.FileSystem) :
  Exporter.collection_get E collectionName = Ok [] →
  (∀ fs' dir, Exporter.mkdirSync_error E fs' dir = None) →
  (∀ fs' path content, Exporter.writeFileSync_error E fs' path content = None) →
  let filePath := Exporter.path_join E outputDir (collectionName +:+ ".json") in
  let r := Exporter.exportCollectionToJson E collectionName outputDir fs in
  r.1 = Ok () ∧
  Exporter.files r.2 !! filePath = Some "[]" ∧
  ∀ other, other ≠ filePath → Exporter.files r.2 !! other = Exporter.files fs !! other.
Proof.
  intros Hget Hmkdir Hwrite filePath r. subst r filePath.
  unfold Exporter.exportCollectionToJson, Exporter.getCollectionData. rewrite Hget.
  cbn [map]. unfold Exporter.saveToJson, Exporter.mkdirSync, Exporter.writeFileSync.
  rewrite JSON_stringify_empty_array.
  case_bool_decide; rewrite ?Hmkdir, Hwrite; cbn.
  - split; [done|]. split; [apply lookup_insert_eq|].
    intros other Hne. by apply lookup_insert_ne.
  - split; [done|]. split; [apply lookup_insert_eq|].
    intros other Hne. by apply lookup_insert_ne.
Qed.

(** The statement of C8 at the collection [rooms] of a store without
    documents, exported to an empty disk. *)
Lemma export_of_empty_collection_witness :
  Exporter.collection_get emptyStoreEnv "rooms" = Ok [] ∧
  (Exporter.exportCollectionToJson emptyStoreEnv "rooms" "data" emptyDisk).1 = Ok () ∧
  Exporter.files
    (Exporter.exportCollectionToJson emptyStoreEnv "rooms" "data" emptyDisk).2
    !! "data/rooms.json" = Some "[]".
Proof.
  split; [reflexivity|].
  destruct (export_of_empty_collection_writes_empty_array emptyStoreEnv "rooms" "data"
              emptyDisk eq_refl (fun _ _ => eq_refl) (fun _ _ _ => eq_refl))
    as (Hok & Hfile & _).
  split; [exact Hok | exact Hfile].
Defined.

(** ** Building creation *)

Lemma set_add_NoDup v names : NoDup names → NoDup (set_add v names).
Proof.
  intros Hnd. unfold set_add. case_decide; [done|].
  apply NoDup_app. split; [done|]. split; [|apply NoDup_singleton].
  intros x Hx ->%list_elem_of_singleton. done.
Qed.

Lemma elem_of_set_add x v names : x ∈ set_add v names ↔ x = v ∨ x ∈ names.
Proof.
  unfold set_add. case_decide.
  - split; [by right | by intros [->|]].
  - rewrite elem_of_app, list_elem_of_singleton. tauto.
Qed.

Section CollectNames.

Context {A : Type} (building : A → string).

Lemma collect_NoDup records names :
  NoDup names → NoDup (collectNames building names records).
Proof.
  revert names. induction records as [|room records IH]; intros names Hnd; [done|].
  simpl. apply IH. destruct (truthy_string _); [by apply set_add_NoDup | done].
Qed.

Lemma truthy_string_nonempty str : truthy_string str = true ↔ str ≠ EmptyString.
Proof. by destruct str. Qed.

Lemma elem_of_collect records names name :
  name ∈ collectNames building names records ↔
  name ∈ names ∨
  ∃ room, room ∈ records ∧ building room ≠ EmptyString ∧
          normalizeBuildingName (building room) = name.
Proof.
  revert names. induction records as [|room records IH]; intros names.
  - simpl. split; [by left|]. intros [?|(room & Hin & _)]; [done|].
    by apply elem_of_nil in Hin.
  - simpl. rewrite IH. split.
    + intros [Hin|(room' & Hin & Hne & Hname)].
      * destruct (truthy_string (building room)) eqn:Ht; [|by left].
        apply elem_of_set_add in Hin as [->|?]; [|by left].
        right. exists room. split; [by apply elem_of_cons; left|].
        split; [by apply truthy_string_nonempty | done].
      * right. exists room'. split; [by apply elem_of_cons; right | done].
    + intros [Hin|(room' & Hin & Hne & Hname)].
      * left. destruct (truthy_string (building room)); [|done].
        apply elem_of_set_add. by right.
      * apply elem_of_cons in Hin as [->|Hin].
        -- left. apply truthy_string_nonempty in Hne. rewrite Hne.
           apply elem_of_set_add. by left.
        -- right. by exists room'.
Qed.

End CollectNames.

Lemma buildingNames_NoDup studyRooms rooms : NoDup (buildingNames studyRooms rooms).
Proof.
  change (NoDup (collectNames rd_building (collectNames sr_building [] studyRooms) rooms)).
  apply collect_NoDup, collect_NoDup, NoDup_nil_2.
Qed.

Lemma elem_of_buildingNames studyRooms rooms name :
  name ∈ buildingNames studyRooms rooms ↔
  (∃ room, room ∈ studyRooms ∧ sr_building room ≠ EmptyString ∧
           normalizeBuildingName (sr_building room) = name) ∨
  (∃ room, room ∈ rooms ∧ rd_building room ≠ EmptyString ∧
           normalizeBuildingName (rd_building room) = name).
Proof.
  change (buildingNames studyRooms rooms)
    with (collectNames rd_building (collectNames sr_building [] studyRooms) rooms).
  rewrite (elem_of_collect rd_building), (elem_of_collect sr_building).
  rewrite elem_of_nil. tauto.
Qed.

(** The rows and the errors the creation loop adds: without an error, one row
    per name, in order. *)
Lemma createBuildings_loop E universityId names buildingMap s :
  let s' := exec (for_fold names buildingMap (createBuilding E universityId)) s in
  ∃ created failed,
    db_buildings (world s') = db_buildings (world s) ++ created ∧
    st_errors (stats s') = st_errors (stats s) ++ failed ∧
    (failed = [] → (bd_name ∘ snd) <$> created = names).
Proof.
  revert buildingMap s. induction names as [|name names IH]; intros buildingMap s.
  { exists [], []. by rewrite !app_nil_r. }
  cbv zeta. unfold exec. simpl. rewrite bind_run.
  assert (Hstep : ∃ acc s1 created failed,
             createBuilding E universityId name buildingMap s = (Ok acc, s1) ∧
             db_buildings (world s1) = db_buildings (world s) ++ created ∧
             st_errors (stats s1) = st_errors (stats s) ++ failed ∧
             (failed = [] → (bd_name ∘ snd) <$> created = [name])).
  { unfold createBuilding, prisma_building_create, prisma_create. run.
    destruct (building_create _ _ _) as [id|e]; cbn.
    - do 2 eexists. eexists [_], []. rewrite app_nil_r. by split_and!.
    - do 2 eexists. eexists [], [_]. rewrite app_nil_r. by split_and!. }
  destruct Hstep as (acc & s1 & created1 & failed1 & -> & Hdb1 & Herr1 & Hnames1).
  destruct (IH acc s1) as (created2 & failed2 & Hdb2 & Herr2 & Hnames2).
  unfold exec in Hdb2, Herr2.
  exists (created1 ++ created2), (failed1 ++ failed2).
  rewrite Hdb2, Herr2, Hdb1, Herr1, <- !app_assoc. split_and!; [done | done |].
  intros [-> ->]%app_eq_nil. rewrite fmap_app, Hnames1, Hnames2; done.
Qed.

(** C2, as the specification words it, fails: a record whose building field
    is the empty string is skipped by the guard [if (room.building)], so its
    normalized name (the empty string) is among the normalized names of the
    dataset while no Building is created, and no error is recorded. *)
Lemma createBuildings_skips_blank_building :
  let blank := sampleStudyRoom "1" EmptyString None in
  let s' := exec (createBuildings okEnv (dataFiles [blank] []) "u0") initialState in
  normalizeBuildingName ∘ sr_building <$> [blank] = [JString EmptyString] ∧
  db_buildings (world s') = [] ∧
  st_errors (stats s') = [].
Proof. by vm_compute. Qed.

(** C2 (amended): when the two data files hold the datasets [studyRooms] and
    [rooms] and the building-creation step records no error, the Buildings it
    creates carry, without duplicates, exactly the distinct normalized names
    of the records of both datasets whose building field is not empty. *)
Theorem created_buildings_are_the_distinct_names (E : Env) (F : DataFiles)
    (studyRooms : list StudyRoomData) (rooms : list RoomData) (universityId : string)
    (s : State) :
  study_rooms_json F = Ok studyRooms →
  rooms_json F = Ok rooms →
  let s' := exec (createBuildings E F universityId) s in
  st_errors (stats s') = st_errors (stats s) →
  ∃ created,
    db_buildings (world s') = db_buildings (world s) ++ created ∧
    NoDup ((bd_name ∘ snd) <$> created) ∧
    ∀ name,
      name ∈ (bd_name ∘ snd) <$> created ↔
      (∃ room, room ∈ studyRooms ∧ sr_building room ≠ EmptyString ∧
               normalizeBuildingName (sr_building room) = name) ∨
      (∃ room, room ∈ rooms ∧ rd_building room ≠ EmptyString ∧
               normalizeBuildingName (rd_building room) = name).
Proof.
  intros Hstudy Hrooms.
  rewrite (createBuildings_read E F studyRooms rooms universityId Hstudy Hrooms).
  intros s' Herrors.
  destruct (createBuildings_loop E universityId (buildingNames studyRooms rooms) ∅ s)
    as (created & failed & Hdb & Herr & Hnames).
  fold (createBuildings_from E studyRooms rooms universityId) in Hdb, Herr. fold s' in Hdb, Herr.
  assert (failed = []) as Hnone.
  { rewrite Herrors in Herr. apply (f_equal length) in Herr.
    rewrite length_app in Herr. destruct failed; [done | simpl in Herr; lia]. }
  exists created. rewrite (Hnames Hnone). split; [done|].
  split; [apply buildingNames_NoDup|]. intros name. apply elem_of_buildingNames.
Qed.

(** The amended statement of C2 at five records: two spellings of one
    building, a blank building, and two further buildings. *)
Lemma created_buildings_witness :
  let studyRooms :=
    [sampleStudyRoom "1" "Peters" None; sampleStudyRoom "2" "Peters Building" None;
     sampleStudyRoom "3" EmptyString None] in
  let rooms := [sampleRoom "4" "Arts" []; sampleRoom "5" "Atlantis" []] in
  let s' := exec (createBuildings okEnv (dataFiles studyRooms rooms) "u0") initialState in
  st_errors (stats s') = st_errors (stats initialState) ∧
  (bd_name ∘ snd) <$> db_buildings (world s') =
    [JString "Peters Building"; JString "Arts Building"; JString "Atlantis"] ∧
  ∃ created,
    db_buildings (world s') = db_buildings (world initialState) ++ created ∧
    NoDup ((bd_name ∘ snd) <$> created).
Proof.
  intros studyRooms rooms s'.
  assert (Herrors : st_errors (stats s') = st_errors (stats initialState))
    by (vm_compute; reflexivity).
  split; [exact Herrors|]. split; [vm_compute; reflexivity|].
  destruct (created_buildings_are_the_distinct_names okEnv (dataFiles studyRooms rooms)
              studyRooms rooms "u0" initialState eq_refl eq_refl Herrors)
    as (created & Hdb & Hnd & _).
  exists created. split; [exact Hdb | exact Hnd].
Defined.


(** * Further properties of the code *)

(** ** Canonical building names are stable *)

Lemma buildingNameMap_values_fixed :
  map_Forall (fun _ canonical => normalizeBuildingName canonical = JString canonical)
    buildingNameMap.
Proof.
  apply map_Forall_to_list, Forall_forall.
  intros [name canonical] Hin. vm_compute in Hin. simpl.
  repeat (apply elem_of_cons in Hin as [Hin | Hin];
          [injection Hin as -> ->; by vm_compute |]).
  by apply elem_of_nil in Hin.
Qed.

(** X1: normalization is idempotent: whenever [normalizeBuildingName]
    returns a string, that string is its own normal form, so a name read back
    from a Building row normalizes to itself. *)
Theorem normalizeBuildingName_idempotent (name canonical : string) :
  normalizeBuildingName name = JString canonical →
  normalizeBuildingName canonical = JString canonical.
Proof.
  intros Hname. destruct (buildingNameMap !! name) as [v|] eqn:Hlookup.
  - rewrite (normalizeBuildingName_mapped name v Hlookup) in Hname.
    injection Hname as <-. by apply (buildingNameMap_values_fixed name v).
  - destruct (decide (name ∈ objectPrototypeKeys)) as [Hin|Hout].
    + by rewrite (normalizeBuildingName_inherited name Hin) in Hname.
    + rewrite (normalizeBuildingName_unmapped name Hlookup Hout) in Hname.
      injection Hname as <-. by apply normalizeBuildingName_unmapped.
Qed.

(** X1 at the alias [Science & Research]. *)
Lemma normalizeBuildingName_idempotent_witness :
  normalizeBuildingName "Science & Research" = JString "Science Building" ∧
  normalizeBuildingName "Science Building" = JString "Science Building".
Proof.
  assert (H : normalizeBuildingName "Science & Research" = JString "Science Building")
    by (vm_compute; reflexivity).
  split; [exact H|].
  exact (normalizeBuildingName_idempotent "Science & Research" "Science Building" H).
Defined.

(** ** The storage bucket *)

Lemma ensureStorageBucket_effect (E : Env) (s : State) :
  let r := ensureStorageBucket E s in
  (STORAGE_BUCKET ∈ storage_buckets (world s) →
   listBuckets_error E (world s) = None →
   r = (Ok (), {| world := log_call CallListBuckets (world s); stats := stats s |})) ∧
  (r.1 = Ok () → STORAGE_BUCKET ∈ storage_buckets (world r.2)) ∧
  (∀ e, r.1 = Throw e → storage_buckets (world r.2) = storage_buckets (world s)) ∧
  (∀ t, table_unchanged t (world s) (world r.2)) ∧
  storage_objects (world r.2) = storage_objects (world s) ∧
  stats r.2 = stats s.
Proof.
  unfold ensureStorageBucket, storage_listBuckets, storage_createBucket. run.
  destruct (listBuckets_error E (world s)) as [message|] eqn:Hlist; cbn.
  { split_and!; [done | done | done | by intros [] | done | done]. }
  case_bool_decide as Hin; cbn.
  { split_and!; [by destruct s | done | done | by intros [] | done | done]. }
  destruct (createBucket_error _ _ _); cbn.
  - split_and!; [done | done | done | by intros [] | done | done].
  - split_and!; [done | | done | by intros [] | done | done].
    intros _. apply elem_of_app. right. by apply list_elem_of_singleton.
Qed.


(** X2: [ensureStorageBucket] creates the bucket only when the listing does
    not show it: with the bucket present it issues the listing and nothing
    else.  Whenever it returns normally the bucket exists afterwards; when it
    throws, the set of buckets is as before.  It never touches a table, a
    stored object or the statistics. *)
Theorem ensureStorageBucket_creates_only_when_missing (E : Env) (s : State) :
  let r := ensureStorageBucket E s in
  (STORAGE_BUCKET ∈ storage_buckets (world s) →
   listBuckets_error E (world s) = None →
   r = (Ok (), {| world := log_call CallListBuckets (world s); stats := stats s |})) ∧
  (r.1 = Ok () → STORAGE_BUCKET ∈ storage_buckets (world r.2)) ∧
  (∀ e, r.1 = Throw e → storage_buckets (world r.2) = storage_buckets (world s)) ∧
  (∀ t, table_unchanged t (world s) (world r.2)) ∧
  storage_objects (world r.2) = storage_objects (world s) ∧
  stats r.2 = stats s.
Proof. apply ensureStorageBucket_effect. Qed.

(** ** Clearing the tables *)

Lemma clearExistingData_effect (E : Env) (s : State) :
  let r := clearExistingData E s in
  (∃ n,
     (∀ t, t ∈ take n tableOrder → table_count t (world r.2) = 0) ∧
     (∀ t, t ∈ drop n tableOrder → table_unchanged t (world s) (world r.2)) ∧
     (r.1 = Ok () ↔ n = 5)) ∧
  storage_objects (world r.2) = storage_objects (world s) ∧
  storage_buckets (world r.2) = storage_buckets (world s) ∧
  stats r.2 = stats s.
Proof.
  assert (Hin : ∀ (P : Table → Prop) l, Forall P l → ∀ t, t ∈ l → P t)
    by (intros P l HP t Ht; by eapply Forall_forall in HP).
  unfold clearExistingData, prisma_deleteMany. run.
  destruct (deleteMany_error E TPhoto _); cbn.
  { split; [exists 0|done].
    split_and!; [apply Hin | apply Hin | done]; by repeat constructor. }
  destruct (deleteMany_error E TStudySpot _); cbn.
  { split; [exists 1|done].
    split_and!; [apply Hin | apply Hin | done]; by repeat constructor. }
  destruct (deleteMany_error E TLectureHall _); cbn.
  { split; [exists 2|done].
    split_and!; [apply Hin | apply Hin | done]; by repeat constructor. }
  destruct (deleteMany_error E TBuilding _); cbn.
  { split; [exists 3|done].
    split_and!; [apply Hin | apply Hin | done]; by repeat constructor. }
  destruct (deleteMany_error E TUniversity _); cbn.
  { split; [exists 4|done].
    split_and!; [apply Hin | apply Hin | done]; by repeat constructor. }
  split; [exists 5|done].
  split_and!; [apply Hin | apply Hin | done]; by repeat constructor.
Qed.



(** ** Missing image dimensions *)

(** X4: a width or height that the metadata does not give, or gives as 0, is
    replaced by 1000 before scaling, so that side of the resize is 300
    whatever the other side is. *)
Theorem newDimensions_missing_side_is_300 (side other : option Z) :
  side = None ∨ side = Some 0%Z →
  (newDimensions (side, other)).1 = Some 300%Z ∧
  (newDimensions (other, side)).2 = Some 300%Z.
Proof. intros [-> | ->]; split; by vm_compute. Qed.

(** X4 at metadata without a width. *)
Lemma newDimensions_missing_side_witness :
  (newDimensions (None, Some 50%Z)).1 = Some 300%Z ∧
  (newDimensions (Some 50%Z, None)).2 = Some 300%Z.
Proof.
  exact (newDimensions_missing_side_is_300 None (Some 50%Z) (or_introl eq_refl)).
Defined.

(** ** Loops that create one row per element and fill a lookup table *)

Section CreateLoop.

Context {A K D : Type} `{Countable K}.
Context (body : A → gmap K string → M (gmap K string)).
Context (table : World → list (Row D)) (counter : Stats → nat).
Context (key : A → K) (good : A → Row D → Prop).

(** A turn creates a row, counts it and records its identifier, or records
    one error and changes nothing else. *)
Hypothesis body_step : ∀ x acc s,
  (∃ id d,
     (body x acc s).1 = Ok (<[key x := id]> acc) ∧
     table (world (body x acc s).2) = table (world s) ++ [(id, d)] ∧
     good x (id, d) ∧
     counter (stats (body x acc s).2) = S (counter (stats s)) ∧
     st_errors (stats (body x acc s).2) = st_errors (stats s)) ∨
  ((body x acc s).1 = Ok acc ∧
   table (world (body x acc s).2) = table (world s) ∧
   counter (stats (body x acc s).2) = counter (stats s) ∧
   ∃ message, st_errors (stats (body x acc s).2) = st_errors (stats s) ++ [message]).

Lemma for_fold_creates l acc s :
  ∃ m rows errors,
    (for_fold l acc body s).1 = Ok m ∧
    table (world (for_fold l acc body s).2) = table (world s) ++ rows ∧
    st_errors (stats (for_fold l acc body s).2) = st_errors (stats s) ++ errors ∧
    length rows + length errors = length l ∧
    counter (stats (for_fold l acc body s).2) = counter (stats s) + length rows ∧
    (∀ row, row ∈ rows → ∃ x, x ∈ l ∧ good x row) ∧
    (∀ k id, m !! k = Some id →
       acc !! k = Some id ∨
       ∃ x d, x ∈ l ∧ key x = k ∧ (id, d) ∈ rows ∧ good x (id, d)) ∧
    (∀ k, is_Some (acc !! k) → is_Some (m !! k)) ∧
    (errors = [] → ∀ x, x ∈ l → is_Some (m !! key x)).
Proof.
  revert acc s. induction l as [|x l IH]; intros acc s.
  { exists acc, [], []. simpl. rewrite !app_nil_r.
    split_and!; [done | done | done | done | lia | | auto | done |].
    - intros row Hrow. by apply elem_of_nil in Hrow.
    - intros _ x Hx. by apply elem_of_nil in Hx. }
  simpl. rewrite bind_run.
  destruct (body_step x acc s)
    as [(id & d & Hr & Ht & Hg & Hc & He)|(Hr & Ht & Hc & message & He)];
    destruct (body x acc s) as [r1 s1]; simpl in Hr, Ht, Hc, He; subst r1.
  - destruct (IH (<[key x := id]> acc) s1)
      as (m & rows & errors & Hm & Hrows & Herr & Hlen & Hcount & Hgood & Hmap
          & Hmono & Hall).
    exists m, ((id, d) :: rows), errors.
    split_and!.
    + done.
    + by rewrite Hrows, Ht, <- app_assoc.
    + by rewrite Herr, He.
    + simpl. lia.
    + rewrite Hcount, Hc. simpl. lia.
    + intros row [->|Hrow]%elem_of_cons.
      * exists x. split; [by apply elem_of_cons; left | done].
      * destruct (Hgood row Hrow) as (y & Hy & Hgy).
        exists y. split; [by apply elem_of_cons; right | done].
    + intros k id' Hk. destruct (Hmap k id' Hk) as [Hacc|(y & d' & Hy & Hky & Hin & Hgy)].
      * destruct (decide (key x = k)) as [<-|Hne].
        -- rewrite lookup_insert_eq in Hacc. injection Hacc as <-.
           right. exists x, d. split_and!; [by apply elem_of_cons; left | done | | done].
           by apply elem_of_cons; left.
        -- rewrite lookup_insert_ne in Hacc by done. by left.
      * right. exists y, d'.
        split_and!; [by apply elem_of_cons; right | done | | done].
        by apply elem_of_cons; right.
    + intros k Hk. apply Hmono. destruct (decide (key x = k)) as [<-|Hne].
      * rewrite lookup_insert_eq. by eexists.
      * by rewrite lookup_insert_ne.
    + intros Hnone y [->|Hy]%elem_of_cons; [|by apply Hall].
      apply Hmono. rewrite lookup_insert_eq. by eexists.
  - destruct (IH acc s1)
      as (m & rows & errors & Hm & Hrows & Herr & Hlen & Hcount & Hgood & Hmap
          & Hmono & Hall).
    exists m, rows, (message :: errors).
    split_and!.
    + done.
    + by rewrite Hrows, Ht.
    + by rewrite Herr, He, <- app_assoc.
    + simpl. lia.
    + by rewrite Hcount, Hc.
    + intros row Hrow. destruct (Hgood row Hrow) as (y & Hy & Hgy).
      exists y. split; [by apply elem_of_cons; right | done].
    + intros k id' Hk. destruct (Hmap k id' Hk) as [Hacc|(y & d' & Hy & Hky & Hin & Hgy)];
        [by left|].
      right. exists y, d'. split_and!; [by apply elem_of_cons; right | done | done | done].
    + done.
    + discriminate.
Qed.

End CreateLoop.

(** ** Building creation: the lookup table and the counts *)

Lemma normalizeBuildingName_truthy building :
  truthy_string building = true → truthy (normalizeBuildingName building) = true.
Proof.
  intros Hb. unfold normalizeBuildingName, or_else.
  destruct (get buildingNameMap building) as [v|]; [|done].
  by destruct (truthy v) eqn:Hv.
Qed.

Lemma collectNames_truthy {A} (building : A → string) records names :
  Forall (fun name => truthy name = true) names →
  Forall (fun name => truthy name = true) (collectNames building names records).
Proof.
  revert names. induction records as [|room records IH]; intros names Hn; [done|].
  simpl. apply IH. destruct (truthy_string (building room)) eqn:Hb; [|done].
  unfold set_add. case_decide; [done|].
  apply Forall_app. split; [done|]. constructor; [|done].
  by apply normalizeBuildingName_truthy.
Qed.

Lemma buildingNames_truthy studyRooms rooms :
  Forall (fun name => truthy name = true) (buildingNames studyRooms rooms).
Proof.
  change (buildingNames studyRooms rooms)
    with (collectNames rd_building (collectNames sr_building [] studyRooms) rooms).
  by apply collectNames_truthy, collectNames_truthy.
Qed.

Section CreateSteps.

Context (E : Env).

Lemma createBuilding_step universityId name acc s :
  let r := createBuilding E universityId name acc s in
  (∃ id d,
     r.1 = Ok (<[name := id]> acc) ∧
     db_buildings (world r.2) = db_buildings (world s) ++ [(id, d)] ∧
     (d = {| bd_name := name; bd_universityId := universityId |} ∧
      ∃ w, building_create E w d = Ok id) ∧
     st_buildings (stats r.2) = S (st_buildings (stats s)) ∧
     st_errors (stats r.2) = st_errors (stats s)) ∨
  (r.1 = Ok acc ∧
   db_buildings (world r.2) = db_buildings (world s) ∧
   st_buildings (stats r.2) = st_buildings (stats s) ∧
   ∃ message, st_errors (stats r.2) = st_errors (stats s) ++ [message]).
Proof.
  unfold createBuilding, prisma_building_create, prisma_create. run.
  destruct (building_create _ _ _) as [id|e] eqn:Hc; cbn.
  - left. do 2 eexists. split_and!; [done | done | done | by eexists | done | done].
  - right. split_and!; [done | done | done | by eexists].
Qed.

Lemma migrateStudySpot_step buildingMap room acc s :
  let r := migrateStudySpot E buildingMap room acc s in
  (∃ id d,
     r.1 = Ok (<[sr_id room := id]> acc) ∧
     db_studySpots (world r.2) = db_studySpots (world s) ++ [(id, d)] ∧
     (∃ buildingId,
        resolveBuilding buildingMap (sr_building room) = Some buildingId ∧
        d = studySpotData room buildingId) ∧
     st_studySpots (stats r.2) = S (st_studySpots (stats s)) ∧
     st_errors (stats r.2) = st_errors (stats s)) ∨
  (r.1 = Ok acc ∧
   db_studySpots (world r.2) = db_studySpots (world s) ∧
   st_studySpots (stats r.2) = st_studySpots (stats s) ∧
   ∃ message, st_errors (stats r.2) = st_errors (stats s) ++ [message]).
Proof.
  unfold resolveBuilding, migrateStudySpot, prisma_studySpot_create, prisma_create. run.
  destruct (as_truthy _) as [buildingId|]; cbn.
  - destruct (studySpot_create _ _ _) as [id|e]; cbn.
    + left. do 2 eexists. split_and!; [done | done | by eexists | done | done].
    + right. split_and!; [done | done | done | by eexists].
  - right. split_and!; [done | done | done | by eexists].
Qed.

Lemma migrateLectureHall_step buildingMap room acc s :
  let r := migrateLectureHall E buildingMap room acc s in
  (∃ id d,
     r.1 = Ok (<[rd_id room := id]> acc) ∧
     db_lectureHalls (world r.2) = db_lectureHalls (world s) ++ [(id, d)] ∧
     (∃ buildingId,
        resolveBuilding buildingMap (rd_building room) = Some buildingId ∧
        d = lectureHallData room buildingId) ∧
     st_lectureHalls (stats r.2) = S (st_lectureHalls (stats s)) ∧
     st_errors (stats r.2) = st_errors (stats s)) ∨
  (r.1 = Ok acc ∧
   db_lectureHalls (world r.2) = db_lectureHalls (world s) ∧
   st_lectureHalls (stats r.2) = st_lectureHalls (stats s) ∧
   ∃ message, st_errors (stats r.2) = st_errors (stats s) ++ [message]).
Proof.
  unfold resolveBuilding, migrateLectureHall, prisma_lectureHall_create, prisma_create.
  run.
  destruct (as_truthy _) as [buildingId|]; cbn.
  - destruct (lectureHall_create _ _ _) as [id|e]; cbn.
    + left. do 2 eexists. split_and!; [done | done | by eexists | done | done].
    + right. split_and!; [done | done | done | by eexists].
  - right. split_and!; [done | done | done | by eexists].
Qed.

(** What the creation loop of [createBuildings] does, for any list of names. *)
Lemma createBuildings_creates studyRooms rooms universityId s :
  let names := buildingNames studyRooms rooms in
  let r := createBuildings_from E studyRooms rooms universityId s in
  ∃ buildingMap rows errors,
    r.1 = Ok buildingMap ∧
    db_buildings (world r.2) = db_buildings (world s) ++ rows ∧
    st_errors (stats r.2) = st_errors (stats s) ++ errors ∧
    length rows + length errors = length names ∧
    st_buildings (stats r.2) = st_buildings (stats s) + length rows ∧
    (∀ row, row ∈ rows →
       bd_universityId row.2 = universityId ∧ bd_name row.2 ∈ names ∧
       ∃ w, building_create E w row.2 = Ok row.1) ∧
    (∀ name id, buildingMap !! name = Some id →
       name ∈ names ∧
       (id, {| bd_name := name; bd_universityId := universityId |}) ∈ rows) ∧
    (errors = [] → ∀ name, name ∈ names → is_Some (buildingMap !! name)).
Proof.
  intros names r.
  destruct (for_fold_creates (createBuilding E universityId) db_buildings st_buildings
              id
              (fun name row =>
                 row.2 = {| bd_name := name; bd_universityId := universityId |} ∧
                 ∃ w, building_create E w row.2 = Ok row.1)
              (createBuilding_step universityId) names ∅ s)
    as (m & rows & errors & Hm & Hrows & Herr & Hlen & Hcount & Hgood & Hmap & _ & Hall).
  exists m, rows, errors.
  split_and!; [done | done | done | done | done | | | done].
  - intros row Hrow. destruct (Hgood row Hrow) as (name & Hname & -> & Hw).
    by split_and!.
  - intros name id Hid.
    destruct (Hmap name id Hid) as [Hempty|(x & d & Hx & <- & Hin & Hd & _)]; [done|].
    simpl in Hd. by subst d.
Qed.

End CreateSteps.

(** X5: [createBuildings] throws only when a data file cannot be read or
    parsed, and then at once: it throws the error of the read, having made no
    call and left the state as it was.  Once both files are parsed, building
    creation is best effort: it returns normally; every distinct name yields
    either one Building row (owned by the given university, and counted in
    [stats.buildings]) or one recorded error; and every entry of the lookup
    table it returns is the identifier of a row it created for that very
    name. *)
Theorem createBuildings_is_best_effort (E : Env) (F : DataFiles)
    (universityId : string) (s : State) :
  let r := createBuildings E F universityId s in
  (∀ e, study_rooms_json F = Throw e → r = (Throw e, s)) ∧
  (∀ studyRooms e,
     study_rooms_json F = Ok studyRooms → rooms_json F = Throw e →
     r = (Throw e, s)) ∧
  (∀ studyRooms rooms,
     study_rooms_json F = Ok studyRooms → rooms_json F = Ok rooms →
     let names := buildingNames studyRooms rooms in
     ∃ buildingMap rows errors,
       r.1 = Ok buildingMap ∧
       db_buildings (world r.2) = db_buildings (world s) ++ rows ∧
       st_errors (stats r.2) = st_errors (stats s) ++ errors ∧
       length rows + length errors = length names ∧
       st_buildings (stats r.2) = st_buildings (stats s) + length rows ∧
       (∀ row, row ∈ rows →
          bd_universityId row.2 = universityId ∧ bd_name row.2 ∈ names) ∧
       (∀ name id, buildingMap !! name = Some id →
          (id, {| bd_name := name; bd_universityId := universityId |}) ∈ rows)).
Proof.
  cbv zeta. destruct (createBuildings_unreadable E F universityId s) as [Hstudy Hrooms].
  split; [exact Hstudy|]. split; [exact Hrooms|].
  intros studyRooms rooms Hs Hr.
  rewrite (createBuildings_read E F studyRooms rooms universityId Hs Hr).
  destruct (createBuildings_creates E studyRooms rooms universityId s)
    as (m & rows & errors & Hm & Hrows & Herr & Hlen & Hcount & Hgood & Hmap & _).
  exists m, rows, errors. split_and!; [done | done | done | done | done | |].
  - intros row Hrow. destruct (Hgood row Hrow) as (? & ? & _). done.
  - intros name id Hid. by destruct (Hmap name id Hid).
Qed.

(** X5 at a run with [rooms.json] missing: nothing is created. *)
Lemma createBuildings_missing_file_witness :
  let F := missingRoomsFile [sampleStudyRoom "1" "Arts" None] in
  createBuildings okEnv F "u0" initialState
  = (Throw "Error: ENOENT: no such file or directory, open 'rooms.json'", initialState).
Proof.
  intros F.
  destruct (createBuildings_is_best_effort okEnv F "u0" initialState) as (_ & Hrooms & _).
  exact (Hrooms [sampleStudyRoom "1" "Arts" None] _ eq_refl eq_refl).
Defined.

Lemma elem_of_buildingNames_studyRoom studyRooms rooms room :
  room ∈ studyRooms → sr_building room ≠ EmptyString →
  normalizeBuildingName (sr_building room) ∈ buildingNames studyRooms rooms.
Proof. intros. apply elem_of_buildingNames. left. by exists room. Qed.

Lemma elem_of_buildingNames_room studyRooms rooms room :
  room ∈ rooms → rd_building room ≠ EmptyString →
  normalizeBuildingName (rd_building room) ∈ buildingNames studyRooms rooms.
Proof. intros. apply elem_of_buildingNames. right. by exists room. Qed.

Lemma resolves_after_clean_creation E studyRooms rooms universityId s name :
  let r := createBuildings_from E studyRooms rooms universityId s in
  st_errors (stats r.2) = st_errors (stats s) →
  (∀ w d id, building_create E w d = Ok id → id ≠ EmptyString) →
  name ∈ buildingNames studyRooms rooms →
  ∃ buildingMap buildingId,
    r.1 = Ok buildingMap ∧
    as_truthy (buildingMap !! name) = Some buildingId ∧
    (buildingId, {| bd_name := name; bd_universityId := universityId |})
    ∈ db_buildings (world r.2).
Proof.
  intros r Herrors Hids Hname.
  destruct (createBuildings_creates E studyRooms rooms universityId s)
    as (m & rows & errors & Hm & Hrows & Herr & _ & _ & Hgood & Hmap & Hall).
  fold r in Hm, Hrows, Herr.
  assert (errors = []) as Hnone.
  { rewrite Herrors in Herr. apply (f_equal length) in Herr.
    rewrite length_app in Herr. destruct errors; [done | simpl in Herr; lia]. }
  destruct (Hall Hnone name Hname) as [id Hid].
  destruct (Hmap name id Hid) as [_ Hrow].
  destruct (Hgood _ Hrow) as (_ & _ & w & Hw). simpl in Hw.
  exists m, id. split; [done|]. split.
  - rewrite Hid. simpl. specialize (Hids _ _ _ Hw). by destruct id.
  - rewrite Hrows. apply elem_of_app. by right.
Qed.

(** X6: when the data files hold [studyRooms] and [rooms], building creation
    records no error and the store never hands out an empty identifier, the
    building of every record whose building field is not empty resolves in
    the lookup table, to the identifier of the Building row that carries its
    normalized name. *)
Theorem buildings_resolve_after_clean_creation (E : Env) (F : DataFiles)
    (studyRooms : list StudyRoomData) (rooms : list RoomData) (universityId : string)
    (s : State) :
  study_rooms_json F = Ok studyRooms →
  rooms_json F = Ok rooms →
  let r := createBuildings E F universityId s in
  st_errors (stats r.2) = st_errors (stats s) →
  (∀ w d id, building_create E w d = Ok id → id ≠ EmptyString) →
  ∃ buildingMap,
    r.1 = Ok buildingMap ∧
    (∀ room, room ∈ studyRooms → sr_building room ≠ EmptyString →
       ∃ buildingId,
         resolveBuilding buildingMap (sr_building room) = Some buildingId ∧
         (buildingId, {| bd_name := normalizeBuildingName (sr_building room);
                         bd_universityId := universityId |})
         ∈ db_buildings (world r.2)) ∧
    (∀ room, room ∈ rooms → rd_building room ≠ EmptyString →
       ∃ buildingId,
         resolveBuilding buildingMap (rd_building room) = Some buildingId ∧
         (buildingId, {| bd_name := normalizeBuildingName (rd_building room);
                         bd_universityId := universityId |})
         ∈ db_buildings (world r.2)).
Proof.
  intros Hstudy Hrooms.
  rewrite (createBuildings_read E F studyRooms rooms universityId Hstudy Hrooms).
  intros r Herrors Hids.
  destruct (createBuildings_creates E studyRooms rooms universityId s)
    as (m & _ & _ & Hm & _).
  exists m. split; [done|]. fold r in Hm. split.
  - intros room Hroom Hne.
    destruct (resolves_after_clean_creation E studyRooms rooms universityId s
                (normalizeBuildingName (sr_building room)) Herrors Hids)
      as (m' & id & Hm' & Hid & Hrow);
      [by apply elem_of_buildingNames_studyRoom|].
    fold r in Hm'. rewrite Hm in Hm'. injection Hm' as <-. by exists id.
  - intros room Hroom Hne.
    destruct (resolves_after_clean_creation E studyRooms rooms universityId s
                (normalizeBuildingName (rd_building room)) Herrors Hids)
      as (m' & id & Hm' & Hid & Hrow);
      [by apply elem_of_buildingNames_room|].
    fold r in Hm'. rewrite Hm in Hm'. injection Hm' as <-. by exists id.
Qed.

Lemma okEnv_ids_not_empty w d id : building_create okEnv w d = Ok id → id ≠ EmptyString.
Proof. simpl. by intros [= <-]. Qed.

(** X6 at a study room in [Peters]: it resolves to the row of
    [Peters Building]. *)
Lemma buildings_resolve_witness :
  let studyRooms := [sampleStudyRoom "1" "Peters" None] in
  let r := createBuildings okEnv (dataFiles studyRooms []) "u0" initialState in
  st_errors (stats r.2) = st_errors (stats initialState) ∧
  ∃ buildingMap buildingId,
    r.1 = Ok buildingMap ∧
    resolveBuilding buildingMap "Peters" = Some buildingId ∧
    (buildingId, {| bd_name := JString "Peters Building"; bd_universityId := "u0" |})
    ∈ db_buildings (world r.2).
Proof.
  intros studyRooms r.
  assert (Herrors : st_errors (stats r.2) = st_errors (stats initialState))
    by (vm_compute; reflexivity).
  split; [exact Herrors|].
  destruct (buildings_resolve_after_clean_creation okEnv (dataFiles studyRooms [])
              studyRooms [] "u0" initialState eq_refl eq_refl
              Herrors okEnv_ids_not_empty) as (m & Hm & Hspots & _).
  destruct (Hspots (sampleStudyRoom "1" "Peters" None)) as (id & Hres & Hrow);
    [by apply elem_of_cons; left | done |].
  exists m, id. split; [exact Hm|]. split; [exact Hres | exact Hrow].
Defined.

(** X7: a record whose building field is empty is never migrated.  When the
    data files are parsed, the lookup table that [createBuildings] returns has
    no entry for the empty name, whatever the store answered, so the loops of
    [migrateStudySpots] and [migrateLectureHalls] make no call for such a
    record and record the error [Building not found: ] with nothing after the
    colon. *)
Theorem blank_building_is_never_migrated (E : Env) (F : DataFiles)
    (studyRooms : list StudyRoomData) (rooms : list RoomData) (universityId : string)
    (s : State) :
  study_rooms_json F = Ok studyRooms →
  rooms_json F = Ok rooms →
  ∃ buildingMap,
    (createBuildings E F universityId s).1 = Ok buildingMap ∧
    resolveBuilding buildingMap EmptyString = None ∧
    (∀ room acc s',
       sr_building room = EmptyString →
       migrateStudySpot E buildingMap room acc s' =
       (Ok acc,
        {| world := world s';
           stats := push_error
                      ("Failed to create study spot " +:+ sr_name room
                       +:+ ": Error: Building not found: ") (stats s') |})) ∧
    (∀ room acc s',
       rd_building room = EmptyString →
       migrateLectureHall E buildingMap room acc s' =
       (Ok acc,
        {| world := world s';
           stats := push_error
                      ("Failed to create lecture hall " +:+ rd_room room
                       +:+ ": Error: Building not found: ") (stats s') |})).
Proof.
  intros Hstudy Hrooms.
  rewrite (createBuildings_read E F studyRooms rooms universityId Hstudy Hrooms).
  destruct (createBuildings_creates E studyRooms rooms universityId s)
    as (m & rows & errors & Hm & _ & _ & _ & _ & _ & Hmap & _).
  exists m. split; [done|].
  assert (Hblank : resolveBuilding m EmptyString = None).
  { unfold resolveBuilding.
    destruct (m !! normalizeBuildingName EmptyString) as [id|] eqn:Hid; [|done].
    destruct (Hmap _ id Hid) as [Hin _].
    pose proof (buildingNames_truthy studyRooms rooms) as Ht.
    eapply Forall_forall in Ht; [|exact Hin]. by vm_compute in Ht. }
  split; [done|]. split.
  - intros room acc s' Hb.
    rewrite (migrateStudySpot_unresolved E m room acc s') by (by rewrite Hb).
    by rewrite Hb.
  - intros room acc s' Hb.
    rewrite (migrateLectureHall_unresolved E m room acc s') by (by rewrite Hb).
    by rewrite Hb.
Qed.

(** X7 at data files with a blank study room, for a store that accepts
    everything. *)
Lemma blank_building_witness :
  let blank := sampleStudyRoom "1" EmptyString None in
  let F := dataFiles [blank; sampleStudyRoom "2" "Arts" None] [] in
  ∃ buildingMap,
    (createBuildings okEnv F "u0" initialState).1 = Ok buildingMap ∧
    resolveBuilding buildingMap EmptyString = None ∧
    migrateStudySpot okEnv buildingMap blank ∅ initialState =
    (Ok ∅,
     {| world := emptyWorld;
        stats := push_error "Failed to create study spot Room 1: Error: Building not found: "
                   initialStats |}).
Proof.
  intros blank F.
  destruct (blank_building_is_never_migrated okEnv F
              [blank; sampleStudyRoom "2" "Arts" None] [] "u0" initialState
              eq_refl eq_refl) as (m & Hm & Hblank & Hspot & _).
  exists m. split; [exact Hm|]. split; [exact Hblank|].
  exact (Hspot blank ∅ initialState eq_refl).
Defined.

Lemma migrateStudySpots_from_accounts (E : Env)
    (buildingMap : gmap Value string) (studyRooms : list StudyRoomData) (s : State) :
  let r := migrateStudySpots_from E studyRooms buildingMap s in
  ∃ studySpotMap rows errors,
    r.1 = Ok studySpotMap ∧
    db_studySpots (world r.2) = db_studySpots (world s) ++ rows ∧
    st_errors (stats r.2) = st_errors (stats s) ++ errors ∧
    length rows + length errors = length studyRooms ∧
    st_studySpots (stats r.2) = st_studySpots (stats s) + length rows ∧
    (∀ row, row ∈ rows →
       ∃ room buildingId,
         room ∈ studyRooms ∧
         resolveBuilding buildingMap (sr_building room) = Some buildingId ∧
         row.2 = studySpotData room buildingId) ∧
    (∀ sourceId id, studySpotMap !! sourceId = Some id →
       ∃ room buildingId,
         room ∈ studyRooms ∧ sr_id room = sourceId ∧
         (id, studySpotData room buildingId) ∈ rows).
Proof.
  intros r.
  destruct (for_fold_creates (migrateStudySpot E buildingMap) db_studySpots st_studySpots
              sr_id
              (fun room row =>
                 ∃ buildingId,
                   resolveBuilding buildingMap (sr_building room) = Some buildingId ∧
                   row.2 = studySpotData room buildingId)
              (migrateStudySpot_step E buildingMap) studyRooms ∅ s)
    as (m & rows & errors & Hm & Hrows & Herr & Hlen & Hcount & Hgood & Hmap & _).
  exists m, rows, errors. split_and!; [done | done | done | done | done | |].
  - intros row Hrow. destruct (Hgood row Hrow) as (room & Hroom & bid & Hres & Hd).
    by exists room, bid.
  - intros sourceId id Hid.
    destruct (Hmap sourceId id Hid) as [Hempty|(room & d & Hroom & Hkey & Hin & bid & _ & Hd)];
      [done|].
    simpl in Hd. subst d. by exists room, bid.
Qed.

Lemma migrateLectureHalls_from_accounts (E : Env)
    (buildingMap : gmap Value string) (rooms : list RoomData) (s : State) :
  let r := migrateLectureHalls_from E rooms buildingMap s in
  ∃ lectureHallMap rows errors,
    r.1 = Ok lectureHallMap ∧
    db_lectureHalls (world r.2) = db_lectureHalls (world s) ++ rows ∧
    st_errors (stats r.2) = st_errors (stats s) ++ errors ∧
    length rows + length errors = length rooms ∧
    st_lectureHalls (stats r.2) = st_lectureHalls (stats s) + length rows ∧
    (∀ row, row ∈ rows →
       ∃ room buildingId,
         room ∈ rooms ∧
         resolveBuilding buildingMap (rd_building room) = Some buildingId ∧
         row.2 = lectureHallData room buildingId) ∧
    (∀ sourceId id, lectureHallMap !! sourceId = Some id →
       ∃ room buildingId,
         room ∈ rooms ∧ rd_id room = sourceId ∧
         (id, lectureHallData room buildingId) ∈ rows).
Proof.
  intros r.
  destruct (for_fold_creates (migrateLectureHall E buildingMap) db_lectureHalls
              st_lectureHalls rd_id
              (fun room row =>
                 ∃ buildingId,
                   resolveBuilding buildingMap (rd_building room) = Some buildingId ∧
                   row.2 = lectureHallData room buildingId)
              (migrateLectureHall_step E buildingMap) rooms ∅ s)
    as (m & rows & errors & Hm & Hrows & Herr & Hlen & Hcount & Hgood & Hmap & _).
  exists m, rows, errors. split_and!; [done | done | done | done | done | |].
  - intros row Hrow. destruct (Hgood row Hrow) as (room & Hroom & bid & Hres & Hd).
    by exists room, bid.
  - intros sourceId id Hid.
    destruct (Hmap sourceId id Hid) as [Hempty|(room & d & Hroom & Hkey & Hin & bid & _ & Hd)];
      [done|].
    simpl in Hd. subst d. by exists room, bid.
Qed.

(** X8: [migrateStudySpots] throws only when [study-rooms.json] cannot be
    read or parsed, and then at once, with the state as it was.  Once the
    file is parsed it returns normally and accounts for every record: each
    one yields either one StudySpot row, built from that record and the
    identifier its building resolves to and counted in [stats.studySpots], or
    one recorded error.  Every entry of the identifier table it returns is the
    identifier of a row created for a record with that source id. *)
Theorem migrateStudySpots_accounts_for_every_record (E : Env) (F : DataFiles)
    (buildingMap : gmap Value string) (s : State) :
  let r := migrateStudySpots E F buildingMap s in
  (∀ e, study_rooms_json F = Throw e → r = (Throw e, s)) ∧
  (∀ studyRooms,
     study_rooms_json F = Ok studyRooms →
     ∃ studySpotMap rows errors,
       r.1 = Ok studySpotMap ∧
       db_studySpots (world r.2) = db_studySpots (world s) ++ rows ∧
       st_errors (stats r.2) = st_errors (stats s) ++ errors ∧
       length rows + length errors = length studyRooms ∧
       st_studySpots (stats r.2) = st_studySpots (stats s) + length rows ∧
       (∀ row, row ∈ rows →
          ∃ room buildingId,
            room ∈ studyRooms ∧
            resolveBuilding buildingMap (sr_building room) = Some buildingId ∧
            row.2 = studySpotData room buildingId) ∧
       (∀ sourceId id, studySpotMap !! sourceId = Some id →
          ∃ room buildingId,
            room ∈ studyRooms ∧ sr_id room = sourceId ∧
            (id, studySpotData room buildingId) ∈ rows)).
Proof.
  cbv zeta. split.
  - intros e. apply migrateStudySpots_unreadable.
  - intros studyRooms Hstudy.
    rewrite (migrateStudySpots_read E F studyRooms buildingMap Hstudy).
    apply migrateStudySpots_from_accounts.
Qed.

(** X9: [migrateLectureHalls] throws only when [rooms.json] cannot be read
    or parsed, and then at once, with the state as it was.  Once the file is
    parsed it returns normally and accounts for every record: each one yields
    either one LectureHall row, built from that record and the identifier its
    building resolves to and counted in [stats.lectureHalls], or one recorded
    error.  Every entry of the identifier table it returns is the identifier
    of a row created for a record with that source id. *)
Theorem migrateLectureHalls_accounts_for_every_record (E : Env) (F : DataFiles)
    (buildingMap : gmap Value string) (s : State) :
  let r := migrateLectureHalls E F buildingMap s in
  (∀ e, rooms_json F = Throw e → r = (Throw e, s)) ∧
  (∀ rooms,
     rooms_json F = Ok rooms →
     ∃ lectureHallMap rows errors,
       r.1 = Ok lectureHallMap ∧
       db_lectureHalls (world r.2) = db_lectureHalls (world s) ++ rows ∧
       st_errors (stats r.2) = st_errors (stats s) ++ errors ∧
       length rows + length errors = length rooms ∧
       st_lectureHalls (stats r.2) = st_lectureHalls (stats s) + length rows ∧
       (∀ row, row ∈ rows →
          ∃ room buildingId,
            room ∈ rooms ∧
            resolveBuilding buildingMap (rd_building room) = Some buildingId ∧
            row.2 = lectureHallData room buildingId) ∧
       (∀ sourceId id, lectureHallMap !! sourceId = Some id →
          ∃ room buildingId,
            room ∈ rooms ∧ rd_id room = sourceId ∧
            (id, lectureHallData room buildingId) ∈ rows)).
Proof.
  cbv zeta. split.
  - intros e. apply migrateLectureHalls_unreadable.
  - intros rooms Hrooms.
    rewrite (migrateLectureHalls_read E F rooms buildingMap Hrooms).
    apply migrateLectureHalls_from_accounts.
Qed.

(** ** Photo processing: every image is accounted for *)

Section PhotoAccounting.

Context (good : Row PhotoData → Prop).

Lemma photos_recorded_refl s : photos_recorded good 0 s s.
Proof. exists [], []. rewrite !app_nil_r. split_and!; done || lia. Qed.

Lemma photos_recorded_trans n m s1 s2 s3 :
  photos_recorded good n s1 s2 → photos_recorded good m s2 s3 →
  photos_recorded good (n + m) s1 s3.
Proof.
  intros (r1 & e1 & Hr1 & He1 & Hl1 & Hc1 & Hg1 & Ho1 & Hm1)
         (r2 & e2 & Hr2 & He2 & Hl2 & Hc2 & Hg2 & Ho2 & Hm2).
  exists (r1 ++ r2), (e1 ++ e2).
  split_and!.
  - by rewrite Hr2, Hr1, app_assoc.
  - by rewrite He2, He1, app_assoc.
  - rewrite !length_app. lia.
  - rewrite Hc2, Hc1, length_app. lia.
  - by apply Forall_app.
  - apply Forall_app. split; [|done].
    eapply Forall_impl; [exact Ho1|]. intros row. apply Hm2.
  - intros path Hp. by apply Hm2, Hm1.
Qed.

Lemma for_index_recorded {A} (body : nat → A → M unit) i l s :
  (∀ j x s', eval (body j x) s' = Ok ()) →
  (∀ j x s', photos_recorded good 1 s' (exec (body j x) s')) →
  photos_recorded good (length l) s (exec (for_index i l body) s).
Proof.
  intros Htotal Hbody. revert i s. induction l as [|x l IH]; intros i s.
  { apply photos_recorded_refl. }
  unfold exec. rewrite for_index_cons by done.
  apply (photos_recorded_trans 1 (length l) s _ _ (Hbody i x s)). apply IH.
Qed.

Lemma for_of_recorded {A} (body : A → M unit) (weight : A → nat) l s :
  (∀ x s', eval (body x) s' = Ok ()) →
  (∀ x s', x ∈ l → photos_recorded good (weight x) s' (exec (body x) s')) →
  photos_recorded good (sum_list (weight <$> l)) s (exec (for_of l body) s).
Proof.
  intros Htotal. revert s. induction l as [|x l IH]; intros s Hbody.
  { apply photos_recorded_refl. }
  unfold exec. rewrite for_of_cons by done. simpl.
  apply (photos_recorded_trans (weight x) _ s (exec (body x) s)).
  - apply Hbody. by apply elem_of_cons; left.
  - apply IH. intros y s' Hy. apply Hbody. by apply elem_of_cons; right.
Qed.

End PhotoAccounting.

Lemma photos_recorded_weaken (good good' : Row PhotoData → Prop) n s s' :
  (∀ row, good row → good' row) →
  photos_recorded good n s s' → photos_recorded good' n s s'.
Proof.
  intros Himpl (rows & errors & ? & ? & ? & ? & Hg & ? & ?).
  exists rows, errors. split_and!; [done | done | done | done | | done | done].
  eapply Forall_impl; [exact Hg | exact Himpl].
Qed.

Section PhotoRun.

Context (E : Env) (universityId : string).

Lemma processImage_recorded kind entityId name i url s :
  photos_recorded (photo_of E kind universityId entityId) 1 s
    (exec (processImage E kind universityId entityId name i url) s).
Proof.
  unfold photos_recorded, photo_of, processImage, downloadImage, optimizeImage,
    uploadToSupabase, storage_upload, prisma_photo_create, prisma_create.
  run.
  assert (Hkeep : ∀ (m : gmap string Buffer) k b path,
             is_Some (m !! path) → is_Some (<[k := b]> m !! path)).
  { intros m k b path Hp. destruct (decide (k = path)) as [->|Hne].
    - rewrite lookup_insert_eq. by eexists.
    - by rewrite lookup_insert_ne. }
  destruct (axios_get _ _ _); cbn;
    [|eexists [], [_]; rewrite app_nil_r; by split_and!].
  destruct (sharp_metadata _ _) as [md|]; cbn;
    [|eexists [], [_]; rewrite app_nil_r; by split_and!].
  destruct (newDimensions md) as [nw nh].
  destruct (sharp_resize_webp _ _ _ _ _); cbn;
    [|eexists [], [_]; rewrite app_nil_r; by split_and!].
  destruct (upload_error _ _ _ _); cbn;
    [eexists [], [_]; rewrite app_nil_r; by split_and!|].
  destruct (photo_create _ _ _) as [id|]; cbn.
  - eexists [_], []. rewrite app_nil_r.
    split_and!; [done | done | done | simpl; lia | | | apply Hkeep].
    + constructor; [by exists i | done].
    + constructor; [|done]. destruct kind; cbn; rewrite lookup_insert_eq; by eexists.
  - eexists [], [_]. rewrite app_nil_r.
    split_and!; [done | done | done | simpl; lia | done | done | apply Hkeep].
Qed.

Lemma processImage_frame kind entityId name i url s :
  photo_frame s (exec (processImage E kind universityId entityId name i url) s).
Proof.
  unfold photo_frame, processImage, downloadImage, optimizeImage,
    uploadToSupabase, storage_upload, prisma_photo_create, prisma_create.
  run.
  destruct (axios_get _ _ _); cbn; [|done].
  destruct (sharp_metadata _ _) as [md|]; cbn; [|done].
  destruct (newDimensions md) as [nw nh].
  destruct (sharp_resize_webp _ _ _ _ _); cbn; [|done].
  destruct (upload_error _ _ _ _); cbn; [done|].
  by destruct (photo_create _ _ _).
Qed.

Lemma photo_frame_trans s1 s2 s3 :
  photo_frame s1 s2 → photo_frame s2 s3 → photo_frame s1 s3.
Proof.
  unfold photo_frame. intros (?&?&?&?&?&?&?&?&?) (?&?&?&?&?&?&?&?&?).
  split_and!; congruence.
Qed.

Context (studyRooms : list StudyRoomData) (rooms : list RoomData)
  (studySpotMap lectureHallMap : gmap string string).

Local Abbreviation good :=
  (photo_of_run E studyRooms rooms universityId studySpotMap lectureHallMap).

Lemma processStudyRoomPhotos_recorded room s :
  room ∈ studyRooms →
  photos_recorded good (imagesOfStudyRoom studySpotMap room) s
    (exec (processStudyRoomPhotos E universityId studySpotMap room) s).
Proof.
  intros Hroom. unfold processStudyRoomPhotos, imagesOfStudyRoom.
  destruct (sr_imageURL room) as [[|url urls]|]; try apply photos_recorded_refl.
  { destruct (as_truthy _); apply photos_recorded_refl. }
  destruct (as_truthy _) as [studySpotId|] eqn:Hid; [|apply photos_recorded_refl].
  apply for_index_recorded; [intros; apply processImage_total|].
  intros j x s'.
  eapply photos_recorded_weaken; [|apply processImage_recorded].
  intros row [i Hrow]. unfold photo_of_run. rewrite Hrow. split; [done|]. left.
  by exists room, studySpotId.
Qed.

Lemma processRoomPhotos_recorded room s :
  room ∈ rooms →
  photos_recorded good (imagesOfRoom lectureHallMap room) s
    (exec (processRoomPhotos E universityId lectureHallMap room) s).
Proof.
  intros Hroom. unfold processRoomPhotos, imagesOfRoom.
  destruct (rd_photos room) as [|url urls].
  { destruct (as_truthy _); apply photos_recorded_refl. }
  destruct (as_truthy _) as [lectureHallId|] eqn:Hid; [|apply photos_recorded_refl].
  apply for_index_recorded; [intros; apply processImage_total|].
  intros j x s'.
  eapply photos_recorded_weaken; [|apply processImage_recorded].
  intros row [i Hrow]. unfold photo_of_run. rewrite Hrow. split; [done|]. right.
  by exists room, lectureHallId.
Qed.

Lemma processPhotos_recorded s :
  photos_recorded good (imagesToProcess studyRooms rooms studySpotMap lectureHallMap) s
    (exec (processPhotos_from E studyRooms rooms universityId studySpotMap lectureHallMap) s).
Proof.
  rewrite processPhotos_exec. unfold imagesToProcess.
  eapply photos_recorded_trans.
  - apply for_of_recorded; [apply processStudyRoomPhotos_total|].
    intros room s' Hroom. by apply processStudyRoomPhotos_recorded.
  - apply for_of_recorded; [apply processRoomPhotos_total|].
    intros room s' Hroom. by apply processRoomPhotos_recorded.
Qed.

Lemma processPhotos_total s :
  eval (processPhotos_from E studyRooms rooms universityId studySpotMap lectureHallMap) s
  = Ok ().
Proof.
  unfold processPhotos_from, eval. rewrite bind_run.
  pose proof (for_of_total _ (processStudyRoomPhotos_total E universityId studySpotMap)
                studyRooms s) as H1.
  unfold eval in H1. destruct (for_of studyRooms _ s) as [[[]|] s1]; simplify_eq/=.
  apply (for_of_total _ (processRoomPhotos_total E universityId lectureHallMap)).
Qed.

Lemma processPhotos_frame s :
  photo_frame s
    (exec (processPhotos_from E studyRooms rooms universityId studySpotMap lectureHallMap) s).
Proof.
  assert (Hrefl : ∀ s0, photo_frame s0 s0) by (intros; by split_and!).
  rewrite processPhotos_exec.
  apply for_of_invariant; [apply processRoomPhotos_total | |].
  - intros room s' _ Hs'. unfold processRoomPhotos.
    destruct (rd_photos room) as [|url urls]; [done|].
    destruct (as_truthy _); [|done].
    apply for_index_invariant; [intros; apply processImage_total | | done].
    intros k x s'' _ Hs''. eapply photo_frame_trans; [exact Hs''|].
    apply processImage_frame.
  - apply for_of_invariant; [apply processStudyRoomPhotos_total | | apply Hrefl].
    intros room s' _ Hs'. unfold processStudyRoomPhotos.
    destruct (sr_imageURL room) as [[|url urls]|]; [done| |done].
    destruct (as_truthy _); [|done].
    apply for_index_invariant; [intros; apply processImage_total | | done].
    intros k x s'' _ Hs''. eapply photo_frame_trans; [exact Hs''|].
    apply processImage_frame.
Qed.

End PhotoRun.

(** What [processPhotos] does, by what the two reads give. *)
Lemma processPhotos_study_rooms_unreadable E F universityId studySpotMap lectureHallMap s e :
  study_rooms_json F = Throw e →
  processPhotos E F universityId studySpotMap lectureHallMap s = (Throw e, s).
Proof. intros Hs. unfold processPhotos. by rewrite Hs. Qed.

Lemma processPhotos_rooms_unreadable E F universityId studySpotMap lectureHallMap s
    studyRooms e :
  study_rooms_json F = Ok studyRooms →
  rooms_json F = Throw e →
  processPhotos E F universityId studySpotMap lectureHallMap s
  = (Throw e,
     exec (processPhotos_from E studyRooms [] universityId studySpotMap lectureHallMap) s).
Proof.
  intros Hs Hr. rewrite processPhotos_exec. unfold processPhotos. rewrite Hs, Hr.
  unfold exec, mbind, M_bind, readJson. cbn [for_of mret M_ret snd].
  pose proof (for_of_total _ (processStudyRoomPhotos_total E universityId studySpotMap)
                studyRooms s) as H.
  unfold eval in H.
  by destruct (for_of studyRooms _ s) as [[[]|] s1]; simplify_eq/=.
Qed.

(** X10: [processPhotos] throws only when a data file cannot be read or
    parsed: at once when it is [study-rooms.json], and after the images of
    the study rooms have been worked on when it is [rooms.json], which is read
    between the two loops.  In every case each image worked on, of a record
    that has an entity, yields either one Photo row, counted in
    [stats.photos], or one recorded error, so rows and errors together are as
    many as the images worked on; when both files are parsed the step returns
    normally and these are all the images. *)
Theorem processPhotos_accounts_for_every_image (E : Env) (F : DataFiles)
    (universityId : string) (studySpotMap lectureHallMap : gmap string string)
    (s : State) :
  let run := processPhotos E F universityId studySpotMap lectureHallMap in
  let accounted n :=
    ∃ rows errors,
      db_photos (world (exec run s)) = db_photos (world s) ++ rows ∧
      st_errors (stats (exec run s)) = st_errors (stats s) ++ errors ∧
      length rows + length errors = n ∧
      st_photos (stats (exec run s)) = st_photos (stats s) + length rows in
  (∀ e, study_rooms_json F = Throw e → run s = (Throw e, s)) ∧
  (∀ studyRooms e,
     study_rooms_json F = Ok studyRooms → rooms_json F = Throw e →
     eval run s = Throw e ∧
     accounted (imagesToProcess studyRooms [] studySpotMap lectureHallMap)) ∧
  (∀ studyRooms rooms,
     study_rooms_json F = Ok studyRooms → rooms_json F = Ok rooms →
     eval run s = Ok () ∧
     accounted (imagesToProcess studyRooms rooms studySpotMap lectureHallMap)).
Proof.
  cbv zeta. split; [|split].
  - intros e. apply processPhotos_study_rooms_unreadable.
  - intros studyRooms e Hs Hr. unfold eval, exec.
    rewrite (processPhotos_rooms_unreadable E F universityId studySpotMap lectureHallMap
               s studyRooms e Hs Hr).
    split; [done|]. cbn [fst snd].
    destruct (processPhotos_recorded E universityId studyRooms [] studySpotMap
                lectureHallMap s) as (rows & errors & ? & ? & ? & ? & _).
    by exists rows, errors.
  - intros studyRooms rooms Hs Hr.
    rewrite (processPhotos_read E F studyRooms rooms universityId studySpotMap
               lectureHallMap Hs Hr).
    split; [apply processPhotos_total|].
    destruct (processPhotos_recorded E universityId studyRooms rooms studySpotMap
                lectureHallMap s) as (rows & errors & ? & ? & ? & ? & _).
    by exists rows, errors.
Qed.

(** X10 at a run with [rooms.json] missing: the image of the study room is
    stored, then the step throws. *)
Lemma processPhotos_missing_file_witness :
  let F := missingRoomsFile [sampleStudyRoom "1" "Arts" (Some ["http://img/a.jpg"])] in
  let run := processPhotos okEnv F "u0" {[ "1" := "s0" ]} ∅ in
  eval run initialState
  = Throw "Error: ENOENT: no such file or directory, open 'rooms.json'" ∧
  ∃ rows errors,
    db_photos (world (exec run initialState)) = db_photos (world initialState) ++ rows ∧
    st_errors (stats (exec run initialState)) = st_errors (stats initialState) ++ errors ∧
    length rows + length errors = 1 ∧
    st_photos (stats (exec run initialState))
    = st_photos (stats initialState) + length rows.
Proof.
  intros F run.
  destruct (processPhotos_accounts_for_every_image okEnv F "u0" {[ "1" := "s0" ]} ∅
              initialState) as (_ & Hrooms & _).
  exact (Hrooms [sampleStudyRoom "1" "Arts" (Some ["http://img/a.jpg"])] _
           eq_refl eq_refl).
Defined.

(** X11: when the data files hold [studyRooms] and [rooms], every Photo row
    that [processPhotos] records references exactly one entity, a study spot
    or a lecture hall whose identifier comes from the identifier tables, never
    both and never neither; its URL is the public URL of its storage path; and
    when the step ends the bucket holds an object at that path.  No object
    that was in the bucket is removed. *)
Theorem recorded_photos_are_well_formed (E : Env) (F : DataFiles)
    (studyRooms : list StudyRoomData) (rooms : list RoomData) (universityId : string)
    (studySpotMap lectureHallMap : gmap string string) (s : State) :
  study_rooms_json F = Ok studyRooms →
  rooms_json F = Ok rooms →
  let s' := exec (processPhotos E F universityId studySpotMap lectureHallMap) s in
  (∃ rows,
     db_photos (world s') = db_photos (world s) ++ rows ∧
     ∀ row, row ∈ rows →
       ph_url row.2 = getPublicUrl E (ph_storagePath row.2) ∧
       is_Some (storage_objects (world s') !! ph_storagePath row.2) ∧
       ((∃ room studySpotId,
           room ∈ studyRooms ∧
           as_truthy (studySpotMap !! sr_id room) = Some studySpotId ∧
           ph_studySpotId row.2 = Some studySpotId ∧ ph_lectureHallId row.2 = None) ∨
        (∃ room lectureHallId,
           room ∈ rooms ∧
           as_truthy (lectureHallMap !! rd_id room) = Some lectureHallId ∧
           ph_lectureHallId row.2 = Some lectureHallId ∧ ph_studySpotId row.2 = None))) ∧
  (∀ path, is_Some (storage_objects (world s) !! path) →
           is_Some (storage_objects (world s') !! path)).
Proof.
  intros Hstudy Hrooms.
  rewrite (processPhotos_read E F studyRooms rooms universityId studySpotMap
             lectureHallMap Hstudy Hrooms).
  intros s'.
  destruct (processPhotos_recorded E universityId studyRooms rooms studySpotMap
              lectureHallMap s) as (rows & errors & Hrows & _ & _ & _ & Hg & Ho & Hm).
  split; [|exact Hm]. exists rows. split; [done|].
  intros row Hrow.
  eapply Forall_forall in Hg; [|exact Hrow]. eapply Forall_forall in Ho; [|exact Hrow].
  destruct Hg as [Hurl Hfk]. by split_and!.
Qed.

(** X11 at a run over one study room and one room, each with one image. *)
Lemma recorded_photos_witness :
  let studyRooms := [sampleStudyRoom "1" "Arts" (Some ["http://img/a.jpg"])] in
  let rooms := [sampleRoom "2" "Peters" ["http://img/b.jpg"]] in
  let s' := exec (processPhotos okEnv (dataFiles studyRooms rooms) "u0"
                    {[ "1" := "s0" ]} {[ "2" := "h0" ]}) initialState in
  length (db_photos (world s')) = 2 ∧
  ∃ rows,
    db_photos (world s') = db_photos (world initialState) ++ rows ∧
    ∀ row, row ∈ rows →
      ph_url row.2 = getPublicUrl okEnv (ph_storagePath row.2) ∧
      is_Some (storage_objects (world s') !! ph_storagePath row.2).
Proof.
  intros studyRooms rooms s'.
  split; [vm_compute; reflexivity|].
  destruct (recorded_photos_are_well_formed okEnv (dataFiles studyRooms rooms)
              studyRooms rooms "u0" {[ "1" := "s0" ]} {[ "2" := "h0" ]} initialState
              eq_refl eq_refl) as [(rows & Hrows & Hgood) _].
  exists rows. split; [exact Hrows|].
  intros row Hrow. destruct (Hgood row Hrow) as (Hurl & Hobject & _).
  split; [exact Hurl | exact Hobject].
Defined.

(** X12: [processPhotos] writes only Photo rows, objects of the bucket, the
    photo counter and the error list: whatever the data files are, the
    Building, StudySpot, LectureHall and University tables, the set of
    buckets and the other counters are left as they were. *)
Theorem processPhotos_touches_only_photos (E : Env) (F : DataFiles)
    (universityId : string) (studySpotMap lectureHallMap : gmap string string)
    (s : State) :
  let s' := exec (processPhotos E F universityId studySpotMap lectureHallMap) s in
  db_studySpots (world s') = db_studySpots (world s) ∧
  db_lectureHalls (world s') = db_lectureHalls (world s) ∧
  db_buildings (world s') = db_buildings (world s) ∧
  db_universities (world s') = db_universities (world s) ∧
  storage_buckets (world s') = storage_buckets (world s) ∧
  st_university (stats s') = st_university (stats s) ∧
  st_buildings (stats s') = st_buildings (stats s) ∧
  st_studySpots (stats s') = st_studySpots (stats s) ∧
  st_lectureHalls (stats s') = st_lectureHalls (stats s).
Proof.
  cbv zeta. unfold exec.
  destruct (study_rooms_json F) as [studyRooms|e] eqn:Hs.
  - destruct (rooms_json F) as [rooms|e] eqn:Hr.
    + rewrite (processPhotos_read E F studyRooms rooms universityId studySpotMap
                 lectureHallMap Hs Hr).
      apply processPhotos_frame.
    + rewrite (processPhotos_rooms_unreadable E F universityId studySpotMap
                 lectureHallMap s studyRooms e Hs Hr).
      apply processPhotos_frame.
  - rewrite (processPhotos_study_rooms_unreadable E F universityId studySpotMap
               lectureHallMap s e Hs).
    by split_and!.
Qed.

(** ** The whole run *)

Lemma for_fold_invariant {A B} (body : A → B → M B) (I : State → Prop) l acc s :
  (∀ x acc' s', I s' → I (body x acc' s').2) →
  I s → I (for_fold l acc body s).2.
Proof.
  intros Hbody. revert acc s. induction l as [|x l IH]; intros acc s Hs; [done|].
  simpl. rewrite bind_run. specialize (Hbody x acc s Hs).
  destruct (body x acc s) as [[acc'|e] s1]; [by apply IH | done].
Qed.

Section WholeRun.

Context (E : Env).

Lemma createBuilding_counts universityId name acc s :
  counts_match s → counts_match (createBuilding E universityId name acc s).2.
Proof.
  unfold counts_match, createBuilding, prisma_building_create, prisma_create. run.
  intros (? & ? & ? & ? & ?).
  destruct (building_create _ _ _); cbn; rewrite ?length_app; simpl;
    split_and!; done || lia.
Qed.

Lemma migrateStudySpot_counts buildingMap room acc s :
  counts_match s → counts_match (migrateStudySpot E buildingMap room acc s).2.
Proof.
  unfold counts_match, migrateStudySpot, prisma_studySpot_create, prisma_create. run.
  intros (? & ? & ? & ? & ?).
  destruct (as_truthy _); cbn; [|done].
  destruct (studySpot_create _ _ _); cbn; rewrite ?length_app; simpl;
    split_and!; done || lia.
Qed.

Lemma migrateLectureHall_counts buildingMap room acc s :
  counts_match s → counts_match (migrateLectureHall E buildingMap room acc s).2.
Proof.
  unfold counts_match, migrateLectureHall, prisma_lectureHall_create, prisma_create. run.
  intros (? & ? & ? & ? & ?).
  destruct (as_truthy _); cbn; [|done].
  destruct (lectureHall_create _ _ _); cbn; rewrite ?length_app; simpl;
    split_and!; done || lia.
Qed.

Lemma processImage_counts kind universityId entityId name i url s :
  counts_match s →
  counts_match (exec (processImage E kind universityId entityId name i url) s).
Proof.
  unfold counts_match, processImage, downloadImage, optimizeImage, uploadToSupabase,
    storage_upload, prisma_photo_create, prisma_create.
  run. intros (? & ? & ? & ? & ?).
  destruct (axios_get _ _ _); cbn; [|done].
  destruct (sharp_metadata _ _) as [md|]; cbn; [|done].
  destruct (newDimensions md) as [nw nh].
  destruct (sharp_resize_webp _ _ _ _ _); cbn; [|done].
  destruct (upload_error _ _ _ _); cbn; [done|].
  destruct (photo_create _ _ _); cbn; rewrite ?length_app; simpl;
    split_and!; done || lia.
Qed.

Lemma processPhotos_counts studyRooms rooms universityId studySpotMap lectureHallMap s :
  counts_match s →
  counts_match
    (exec (processPhotos_from E studyRooms rooms universityId studySpotMap lectureHallMap) s).
Proof.
  intros Hs. rewrite processPhotos_exec.
  apply for_of_invariant; [apply processRoomPhotos_total | |].
  - intros room s' _ Hs'. unfold processRoomPhotos.
    destruct (rd_photos room) as [|url urls]; [done|].
    destruct (as_truthy _); [|done].
    apply for_index_invariant; [intros; apply processImage_total | | done].
    intros k x s'' _. apply processImage_counts.
  - apply for_of_invariant; [apply processStudyRoomPhotos_total | | done].
    intros room s' _ Hs'. unfold processStudyRoomPhotos.
    destruct (sr_imageURL room) as [[|url urls]|]; [done| |done].
    destruct (as_truthy _); [|done].
    apply for_index_invariant; [intros; apply processImage_total | | done].
    intros k x s'' _. apply processImage_counts.
Qed.

(** The steps after the setup, once both files are parsed. *)
Local Abbreviation load_from studyRooms rooms universityId :=
  (buildingMap ← createBuildings_from E studyRooms rooms universityId;
   studySpotMap ← migrateStudySpots_from E studyRooms buildingMap;
   lectureHallMap ← migrateLectureHalls_from E rooms buildingMap;
   processPhotos_from E studyRooms rooms universityId studySpotMap lectureHallMap).

Lemma load_read F studyRooms rooms universityId :
  study_rooms_json F = Ok studyRooms →
  rooms_json F = Ok rooms →
  load E F universityId = load_from studyRooms rooms universityId.
Proof.
  intros Hs Hr.
  unfold load, createBuildings, migrateStudySpots, migrateLectureHalls, processPhotos.
  by rewrite Hs, Hr.
Qed.

Lemma load_from_total studyRooms rooms universityId s :
  eval (load_from studyRooms rooms universityId) s = Ok ().
Proof.
  unfold eval. rewrite bind_run.
  destruct (createBuildings_creates E studyRooms rooms universityId s)
    as (m & _ & _ & Hm & _).
  destruct (createBuildings_from E studyRooms rooms universityId s) as [r1 s1].
  simpl in Hm. subst r1. rewrite bind_run.
  destruct (for_fold_total _ (migrateStudySpot_total E m) studyRooms ∅ s1) as [m2 Hm2].
  fold (migrateStudySpots_from E studyRooms m) in Hm2.
  destruct (migrateStudySpots_from E studyRooms m s1) as [r2 s2]. simpl in Hm2. subst r2.
  rewrite bind_run.
  destruct (for_fold_total _ (migrateLectureHall_total E m) rooms ∅ s2) as [m3 Hm3].
  fold (migrateLectureHalls_from E rooms m) in Hm3.
  destruct (migrateLectureHalls_from E rooms m s2) as [r3 s3]. simpl in Hm3. subst r3.
  apply processPhotos_total.
Qed.

Lemma load_from_counts studyRooms rooms universityId s :
  counts_match s → counts_match (exec (load_from studyRooms rooms universityId) s).
Proof.
  intros Hs. unfold exec. rewrite bind_run.
  assert (H1 : counts_match (createBuildings_from E studyRooms rooms universityId s).2)
    by (unfold createBuildings_from; apply for_fold_invariant;
        [intros; by apply createBuilding_counts | done]).
  destruct (createBuildings_from E studyRooms rooms universityId s) as [[m|e] s1]; [|done].
  simpl in H1. rewrite bind_run.
  assert (H2 : counts_match (migrateStudySpots_from E studyRooms m s1).2)
    by (unfold migrateStudySpots_from; apply for_fold_invariant;
        [intros; by apply migrateStudySpot_counts | done]).
  destruct (migrateStudySpots_from E studyRooms m s1) as [[m2|e] s2]; [|done].
  simpl in H2. rewrite bind_run.
  assert (H3 : counts_match (migrateLectureHalls_from E rooms m s2).2)
    by (unfold migrateLectureHalls_from; apply for_fold_invariant;
        [intros; by apply migrateLectureHall_counts | done]).
  destruct (migrateLectureHalls_from E rooms m s2) as [[m3|e] s3]; [|done].
  simpl in H3. by apply processPhotos_counts.
Qed.

Lemma load_from_university studyRooms rooms universityId s :
  st_university (stats (exec (load_from studyRooms rooms universityId) s))
  = st_university (stats s).
Proof.
  unfold exec. rewrite bind_run.
  assert (H1 : st_university
                 (stats (createBuildings_from E studyRooms rooms universityId s).2)
               = st_university (stats s)).
  { unfold createBuildings_from.
    apply (for_fold_invariant _
             (fun s0 => st_university (stats s0) = st_university (stats s))); [|done].
    intros x acc s0 Hs0.
    unfold createBuilding, prisma_building_create, prisma_create. run.
    by destruct (building_create _ _ _). }
  destruct (createBuildings_from E studyRooms rooms universityId s) as [[m|e] s2]; [|done].
  simpl in H1. rewrite bind_run.
  assert (H2 : st_university (stats (migrateStudySpots_from E studyRooms m s2).2)
               = st_university (stats s)).
  { unfold migrateStudySpots_from.
    apply (for_fold_invariant _
             (fun s0 => st_university (stats s0) = st_university (stats s))); [|done].
    intros x acc s0 Hs0.
    unfold migrateStudySpot, prisma_studySpot_create, prisma_create. run.
    destruct (as_truthy _); cbn; [|done]. by destruct (studySpot_create _ _ _). }
  destruct (migrateStudySpots_from E studyRooms m s2) as [[m2|e] s3]; [|done].
  simpl in H2. rewrite bind_run.
  assert (H3 : st_university (stats (migrateLectureHalls_from E rooms m s3).2)
               = st_university (stats s)).
  { unfold migrateLectureHalls_from.
    apply (for_fold_invariant _
             (fun s0 => st_university (stats s0) = st_university (stats s))); [|done].
    intros x acc s0 Hs0.
    unfold migrateLectureHall, prisma_lectureHall_create, prisma_create. run.
    destruct (as_truthy _); cbn; [|done]. by destruct (lectureHall_create _ _ _). }
  destruct (migrateLectureHalls_from E rooms m s3) as [[m3|e] s4]; [|done].
  simpl in H3.
  destruct (processPhotos_frame E universityId studyRooms rooms m2 m3 s4)
    as (_ & _ & _ & _ & _ & Hu & _).
  unfold exec in Hu. by rewrite Hu.
Qed.

(** The load fails exactly on a data file that cannot be read, and then
    before it has done anything: [createBuildings] reads both files first. *)
Lemma load_outcome F universityId s :
  (∀ e, study_rooms_json F = Throw e → load E F universityId s = (Throw e, s)) ∧
  (∀ studyRooms e,
     study_rooms_json F = Ok studyRooms → rooms_json F = Throw e →
     load E F universityId s = (Throw e, s)) ∧
  (∀ studyRooms rooms,
     study_rooms_json F = Ok studyRooms → rooms_json F = Ok rooms →
     eval (load E F universityId) s = Ok ()).
Proof.
  split; [|split].
  - intros e Hs. unfold load, createBuildings. by rewrite Hs.
  - intros studyRooms e Hs Hr. unfold load, createBuildings. by rewrite Hs, Hr.
  - intros studyRooms rooms Hs Hr. rewrite (load_read F studyRooms rooms _ Hs Hr).
    apply load_from_total.
Qed.

(** [migrate] is the setup, then the load, then the disconnect. *)
Lemma migrate_run F s :
  migrate E F s =
  match setup E s with
  | (Ok universityId, s1) =>
      match load E F universityId s1 with
      | (r, s2) => (r, {| world := log_call CallDisconnect (world s2); stats := stats s2 |})
      end
  | (Throw e, s1) =>
      (Throw e, {| world := log_call CallDisconnect (world s1); stats := stats s1 |})
  end.
Proof.
  unfold migrate, setup, try_finally, try_catch, prisma_disconnect, modify_world, throw.
  rewrite !bind_run.
  destruct (clearExistingData E s) as [[[]|e] s1]; [|done].
  rewrite !bind_run.
  destruct (ensureStorageBucket E s1) as [[[]|e] s2]; [|done].
  rewrite bind_run.
  destruct (createUniversity E s2) as [[universityId|e] s3]; [|done].
  fold (load E F universityId).
  by destruct (load E F universityId s3) as [[[]|e] s4].
Qed.

Lemma setup_counts s universityId :
  stats s = initialStats →
  eval (setup E) s = Ok universityId →
  counts_match (exec (setup E) s).
Proof.
  intros Hstats. unfold setup, eval, exec. rewrite !bind_run.
  destruct (clearExistingData_effect E s) as ((n & Hempty & _ & Hn) & _ & _ & Hs1).
  destruct (clearExistingData E s) as [[[]|e] s1]; [|done].
  simpl in Hempty, Hn, Hs1.
  assert (n = 5) as -> by (by apply Hn).
  rewrite bind_run.
  destruct (ensureStorageBucket_effect E s1) as (_ & _ & _ & Htables & _ & Hs2).
  destruct (ensureStorageBucket E s1) as [[[]|e] s2]; [|done].
  simpl in Htables, Hs2.
  assert (Hcount : ∀ t, table_count t (world s2) = 0).
  { intros t. specialize (Htables t).
    assert (Ht : table_count t (world s1) = 0).
    { apply Hempty. destruct t; by repeat constructor. }
    destruct t; simpl in *; by rewrite Htables. }
  unfold createUniversity, prisma_university_create, prisma_create. run.
  destruct (university_create _ _ _) as [id|e]; cbn; [|done].
  intros _. unfold counts_match. cbn. rewrite Hs2, Hs1, Hstats. cbn.
  pose proof (Hcount TUniversity) as Hu. pose proof (Hcount TBuilding) as Hb.
  pose proof (Hcount TStudySpot) as Hss. pose proof (Hcount TLectureHall) as Hlh.
  pose proof (Hcount TPhoto) as Hp. simpl in Hu, Hb, Hss, Hlh, Hp.
  rewrite length_app, Hu, Hb, Hss, Hlh, Hp. done.
Qed.

End WholeRun.



(** X14: after a run that completes, started with the statistics at zero,
    every count of the summary equals the number of rows of its table: one
    University, and as many Buildings, StudySpots, LectureHalls and Photos as
    were counted. *)
Theorem summary_counts_equal_table_sizes (E : Env) (F : DataFiles) (s : State) :
  stats s = initialStats →
  eval (migrate E F) s = Ok () →
  let s' := exec (migrate E F) s in
  st_university (stats s') = 1 ∧
  length (db_universities (world s')) = 1 ∧
  st_buildings (stats s') = length (db_buildings (world s')) ∧
  st_studySpots (stats s') = length (db_studySpots (world s')) ∧
  st_lectureHalls (stats s') = length (db_lectureHalls (world s')) ∧
  st_photos (stats s') = length (db_photos (world s')).
Proof.
  intros Hstats. unfold eval, exec. rewrite migrate_run.
  pose proof (setup_counts E s) as Hsetup. unfold eval, exec in Hsetup.
  assert (Hone : ∀ u, (setup E s).1 = Ok u → st_university (stats (setup E s).2) = 1).
  { intros u. unfold setup. rewrite !bind_run.
    destruct (clearExistingData E s) as [[[]|e] s1]; [|done]. rewrite bind_run.
    destruct (ensureStorageBucket E s1) as [[[]|e] s2]; [|done].
    unfold createUniversity, prisma_university_create, prisma_create. run.
    by destruct (university_create _ _ _). }
  destruct (setup E s) as [[universityId|e] s1]; simpl in *; [|done].
  specialize (Hsetup universityId Hstats eq_refl). specialize (Hone universityId eq_refl).
  destruct (load_outcome E F universityId s1) as (Hstudy & Hrooms & _).
  destruct (study_rooms_json F) as [studyRooms|e1] eqn:Hs;
    [|by rewrite (Hstudy e1 eq_refl)].
  destruct (rooms_json F) as [rooms|e2] eqn:Hr;
    [|by rewrite (Hrooms studyRooms e2 eq_refl eq_refl)].
  rewrite (load_read E F studyRooms rooms universityId Hs Hr).
  pose proof (load_from_counts E studyRooms rooms universityId s1 Hsetup) as Hload.
  pose proof (load_from_university E studyRooms rooms universityId s1) as Huniv.
  unfold exec in Hload, Huniv.
  match goal with
  | |- context [?m s1] => destruct (m s1) as [r2 s2]
  end.
  simpl in *.
  intros _. destruct Hload as (Hu & Hb & Hss & Hlh & Hp).
  split_and!; [congruence | rewrite <- Hu; congruence | done | done | done | done].
Qed.

(** X14 at a run over one study room and one room, each with one image. *)
Lemma summary_counts_witness :
  let run :=
    migrate okEnv
      (dataFiles [sampleStudyRoom "1" "Arts" (Some ["http://img/a.jpg"])]
                 [sampleRoom "2" "Peters" ["http://img/b.jpg"]]) in
  stats initialState = initialStats ∧
  eval run initialState = Ok () ∧
  st_buildings (stats (exec run initialState)) = 2 ∧
  st_buildings (stats (exec run initialState))
  = length (db_buildings (world (exec run initialState))) ∧
  st_photos (stats (exec run initialState))
  = length (db_photos (world (exec run initialState))).
Proof.
  cbv zeta.
  assert (Hok : eval (migrate okEnv
                        (dataFiles
                           [sampleStudyRoom "1" "Arts" (Some ["http://img/a.jpg"])]
                           [sampleRoom "2" "Peters" ["http://img/b.jpg"]])) initialState
                = Ok ()) by (vm_compute; reflexivity).
  split; [reflexivity|]. split; [exact Hok|].
  destruct (summary_counts_equal_table_sizes okEnv
              (dataFiles [sampleStudyRoom "1" "Arts" (Some ["http://img/a.jpg"])]
                         [sampleRoom "2" "Peters" ["http://img/b.jpg"]])
              initialState eq_refl Hok)
    as (_ & _ & Hb & _ & _ & Hp).
  split; [vm_compute; reflexivity|]. split; [exact Hb | exact Hp].
Defined.

(** X15: referential integrity.  When the data files hold [studyRooms] and
    [rooms] and every entry of the building lookup table is the identifier of
    a Building row that carries the entry's name, every StudySpot and every
    LectureHall the migration steps create is the row built from one record of
    its file, and the building identifier it holds is that of a Building row
    that carries the normalized name of that very record's building. *)
Theorem created_entities_reference_their_building (E : Env) (F : DataFiles)
    (buildingMap : gmap Value string) (universityId : string)
    (studyRooms : list StudyRoomData) (rooms : list RoomData) (s : State) :
  study_rooms_json F = Ok studyRooms →
  rooms_json F = Ok rooms →
  (∀ name id, buildingMap !! name = Some id →
     (id, {| bd_name := name; bd_universityId := universityId |})
     ∈ db_buildings (world s)) →
  let r1 := migrateStudySpots E F buildingMap s in
  let r2 := migrateLectureHalls E F buildingMap r1.2 in
  (∃ rows,
     db_studySpots (world r2.2) = db_studySpots (world s) ++ rows ∧
     ∀ row, row ∈ rows →
       ∃ room buildingId,
         room ∈ studyRooms ∧
         row.2 = studySpotData room buildingId ∧
         (buildingId,
          {| bd_name := normalizeBuildingName (sr_building room);
             bd_universityId := universityId |}) ∈ db_buildings (world r2.2)) ∧
  (∃ rows,
     db_lectureHalls (world r2.2) = db_lectureHalls (world s) ++ rows ∧
     ∀ row, row ∈ rows →
       ∃ room buildingId,
         room ∈ rooms ∧
         row.2 = lectureHallData room buildingId ∧
         (buildingId,
          {| bd_name := normalizeBuildingName (rd_building room);
             bd_universityId := universityId |}) ∈ db_buildings (world r2.2)).
Proof.
  intros Hstudy Hrooms Hbacked.
  rewrite (migrateStudySpots_read E F studyRooms buildingMap Hstudy),
    (migrateLectureHalls_read E F rooms buildingMap Hrooms).
  intros r1 r2.
  assert (Hres : ∀ building id,
             resolveBuilding buildingMap building = Some id →
             buildingMap !! normalizeBuildingName building = Some id).
  { unfold resolveBuilding, as_truthy. intros building id.
    destruct (buildingMap !! _) as [id'|]; [|done].
    by destruct (truthy_string id'); intros [= ->]. }
  assert (Hb1 : db_buildings (world r1.2) = db_buildings (world s)
                ∧ db_lectureHalls (world r1.2) = db_lectureHalls (world s)).
  { unfold r1, migrateStudySpots_from.
    apply (for_fold_invariant _
             (fun s0 => db_buildings (world s0) = db_buildings (world s)
                        ∧ db_lectureHalls (world s0) = db_lectureHalls (world s)));
      [|done].
    intros x acc s0 Hs0.
    unfold migrateStudySpot, prisma_studySpot_create, prisma_create. run.
    destruct (as_truthy _); cbn; [|done]. by destruct (studySpot_create _ _ _). }
  assert (Hb2 : db_buildings (world r2.2) = db_buildings (world r1.2)
                ∧ db_studySpots (world r2.2) = db_studySpots (world r1.2)).
  { unfold r2, migrateLectureHalls_from.
    apply (for_fold_invariant _
             (fun s0 => db_buildings (world s0) = db_buildings (world r1.2)
                        ∧ db_studySpots (world s0) = db_studySpots (world r1.2)));
      [|done].
    intros x acc s0 Hs0.
    unfold migrateLectureHall, prisma_lectureHall_create, prisma_create. run.
    destruct (as_truthy _); cbn; [|done]. by destruct (lectureHall_create _ _ _). }
  destruct Hb1 as [Hb1 Hh1]. destruct Hb2 as [Hb2 Hs2].
  split.
  - destruct (migrateStudySpots_from_accounts E buildingMap studyRooms s)
      as (m & rows & errors & _ & Hrows & _ & _ & _ & Hgood & _).
    fold r1 in Hrows.
    exists rows. rewrite Hs2. split; [done|].
    intros row Hrow. destruct (Hgood row Hrow) as (room & bid & Hroom & Hbid & Hd).
    exists room, bid. split; [done|]. split; [done|]. rewrite Hb2, Hb1.
    by apply Hbacked, Hres.
  - destruct (migrateLectureHalls_from_accounts E buildingMap rooms r1.2)
      as (m & rows & errors & _ & Hrows & _ & _ & _ & Hgood & _).
    fold r2 in Hrows.
    exists rows. rewrite Hrows, Hh1. split; [done|].
    intros row Hrow. destruct (Hgood row Hrow) as (room & bid & Hroom & Hbid & Hd).
    exists room, bid. split; [done|]. split; [done|]. rewrite Hb2, Hb1.
    by apply Hbacked, Hres.
Qed.

(** X15 at a state with one Building row and the lookup table that names
    it, for one study room and one room of that building. *)
Lemma created_entities_reference_witness :
  let buildingMap : gmap Value string := {[ JString "Arts Building" := "b0" ]} in
  let building := {| bd_name := JString "Arts Building"; bd_universityId := "u0" |} in
  let s := {| world := set_buildings [("b0", building)] emptyWorld;
              stats := initialStats |} in
  let spot := sampleStudyRoom "1" "Arts" None in
  let hall := sampleRoom "2" "Arts Building" [] in
  let F := dataFiles [spot] [hall] in
  let r2 := migrateLectureHalls okEnv F buildingMap
              (migrateStudySpots okEnv F buildingMap s).2 in
  (∀ name id, buildingMap !! name = Some id →
     (id, {| bd_name := name; bd_universityId := "u0" |}) ∈ db_buildings (world s)) ∧
  db_studySpots (world r2.2) = [("s0", studySpotData spot "b0")] ∧
  db_lectureHalls (world r2.2) = [("h0", lectureHallData hall "b0")] ∧
  (∃ rows,
     db_studySpots (world r2.2) = db_studySpots (world s) ++ rows ∧
     ∀ row, row ∈ rows →
       ∃ room buildingId,
         room ∈ [spot] ∧ row.2 = studySpotData room buildingId ∧
         (buildingId,
          {| bd_name := normalizeBuildingName (sr_building room);
             bd_universityId := "u0" |}) ∈ db_buildings (world r2.2)) ∧
  (∃ rows,
     db_lectureHalls (world r2.2) = db_lectureHalls (world s) ++ rows ∧
     ∀ row, row ∈ rows →
       ∃ room buildingId,
         room ∈ [hall] ∧ row.2 = lectureHallData room buildingId ∧
         (buildingId,
          {| bd_name := normalizeBuildingName (rd_building room);
             bd_universityId := "u0" |}) ∈ db_buildings (world r2.2)).
Proof.
  intros buildingMap building s spot hall F r2.
  assert (Hbacked : ∀ name id, buildingMap !! name = Some id →
            (id, {| bd_name := name; bd_universityId := "u0" |}) ∈ db_buildings (world s)).
  { intros name id Hid. apply lookup_singleton_Some in Hid as [<- <-].
    by apply list_elem_of_singleton. }
  split; [exact Hbacked|].
  split; [vm_compute; reflexivity|]. split; [vm_compute; reflexivity|].
  exact (created_entities_reference_their_building okEnv F buildingMap "u0"
           [spot] [hall] s eq_refl eq_refl Hbacked).
Defined.

(** ** The exporter: flattened documents *)

Section Objects.

Import Exporter Collections.

Lemma property_None k o : k ∉ o.*1 → property k o = None.
Proof.
  induction o as [|[k' v'] o IH]; [done|]. simpl. intros Hk.
  apply not_elem_of_cons in Hk as [Hne Hk].
  rewrite bool_decide_eq_false_2 by done. by apply IH.
Qed.

Lemma place_keys k v o : (place k v o).*1 ≡ₚ k :: o.*1.
Proof.
  induction o as [|[k' v'] o IH]; [done|]. simpl.
  destruct (array_index k) as [n|]; [destruct (array_index k') as [n'|];
    [destruct (n <? n')%N|]|]; simpl; try done;
    rewrite IH; apply Permutation_swap.
Qed.

Lemma property_place k v o k' :
  k ∉ o.*1 →
  property k' (place k v o) = if decide (k' = k) then Some v else property k' o.
Proof.
  intros Hk. induction o as [|[k0 v0] o IH]; simpl.
  { case_bool_decide; case_decide; congruence. }
  simpl in Hk. apply not_elem_of_cons in Hk as [Hne Hk]. specialize (IH Hk).
  assert (Hhead : property k' ((k, v) :: (k0, v0) :: o)
                  = if decide (k' = k) then Some v else property k' ((k0, v0) :: o)).
  { simpl. case_bool_decide; case_decide; congruence. }
  assert (Htail : property k' ((k0, v0) :: place k v o)
                  = if decide (k' = k) then Some v else property k' ((k0, v0) :: o)).
  { simpl. rewrite IH. case_bool_decide; case_decide; congruence. }
  destruct (array_index k) as [n|]; [destruct (array_index k0) as [n'|];
    [destruct (n <? n')%N|]|]; done.
Qed.

Lemma property_Some k o : k ∈ o.*1 → is_Some (property k o).
Proof.
  induction o as [|[k0 v0] o IH]; simpl; [by intros ?%elem_of_nil|].
  intros Hk. case_bool_decide; [by eexists|].
  apply elem_of_cons in Hk as [?|Hk]; [congruence | by apply IH].
Qed.

Lemma property_replace_any k v o k' :
  property k' (map (fun p => if bool_decide (p.1 = k) then (k, v) else p) o)
  = if decide (k' = k)
    then match property k o with Some _ => Some v | None => None end
    else property k' o.
Proof.
  induction o as [|[k0 v0] o IH]; simpl; [by case_decide|].
  destruct (decide (k0 = k)) as [->|Hne].
  - rewrite !bool_decide_eq_true_2 by done. simpl. rewrite IH.
    case_bool_decide; case_decide; congruence.
  - rewrite !(bool_decide_eq_false_2 (k0 = k)) by done. simpl. rewrite IH.
    case_bool_decide; case_decide; congruence.
Qed.

Lemma property_replace k v o k' :
  k ∈ o.*1 →
  property k' (map (fun p => if bool_decide (p.1 = k) then (k, v) else p) o)
  = if decide (k' = k) then Some v else property k' o.
Proof.
  intros Hk. rewrite property_replace_any.
  by destruct (property_Some k o Hk) as [v0 ->].
Qed.

Lemma replace_keys k v (o : list (string * json)) :
  (map (fun p => if bool_decide (p.1 = k) then (k, v) else p) o).*1 = o.*1.
Proof.
  induction o as [|[k0 v0] o IH]; [done|].
  change (map ?f ((k0, v0) :: o)) with (f (k0, v0) :: map f o).
  rewrite !fmap_cons, IH. f_equal. simpl. by case_bool_decide.
Qed.

(** Reading after writing a property. *)
Lemma property_set_property k v o k' :
  property k' (set_property k v o) = if decide (k' = k) then Some v else property k' o.
Proof.
  unfold set_property. case_bool_decide as Hin.
  - by apply property_replace.
  - by apply property_place.
Qed.

Lemma set_property_NoDup k v o : NoDup o.*1 → NoDup (set_property k v o).*1.
Proof.
  intros Hnd. unfold set_property. case_bool_decide as Hin.
  - by rewrite replace_keys.
  - rewrite place_keys. by constructor.
Qed.

Lemma property_assign (data o : list (string * json)) k :
  property k (foldl (fun o p => set_property p.1 p.2 o) o data)
  = match property k (reverse data) with
    | Some v => Some v
    | None => property k o
    end.
Proof.
  revert o. induction data as [|[k0 v0] data IH]; intros o; [done|].
  simpl. rewrite IH, reverse_cons, property_set_property. simpl.
  assert (Happ : ∀ l, property k (l ++ [(k0, v0)])
                      = match property k l with
                        | Some v => Some v
                        | None => if decide (k = k0) then Some v0 else None
                        end).
  { induction l as [|[k1 v1] l IHl]; simpl.
    - case_bool_decide; case_decide; congruence.
    - case_bool_decide; [done | apply IHl]. }
  rewrite Happ. destruct (property k (reverse data)); [done | by case_decide].
Qed.

Lemma assign_NoDup (data o : list (string * json)) :
  NoDup o.*1 → NoDup (foldl (fun o p => set_property p.1 p.2 o) o data).*1.
Proof.
  revert o. induction data as [|[k0 v0] data IH]; intros o Hnd; [done|].
  simpl. by apply IH, set_property_NoDup.
Qed.

End Objects.

(** X16: a flattened document has every field of the document with its
    value, and the document identifier under [id]; but a document that has a
    field named [id] keeps that field's value there, and the identifier is
    lost.  No property name occurs twice. *)
Theorem flatten_keeps_fields_and_id (doc : Exporter.Document) (k : string) :
  let o := Collections.properties (Exporter.flatten doc) in
  Collections.property k o =
    match Collections.property k (reverse (Exporter.doc_data doc)) with
    | Some v => Some v
    | None => if decide (k = "id") then Some (Exporter.JStr (Exporter.doc_id doc))
              else None
    end ∧
  NoDup o.*1.
Proof.
  cbv zeta. unfold Exporter.flatten, Collections.properties. split.
  - rewrite property_assign. destruct (Collections.property k (reverse _)); [done|].
    simpl. case_bool_decide; case_decide; congruence.
  - apply assign_NoDup. simpl. apply NoDup_singleton.
Qed.

(** ** The exporter: files written *)

Section Exports.

Import Exporter Collections.

Lemma saveToJson_effect E data filename outputDir fs :
  let filePath := path_join E outputDir filename in
  let r := saveToJson E data filename outputDir fs in
  (∀ other, other ≠ filePath → files r.2 !! other = files fs !! other) ∧
  (r.1 = Ok () →
   files r.2 !! filePath = Some (JSON_stringify (Number_toString E) data) ∧
   outputDir ∈ directories r.2) ∧
  (∀ e, r.1 = Throw e → files r.2 = files fs).
Proof.
  unfold saveToJson, mkdirSync, writeFileSync.
  case_bool_decide as Hdir.
  - destruct (writeFileSync_error _ _ _ _); cbn; split_and!; try done.
    + intros other Hne. by apply lookup_insert_ne.
    + intros _. split; [apply lookup_insert_eq | done].
  - destruct (mkdirSync_error _ _ _); cbn; [by split_and!|].
    destruct (writeFileSync_error _ _ _ _); cbn; split_and!; try done.
    + intros other Hne. by apply lookup_insert_ne.
    + intros _. split; [apply lookup_insert_eq | set_solver].
Qed.

Lemma exportCollectionToJson_effect E collectionName outputDir fs :
  let filePath := path_join E outputDir (collectionName +:+ ".json") in
  let r := exportCollectionToJson E collectionName outputDir fs in
  (∀ other, other ≠ filePath → files r.2 !! other = files fs !! other) ∧
  (r.1 = Ok () →
   ∃ docs,
     collection_get E collectionName = Ok docs ∧
     files r.2 !! filePath
     = Some (JSON_stringify (Number_toString E) (JArr (flatten <$> docs))) ∧
     outputDir ∈ directories r.2) ∧
  (∀ e, collection_get E collectionName = Throw e → r = (Throw e, fs)) ∧
  (∀ e, r.1 = Throw e → files r.2 = files fs).
Proof.
  unfold exportCollectionToJson, getCollectionData.
  destruct (collection_get E collectionName) as [docs|e]; cbn.
  2:{ split_and!; [done | done | by intros ? [= ->] | done]. }
  destruct (saveToJson_effect E (JArr (map flatten docs))
              (collectionName +:+ ".json") outputDir fs) as (Hframe & Hok & Hfail).
  split_and!; [done | | done | done].
  intros Hr. exists docs. by destruct (Hok Hr).
Qed.

Lemma exportEach_app S l1 l2 outputDir fs :
  exportEach S (l1 ++ l2) outputDir fs =
  match exportEach S l1 outputDir fs with
  | (Ok _, fs') => exportEach S l2 outputDir fs'
  | (Throw e, fs') => (Throw e, fs')
  end.
Proof.
  revert fs. induction l1 as [|c l1 IH]; intros fs; [done|]. simpl.
  destruct (exportCollectionToJson _ c outputDir fs) as [[[]|e] fs']; [apply IH | done].
Qed.

Lemma exportEach_frame S collections outputDir fs p :
  (∀ c, c ∈ collections → p ≠ path_join (exporter S) outputDir (c +:+ ".json")) →
  files (exportEach S collections outputDir fs).2 !! p = files fs !! p.
Proof.
  revert fs. induction collections as [|c l IH]; intros fs Hp; [done|]. simpl.
  destruct (exportCollectionToJson_effect (exporter S) c outputDir fs)
    as (Hframe & _).
  assert (Hc : p ≠ path_join (exporter S) outputDir (c +:+ ".json"))
    by (apply Hp; by apply elem_of_cons; left).
  destruct (exportCollectionToJson (exporter S) c outputDir fs) as [[[]|e] fs1];
    simpl in Hframe.
  - rewrite IH; [by apply Hframe|]. intros c' Hc'. apply Hp. by apply elem_of_cons; right.
  - by apply Hframe.
Qed.

Lemma exportEach_written S collections outputDir fs :
  (exportEach S collections outputDir fs).1 = Ok () →
  (∀ a b, a ∈ collections → b ∈ collections → a ≠ b →
          path_join (exporter S) outputDir (a +:+ ".json")
          ≠ path_join (exporter S) outputDir (b +:+ ".json")) →
  ∀ c, c ∈ collections →
    ∃ docs,
      collection_get (exporter S) c = Ok docs ∧
      files (exportEach S collections outputDir fs).2
        !! path_join (exporter S) outputDir (c +:+ ".json")
      = Some (JSON_stringify (Number_toString (exporter S)) (JArr (flatten <$> docs))).
Proof.
  revert fs. induction collections as [|c0 l IH]; intros fs Hok Hdistinct c Hc.
  { by apply elem_of_nil in Hc. }
  simpl in Hok |- *.
  destruct (exportCollectionToJson_effect (exporter S) c0 outputDir fs)
    as (_ & Hwritten & _).
  destruct (exportCollectionToJson (exporter S) c0 outputDir fs) as [[[]|e] fs1];
    [|done].
  destruct (Hwritten eq_refl) as (docs0 & Hdocs0 & Hfile0 & _). simpl in Hfile0.
  destruct (decide (c ∈ l)) as [Hin|Hout].
  - apply IH; [done | | done].
    intros a b Ha Hb. apply Hdistinct; by apply elem_of_cons; right.
  - apply elem_of_cons in Hc as [->|?]; [|done].
    exists docs0. split; [done|]. rewrite <- Hfile0.
    apply exportEach_frame. intros c' Hc'. apply Hdistinct.
    + by apply elem_of_cons; left.
    + by apply elem_of_cons; right.
    + by intros ->.
Qed.

End Exports.


(** X18: [exportAllCollectionsToJson] stops at the first collection whose
    read fails: it throws that error, the files of the collections listed
    before it stay written (nothing is rolled back), and the collections
    listed after it are not exported. *)
Theorem exportAll_stops_at_first_failure (S : Collections.Store)
    (outputDir : string) (fs : Exporter.FileSystem) (before after : list string)
    (bad e : string) :
  Collections.listCollections S = Ok (before ++ bad :: after) →
  Exporter.collection_get (Collections.exporter S) bad = Throw e →
  (Collections.exportEach S before outputDir fs).1 = Ok () →
  Collections.exportAllCollectionsToJson S outputDir fs =
  (Throw e, (Collections.exportEach S before outputDir fs).2).
Proof.
  intros Hlist Hbad Hbefore.
  unfold Collections.exportAllCollectionsToJson, Collections.getAllCollections.
  rewrite Hlist, exportEach_app.
  destruct (Collections.exportEach S before outputDir fs) as [[[]|e'] fs1]; [|done].
  simpl.
  destruct (exportCollectionToJson_effect (Collections.exporter S) bad outputDir fs1)
    as (_ & _ & Hfail & _).
  by rewrite (Hfail e Hbad).
Qed.

(** X18 at a store whose second collection cannot be read. *)
Lemma exportAll_stops_witness :
  let r := Collections.exportAllCollectionsToJson brokenStore "data" emptyDisk in
  Collections.listCollections brokenStore = Ok (["rooms"] ++ "study-rooms" :: ["users"]) ∧
  r.1 = Throw "Error: PERMISSION_DENIED" ∧
  Exporter.files r.2 !! "data/rooms.json" = Some "[]" ∧
  Exporter.files r.2 !! "data/users.json" = None.
Proof.
  intros r.
  assert (Hlist : Collections.listCollections brokenStore
                  = Ok (["rooms"] ++ "study-rooms" :: ["users"])) by reflexivity.
  split; [exact Hlist|].
  pose proof (exportAll_stops_at_first_failure brokenStore "data" emptyDisk
                ["rooms"] ["users"] "study-rooms" "Error: PERMISSION_DENIED"
                Hlist eq_refl eq_refl) as Hrun.
  fold r in Hrun. rewrite Hrun. split; [reflexivity|].
  split; vm_compute; reflexivity.
Defined.

(** X19: when [exportAllCollectionsToJson] returns normally and distinct
    collections have distinct file paths, every listed collection has its
    file afterwards, holding the serialization of its flattened documents. *)
Theorem exportAll_writes_every_collection (S : Collections.Store)
    (outputDir : string) (fs : Exporter.FileSystem) (collections : list string) :
  Collections.listCollections S = Ok collections →
  (Collections.exportAllCollectionsToJson S outputDir fs).1 = Ok () →
  (∀ a b, a ∈ collections → b ∈ collections → a ≠ b →
          Exporter.path_join (Collections.exporter S) outputDir (a +:+ ".json")
          ≠ Exporter.path_join (Collections.exporter S) outputDir (b +:+ ".json")) →
  ∀ c, c ∈ collections →
    ∃ docs,
      Exporter.collection_get (Collections.exporter S) c = Ok docs ∧
      Exporter.files (Collections.exportAllCollectionsToJson S outputDir fs).2
        !! Exporter.path_join (Collections.exporter S) outputDir (c +:+ ".json")
      = Some (Exporter.JSON_stringify
                (Exporter.Number_toString (Collections.exporter S))
                (Exporter.JArr (Exporter.flatten <$> docs))).
Proof.
  unfold Collections.exportAllCollectionsToJson, Collections.getAllCollections.
  intros ->. apply exportEach_written.
Qed.

(** X19 at a store with two collections. *)
Lemma exportAll_writes_witness :
  let r := Collections.exportAllCollectionsToJson sampleStore "data" emptyDisk in
  r.1 = Ok () ∧
  ∃ docs,
    Exporter.collection_get (Collections.exporter sampleStore) "rooms" = Ok docs ∧
    Exporter.files r.2 !! "data/rooms.json"
    = Some (Exporter.JSON_stringify integerToString
              (Exporter.JArr (Exporter.flatten <$> docs))).
Proof.
  intros r.
  assert (Hok : r.1 = Ok ()) by (vm_compute; reflexivity).
  split; [exact Hok|].
  apply (exportAll_writes_every_collection sampleStore "data" emptyDisk
           ["rooms"; "study-rooms"] eq_refl Hok).
  - intros a b Ha Hb Hne.
    repeat (apply elem_of_cons in Ha as [->|Ha]);
      repeat (apply elem_of_cons in Hb as [->|Hb]);
      try (by apply elem_of_nil in Ha); try (by apply elem_of_nil in Hb);
      try done; by vm_compute.
  - by apply elem_of_cons; left.
Defined.

(** ** The exporter: documents with their sub-collections *)

Section Nested.

Import Exporter Collections.

Context (S : Store).

Lemma readSubcollections_property collectionName docId ids subs0 subs :
  readSubcollections S collectionName docId ids subs0 = Ok subs →
  ∀ sub,
    (sub ∈ ids →
     ∃ docs, subcollection_get S collectionName docId sub = Ok docs ∧
             property sub subs = Some (JArr (flatten <$> docs))) ∧
    (sub ∉ ids → property sub subs = property sub subs0).
Proof.
  revert subs0. induction ids as [|subcol rest IH]; intros subs0 Hread sub.
  { injection Hread as <-. split; [by intros ?%elem_of_nil | done]. }
  simpl in Hread.
  destruct (subcollection_get S collectionName docId subcol) as [docs|e] eqn:Hget;
    [|done].
  destruct (IH _ Hread sub) as [Hin Hout].
  destruct (decide (sub ∈ rest)) as [Hrest|Hrest].
  { split; [intros _; by apply Hin | intros Hn; exfalso; apply Hn; by apply elem_of_cons; right]. }
  rewrite (Hout Hrest), property_set_property. split.
  - intros [->|?]%elem_of_cons; [|done]. exists docs. split; [done|].
    by rewrite decide_True.
  - intros [Hne _]%not_elem_of_cons. by rewrite decide_False.
Qed.

Lemma readSubcollections_unreadable collectionName docId ids subs0 sub e :
  sub ∈ ids →
  subcollection_get S collectionName docId sub = Throw e →
  ∃ e', readSubcollections S collectionName docId ids subs0 = Throw e'.
Proof.
  intros Hin Hget. revert subs0.
  induction ids as [|subcol rest IH]; intros subs0; [by apply elem_of_nil in Hin|].
  simpl. destruct (decide (subcol = sub)) as [->|Hne].
  - rewrite Hget. by eexists.
  - destruct (subcollection_get S collectionName docId subcol); [|by eexists].
    apply IH. apply elem_of_cons in Hin as [?|?]; [congruence | done].
Qed.

Lemma withSubcollections_nests collectionName doc docData :
  withSubcollections S collectionName doc = Ok docData →
  nests_subcollections S collectionName doc docData.
Proof.
  unfold withSubcollections, nests_subcollections.
  destruct (doc_listCollections S collectionName (doc_id doc)) as [ids|e]; [|done].
  destruct (readSubcollections S collectionName (doc_id doc) ids []) as [subs|e]
    eqn:Hread; [|done].
  intros [= <-]. exists ids, subs. split; [done|]. simpl.
  split; [by rewrite property_set_property, decide_True|].
  split.
  { intros k Hk. by rewrite !property_set_property, !decide_False. }
  split.
  - intros sub Hsub. by apply (readSubcollections_property _ _ _ _ _ Hread sub).
  - intros sub Hsub.
    by rewrite (proj2 (readSubcollections_property _ _ _ _ _ Hread sub) Hsub).
Qed.

Lemma readDocuments_nests collectionName docs documents :
  readDocuments S collectionName docs = Ok documents →
  Forall2 (nests_subcollections S collectionName) docs documents.
Proof.
  revert documents. induction docs as [|doc rest IH]; intros documents; simpl.
  { intros [= <-]. constructor. }
  destruct (withSubcollections S collectionName doc) as [docData|e] eqn:Hdoc; [|done].
  destruct (readDocuments S collectionName rest) as [tail|e]; [|done].
  intros [= <-]. constructor; [by apply withSubcollections_nests | by apply IH].
Qed.

Lemma readDocuments_unreadable collectionName docs doc e :
  doc ∈ docs →
  withSubcollections S collectionName doc = Throw e →
  ∃ e', readDocuments S collectionName docs = Throw e'.
Proof.
  intros Hin Hdoc. induction docs as [|doc0 rest IH]; [by apply elem_of_nil in Hin|].
  simpl. destruct (withSubcollections S collectionName doc0) as [d0|e0] eqn:Hdoc0;
    [|by eexists].
  destruct IH as [e' ->]; [|by eexists].
  apply elem_of_cons in Hin as [->|?]; [congruence | done].
Qed.

End Nested.

(** X20: when [exportCollectionWithSubcollections] returns normally, the file
    [<outputDir>/<collectionName>_with_subcollections.json] holds the
    serialization of an array with one object per document of the snapshot,
    in order; each object has the properties of the flattened document,
    except that [_subcollections] (also when the document has a field of
    that name) is an object with, for exactly the sub-collections listed for
    the document, the array of their flattened documents. *)
Theorem exportWithSubcollections_nests_each_document (S : Collections.Store)
    (collectionName outputDir : string) (fs : Exporter.FileSystem) :
  let filePath :=
    Exporter.path_join (Collections.exporter S) outputDir
      (collectionName +:+ "_with_subcollections.json") in
  let r := Collections.exportCollectionWithSubcollections S collectionName outputDir fs in
  r.1 = Ok () →
  ∃ docs documents,
    Exporter.collection_get (Collections.exporter S) collectionName = Ok docs ∧
    Exporter.files r.2 !! filePath
    = Some (Exporter.JSON_stringify
              (Exporter.Number_toString (Collections.exporter S))
              (Exporter.JArr documents)) ∧
    Forall2 (nests_subcollections S collectionName) docs documents.
Proof.
  cbv zeta. unfold Collections.exportCollectionWithSubcollections.
  destruct (Exporter.collection_get _ collectionName) as [docs|e]; [|done].
  destruct (Collections.readDocuments S collectionName docs) as [documents|e]
    eqn:Hread; [|done].
  intros Hok. exists docs, documents. split; [done|].
  destruct (saveToJson_effect (Collections.exporter S) (Exporter.JArr documents)
              (collectionName +:+ "_with_subcollections.json") outputDir fs)
    as (_ & Hwritten & _).
  split; [by destruct (Hwritten Hok) | by apply readDocuments_nests].
Qed.

(** X20 at a store whose document has one (empty) sub-collection. *)
Lemma exportWithSubcollections_nests_witness :
  let r := Collections.exportCollectionWithSubcollections sampleStore "study-rooms"
             "data" emptyDisk in
  r.1 = Ok () ∧
  ∃ docs documents,
    Exporter.collection_get (Collections.exporter sampleStore) "study-rooms" = Ok docs ∧
    Exporter.files r.2 !! "data/study-rooms_with_subcollections.json"
    = Some (Exporter.JSON_stringify integerToString (Exporter.JArr documents)) ∧
    Forall2 (nests_subcollections sampleStore "study-rooms") docs documents.
Proof.
  intros r.
  assert (Hok : r.1 = Ok ()) by (vm_compute; reflexivity).
  split; [exact Hok|].
  exact (exportWithSubcollections_nests_each_document sampleStore "study-rooms"
           "data" emptyDisk Hok).
Defined.

(** X21: [exportCollectionWithSubcollections] writes only after every read:
    one sub-collection of one document that cannot be read makes the whole
    export throw with the disk exactly as it was, whatever the other
    documents are. *)
Theorem unreadable_subcollection_aborts_export (S : Collections.Store)
    (collectionName outputDir : string) (fs : Exporter.FileSystem)
    (docs : list Exporter.Document) (doc : Exporter.Document) (ids : list string)
    (sub e : string) :
  Exporter.collection_get (Collections.exporter S) collectionName = Ok docs →
  doc ∈ docs →
  Collections.doc_listCollections S collectionName (Exporter.doc_id doc) = Ok ids →
  sub ∈ ids →
  Collections.subcollection_get S collectionName (Exporter.doc_id doc) sub = Throw e →
  ∃ e',
    Collections.exportCollectionWithSubcollections S collectionName outputDir fs
    = (Throw e', fs).
Proof.
  intros Hdocs Hdoc Hids Hsub Hget.
  unfold Collections.exportCollectionWithSubcollections. rewrite Hdocs.
  destruct (readSubcollections_unreadable S collectionName (Exporter.doc_id doc)
              ids [] sub e Hsub Hget) as [e1 Hread].
  destruct (readDocuments_unreadable S collectionName docs doc e1 Hdoc) as [e' ->].
  - unfold Collections.withSubcollections. by rewrite Hids, Hread.
  - by eexists.
Qed.

(** X21 at a store whose second sub-collection cannot be read. *)
Lemma unreadable_subcollection_witness :
  ∃ e',
    Collections.exportCollectionWithSubcollections unreadableReviewsStore
      "study-rooms" "data" emptyDisk
    = (Throw e', emptyDisk).
Proof.
  apply (unreadable_subcollection_aborts_export unreadableReviewsStore "study-rooms"
           "data" emptyDisk [sampleDocument] sampleDocument
           ["photos"; "reviews"] "reviews" "Error: UNAVAILABLE").
  - reflexivity.
  - by apply elem_of_cons; left.
  - reflexivity.
  - by apply elem_of_cons; right; apply elem_of_cons; left.
  - reflexivity.
Defined.

(** ** Objects without a Photo row *)

(** X22: the upload comes before the Photo row and is not undone.  When an
    image is downloaded, optimized and uploaded but the creation of its Photo
    row fails, the bucket holds the optimized image at the image's path
    (replacing whatever was stored there), no Photo row is added, the counter
    stays, and the error of the store is recorded under the record's name. *)
Theorem photo_row_failure_leaves_object (E : Env) (kind : EntityKind)
    (universityId entityId name : string) (i : nat) (url : string) (s : State)
    (data out : Buffer) (e : string) :
  let path := storagePath kind universityId entityId i in
  let s' := exec (processImage E kind universityId entityId name i url) s in
  (∀ w, axios_get E w url = Ok data) →
  eval (optimizeImage E data) s = Ok out →
  (∀ w, upload_error E w path out = None) →
  (∀ w d, photo_create E w d = Throw e) →
  storage_objects (world s') !! path = Some out ∧
  db_photos (world s') = db_photos (world s) ∧
  st_photos (stats s') = st_photos (stats s) ∧
  st_errors (stats s') = st_errors (stats s) ++ [photoErrorMsg kind name e].
Proof.
  cbv zeta. intros Hget Hopt Hup Hrow.
  unfold processImage, downloadImage, uploadToSupabase, storage_upload,
    prisma_photo_create, prisma_create.
  unfold optimizeImage in *. run. rewrite Hget. cbn.
  destruct (sharp_metadata E data) as [md|]; cbn in *; [|done].
  destruct (newDimensions md) as [nw nh].
  destruct (sharp_resize_webp E data nw nh 85) as [out'|]; cbn in *; [|done].
  injection Hopt as ->. rewrite Hup. cbn. rewrite Hrow. cbn.
  split; [apply lookup_insert_eq | done].
Qed.

(** X22 at the first image of a study spot, with the Photo table down. *)
Lemma photo_row_failure_witness :
  let s' := exec (processImage photoTableDownEnv StudySpotKind "u0" "s0" "Room 1" 0
                    "http://img/a.jpg") initialState in
  storage_objects (world s') !! storagePath StudySpotKind "u0" "s0" 0 = Some [] ∧
  db_photos (world s') = [] ∧
  st_photos (stats s') = 0 ∧
  st_errors (stats s')
  = [photoErrorMsg StudySpotKind "Room 1" "PrismaClientKnownRequestError: P1001"].
Proof.
  exact (photo_row_failure_leaves_object photoTableDownEnv StudySpotKind "u0" "s0"
           "Room 1" 0 "http://img/a.jpg" initialState [] []
           "PrismaClientKnownRequestError: P1001"
           (fun _ => eq_refl) eq_refl (fun _ => eq_refl) (fun _ _ => eq_refl)).
Defined.
